(** * The answer store of the exam-practice mini program

    A shallow embedding of [src/store/index.ts] (the zustand store
    [useAppStore]) and of [MockDataService.getRecommendedQuestions], with the
    properties of the mastery matrix, the answer history, the streak counters
    and the wrong-question book.

    JavaScript numbers that hold mastery scores are IEEE 754 binary64 values
    and are modelled by Rocq's primitive floats, so [0.5 + 0.1] below is the
    very addition the program performs.  Counters (streaks, totals) only ever
    hold integers, on which binary64 is exact below 2^53; they are modelled
    by [Z].  An object literal used as a map is a finite map of its own
    properties, read through [JS.get], which also answers for the members
    inherited from [Object.prototype]. *)

From Stdlib Require Import ZArith Lia Floats Sorted.
From stdpp Require Import base option list gmap strings.

#[local] Set Warnings "-inexact-float".
#[local] Open Scope Z_scope.

(** ** JavaScript numbers *)

Module JS.

Definition number := float.

(** [ToBoolean] on a number: [+0], [-0] and [NaN] are falsy. *)
Definition truthy (x : number) : bool :=
  negb (is_nan x || is_zero x).

(** [v || d] for a read that found a number ([Some]) or nothing at all
    ([None], that is [undefined]): falsy numbers and [undefined] yield [d]. *)
Definition or_default (v : option number) (d : number) : number :=
  match v with
  | Some x => if truthy x then x else d
  | None => d
  end.

(** The methods that every object literal inherits from [Object.prototype];
    besides them it inherits the accessor [__proto__]. *)
Definition Object_prototype_methods : list string :=
  ["constructor"; "hasOwnProperty"; "isPrototypeOf"; "propertyIsEnumerable";
   "toLocaleString"; "toString"; "valueOf"; "__defineGetter__";
   "__defineSetter__"; "__lookupGetter__"; "__lookupSetter__"].

Definition isMethodName (key : string) : bool :=
  existsb (String.eqb key) Object_prototype_methods.

(** The property names that an object literal answers without holding
    them. *)
Definition inherited (key : string) : bool :=
  isMethodName key || String.eqb key "__proto__".

(** The values met when an object literal that holds numbers is read and
    the result is used in arithmetic. *)
Inductive value :=
| VUndefined
| VNumber (x : number)
| VMethod      (* a function inherited from [Object.prototype] *)
| VPrototype   (* [Object.prototype] itself, which [__proto__] reads *)
| VText.       (* a string that is no numeric literal *)

(** [o[key]] on an object literal whose own properties are the entries of
    [o]: the own property if there is one, the inherited member otherwise. *)
Definition get (o : gmap string number) (key : string) : value :=
  match o !! key with
  | Some x => VNumber x
  | None =>
      if isMethodName key then VMethod
      else if String.eqb key "__proto__" then VPrototype
      else VUndefined
  end.

(** [o[key] = x]: an own property is created or overwritten, except that
    without an own [__proto__] the inherited setter runs, which ignores a
    number. *)
Definition set (o : gmap string number) (key : string) (x : number)
    : gmap string number :=
  match o !! key with
  | Some _ => <[key := x]> o
  | None => if String.eqb key "__proto__" then o else <[key := x]> o
  end.

(** [ToBoolean]: objects, functions and the strings met here are truthy. *)
Definition ToBoolean (v : value) : bool :=
  match v with
  | VUndefined => false
  | VNumber x => truthy x
  | VMethod | VPrototype | VText => true
  end.

(** [v || d]. *)
Definition or_ (v : value) (d : number) : value :=
  if ToBoolean v then v else VNumber d.

(** [v + a] for a number [a]: numbers are added; a function or an object
    is first turned into its source text or into ["[object Object]"], to
    which the digits of [a] are appended. *)
Definition plus (v : value) (a : number) : value :=
  match v with
  | VNumber x => VNumber (x + a)%float
  | VUndefined => VNumber nan
  | VMethod | VPrototype | VText => VText
  end.

(** [ToNumber], which [Math.min] applies to its arguments. *)
Definition ToNumber (v : value) : number :=
  match v with
  | VNumber x => x
  | VUndefined | VMethod | VPrototype | VText => nan
  end.

(** [Math.min(a, b)]: [NaN] if either argument is, and [-0] below [+0]. *)
Definition Math_min (a b : number) : number :=
  if is_nan a || is_nan b then nan
  else if (a <? b)%float then a
  else if (b <? a)%float then b
  else if get_sign a then a else b.

(** [Math.max(a, b)]: [NaN] if either argument is, and [+0] above [-0]. *)
Definition Math_max (a b : number) : number :=
  if is_nan a || is_nan b then nan
  else if (a <? b)%float then b
  else if (b <? a)%float then a
  else if get_sign a then b else a.

(** The closed interval [0, 1] of scores. *)
Definition in_unit (x : number) : bool :=
  (0 <=? x)%float && (x <=? 1)%float.

End JS.

(** ** Data model *)

(** An exam question, as in the catalog [MOCK_QUESTIONS]. *)
Record Question := mkQuestion {
  id : string;
  content : string;
  options : list string;
  correctAnswer : string;
  explanation : string;
  difficulty : Z;
  subject : string;
  category : string;
  knowledgePoints : list string;
  year : Z;
  usage_count : Z;
  correct_rate : JS.number
}.

(** One entry of [answerHistory], built by [submitAnswer]. *)
Record AnswerRecord := mkAnswerRecord {
  questionId : string;
  userAnswer : string;
  isCorrect : bool;
  responseTime : Z;
  answeredAt : string;
  question : Question
}.

Record LastAnswer := mkLastAnswer {
  la_isCorrect : bool;
  la_explanation : string
}.

Record UserProfile := mkUserProfile {
  up_id : string;
  nickname : string;
  avatar : string;
  level : string;
  targetExam : string;
  masteryMatrix : gmap string JS.number;
  totalQuestions : Z;
  correctAnswers : Z;
  up_streak : Z;
  longestStreak : Z;
  studyDays : Z
}.

(** The state held by [useAppStore]. *)
Record AppState := mkAppState {
  currentQuestion : option Question;
  questionQueue : list Question;
  currentIndex : Z;
  isLoading : bool;
  userProfile : UserProfile;
  answerHistory : list AnswerRecord;
  streak : Z;
  sessionQuestions : Z;
  sessionCorrect : Z;
  showResult : bool;
  lastAnswer : option LastAnswer
}.

Definition initialProfile : UserProfile := {|
  up_id := "mock-user-001";
  nickname := "软考学霸";
  avatar := "https://img.icons8.com/fluency/96/user-male-circle.png";
  level := "初级程序员";
  targetExam := "程序员考试";
  masteryMatrix := ∅;
  totalQuestions := 0;
  correctAnswers := 0;
  up_streak := 0;
  longestStreak := 0;
  studyDays := 1
|}.

Definition initialState : AppState := {|
  currentQuestion := None;
  questionQueue := [];
  currentIndex := 0;
  isLoading := false;
  userProfile := initialProfile;
  answerHistory := [];
  streak := 0;
  sessionQuestions := 0;
  sessionCorrect := 0;
  showResult := false;
  lastAnswer := None
|}.

(** ** Array helpers *)

(** [Array.prototype.findIndex]; [None] stands for [-1]. *)
Fixpoint findIndex {A : Type} (p : A -> bool) (l : list A) : option nat :=
  match l with
  | [] => None
  | x :: t => if p x then Some 0%nat else S <$> findIndex p t
  end.

(** [self.filter((x, index, self) => p(x, index, self))], resumed at
    position [i] of [self]. *)
Fixpoint filter_from {A : Type} (p : A -> nat -> list A -> bool)
    (self : list A) (i : nat) (l : list A) : list A :=
  match l with
  | [] => []
  | x :: t =>
      if p x i self then x :: filter_from p self (S i) t
      else filter_from p self (S i) t
  end.

Definition filter_indexed {A : Type} (p : A -> nat -> list A -> bool)
    (self : list A) : list A :=
  filter_from p self 0 self.

(** ** Operations of the store *)

Definition setCurrentQuestion (q : option Question) (st : AppState) : AppState :=
  {| currentQuestion := q;
     questionQueue := questionQueue st;
     currentIndex := currentIndex st;
     isLoading := isLoading st;
     userProfile := userProfile st;
     answerHistory := answerHistory st;
     streak := streak st;
     sessionQuestions := sessionQuestions st;
     sessionCorrect := sessionCorrect st;
     showResult := showResult st;
     lastAnswer := lastAnswer st |}.

(** The body of [knowledgePoints.forEach] at one [point].  The matrix is an
    object literal keyed by knowledge-point tags: reading a tag that was
    never written gives [undefined], unless the tag names a member of
    [Object.prototype], which is then what the read returns. *)
Definition updatePoint (correct : bool) (newMasteryMatrix : gmap string JS.number)
    (point : string) : gmap string JS.number :=
  let currentMastery := JS.or_ (JS.get newMasteryMatrix point) 0.5%float in
  let adjustment := if correct then 0.1%float else (-0.05)%float in
  JS.set newMasteryMatrix point
    (JS.Math_max 0
       (JS.Math_min 1 (JS.ToNumber (JS.plus currentMastery adjustment))))%float.

(** The whole [forEach] over the tags of the answered question, on a copy
    of the matrix. *)
Definition updateMastery (correct : bool) (points : list string)
    (m : gmap string JS.number) : gmap string JS.number :=
  fold_left (updatePoint correct) points m.

(** [submitAnswer(answer, responseTime)]; [now] is the value of
    [new Date().toISOString()] at the call. *)
Definition submitAnswer (answer : string) (rt : Z) (now : string)
    (st : AppState) : AppState :=
  match currentQuestion st with
  | None => st
  | Some q =>
      let profile := userProfile st in
      let correct := String.eqb answer (correctAnswer q) in
      let newAnswerRecord :=
        {| questionId := id q; userAnswer := answer; isCorrect := correct;
           responseTime := rt; answeredAt := now; question := q |} in
      let newAnswerHistory := answerHistory st ++ [newAnswerRecord] in
      let newStreak := if correct then streak st + 1 else 0 in
      let newTotalQuestions := totalQuestions profile + 1 in
      let newCorrectAnswers :=
        correctAnswers profile + (if correct then 1 else 0) in
      let newLongestStreak := Z.max (longestStreak profile) newStreak in
      let newMasteryMatrix :=
        updateMastery correct (knowledgePoints q) (masteryMatrix profile) in
      {| currentQuestion := currentQuestion st;
         questionQueue := questionQueue st;
         currentIndex := currentIndex st;
         isLoading := isLoading st;
         userProfile :=
           {| up_id := up_id profile;
              nickname := nickname profile;
              avatar := avatar profile;
              level := level profile;
              targetExam := targetExam profile;
              masteryMatrix := newMasteryMatrix;
              totalQuestions := newTotalQuestions;
              correctAnswers := newCorrectAnswers;
              up_streak := newStreak;
              longestStreak := newLongestStreak;
              studyDays := studyDays profile |};
         answerHistory := newAnswerHistory;
         streak := newStreak;
         sessionQuestions := sessionQuestions st + 1;
         sessionCorrect := sessionCorrect st + (if correct then 1 else 0);
         showResult := true;
         lastAnswer :=
           Some {| la_isCorrect := correct; la_explanation := explanation q |}
      |}
  end.

Definition with_answerHistory (h : list AnswerRecord) (st : AppState) : AppState :=
  {| currentQuestion := currentQuestion st;
     questionQueue := questionQueue st;
     currentIndex := currentIndex st;
     isLoading := isLoading st;
     userProfile := userProfile st;
     answerHistory := h;
     streak := streak st;
     sessionQuestions := sessionQuestions st;
     sessionCorrect := sessionCorrect st;
     showResult := showResult st;
     lastAnswer := lastAnswer st |}.

(** [q => q && q.id === question.id]. *)
Definition sameId (question0 q : Question) : bool :=
  String.eqb (id q) (id question0).

(** The callback of the deduplicating [filter]:
    [index === self.findIndex(q => q && q.id === question.id)]. *)
Definition isFirstOfId (question0 : Question) (index : nat)
    (self : list Question) : bool :=
  bool_decide (findIndex (sameId question0) self = Some index).

(** [getWrongQuestions()]: the questions of the incorrect records, the
    first occurrence of each question id only.  Every record built by
    [submitAnswer] carries its question, so the truthiness guards on
    [record], [record.question], [question] and [q] always pass. *)
Definition getWrongQuestionsOf (history : list AnswerRecord) : list Question :=
  filter_indexed isFirstOfId
    (map question (filter (fun record => isCorrect record = false) history)).

Definition getWrongQuestions (st : AppState) : list Question :=
  getWrongQuestionsOf (answerHistory st).

(** [clearWrongAnswers()] keeps the correct records only. *)
Definition clearWrongAnswers (st : AppState) : AppState :=
  with_answerHistory
    (filter (fun record => isCorrect record = true) (answerHistory st)) st.

(** [markQuestionAsMastered(questionId)] drops the incorrect records of one
    question. *)
Definition markQuestionAsMastered (qid : string) (st : AppState) : AppState :=
  with_answerHistory
    (filter (fun record =>
               ¬ (questionId record = qid ∧ isCorrect record = false))
            (answerHistory st)) st.

(** ** Recording a sequence of answers *)

(** One answer event: the question shown, the option chosen, the latency
    and the clock reading. *)
Record Submission := mkSubmission {
  sub_question : Question;
  sub_answer : string;
  sub_responseTime : Z;
  sub_now : string
}.

Definition record (st : AppState) (ev : Submission) : AppState :=
  submitAnswer (sub_answer ev) (sub_responseTime ev) (sub_now ev)
    (setCurrentQuestion (Some (sub_question ev)) st).

Definition recordAll (evs : list Submission) (st : AppState) : AppState :=
  fold_left record evs st.

(** ** The mock data service *)

Module MockData.

Definition dquote : string := String (Ascii.ascii_of_nat 34) EmptyString.

Definition q_001 : Question := {|
  id := "q_001";
  content := "在UML类图中，下列哪种关系表示" +:+ dquote +:+ "has-a" +:+ dquote +:+ "关系？";
  options := ["A. 继承关系(Inheritance)"; "B. 实现关系(Realization)";
              "C. 组合关系(Composition)"; "D. 依赖关系(Dependency)"];
  correctAnswer := "C";
  explanation := "组合关系表示整体与部分的关系，即'has-a'关系。组合是一种强聚合关系，表示整体拥有部分，部分不能脱离整体单独存在。";
  difficulty := 3;
  subject := "软件工程";
  category := "UML建模";
  knowledgePoints := ["UML类图"; "关系类型"; "面向对象设计"];
  year := 2023;
  usage_count := 1250;
  correct_rate := 0.68%float
|}.

Definition q_002 : Question := {|
  id := "q_002";
  content := "关系数据库中，用于保证数据完整性的约束不包括？";
  options := ["A. 主键约束(Primary Key)"; "B. 外键约束(Foreign Key)";
              "C. 检查约束(Check)"; "D. 索引约束(Index)"];
  correctAnswer := "D";
  explanation := "索引约束不是数据完整性约束。索引是为了提高查询效率而创建的数据结构，不用于保证数据完整性。数据完整性约束包括：主键约束、外键约束、检查约束、唯一约束等。";
  difficulty := 2;
  subject := "数据库系统";
  category := "数据库设计";
  knowledgePoints := ["数据完整性"; "约束类型"; "关系数据库"];
  year := 2023;
  usage_count := 980;
  correct_rate := 0.75%float
|}.

Definition q_003 : Question := {|
  id := "q_003";
  content := "TCP协议采用什么机制来保证可靠传输？";
  options := ["A. 滑动窗口和确认应答"; "B. 路由选择和拥塞控制";
              "C. 数据加密和身份验证"; "D. 负载均衡和故障转移"];
  correctAnswer := "A";
  explanation := "TCP使用滑动窗口机制控制发送速率，使用确认应答(ACK)机制确保数据包被正确接收。这两个机制配合超时重传、序号机制等，共同保证TCP的可靠传输。";
  difficulty := 3;
  subject := "计算机网络";
  category := "传输层协议";
  knowledgePoints := ["TCP协议"; "可靠传输"; "滑动窗口"];
  year := 2024;
  usage_count := 1580;
  correct_rate := 0.62%float
|}.

Definition q_004 : Question := {|
  id := "q_004";
  content := "下列排序算法中，时间复杂度为O(n log n)且稳定的是？";
  options := ["A. 快速排序"; "B. 堆排序"; "C. 归并排序"; "D. 选择排序"];
  correctAnswer := "C";
  explanation := "归并排序的时间复杂度始终为O(n log n)，且是稳定的排序算法。快速排序平均时间复杂度为O(n log n)但不稳定，堆排序时间复杂度为O(n log n)但不稳定。";
  difficulty := 3;
  subject := "数据结构与算法";
  category := "排序算法";
  knowledgePoints := ["排序算法"; "时间复杂度"; "算法稳定性"];
  year := 2024;
  usage_count := 1420;
  correct_rate := 0.71%float
|}.

Definition q_005 : Question := {|
  id := "q_005";
  content := "在面向对象编程中，多态性的实现依赖于？";
  options := ["A. 继承和方法重载"; "B. 继承和方法重写";
              "C. 封装和继承"; "D. 抽象和接口"];
  correctAnswer := "B";
  explanation := "多态性主要通过继承和方法重写（覆盖）来实现。子类继承父类后，重写父类的方法，在运行时根据对象的实际类型调用相应的方法。";
  difficulty := 2;
  subject := "面向对象编程";
  category := "多态性";
  knowledgePoints := ["多态性"; "继承"; "方法重写"];
  year := 2024;
  usage_count := 890;
  correct_rate := 0.78%float
|}.

Definition MOCK_QUESTIONS : list Question :=
  [q_001; q_002; q_003; q_004; q_005].

(** [MOCK_USER_PROFILE], the module-level profile that [updateUserStats]
    mutates and [getKnowledgeMastery] reads. *)
Record Profile := mkProfile {
  p_id : string;
  openid : string;
  p_nickname : string;
  avatarUrl : string;
  p_level : Z;
  experience : Z;
  p_totalQuestions : Z;
  p_correctAnswers : Z;
  currentStreak : Z;
  p_longestStreak : Z;
  p_studyDays : Z;
  p_targetExam : string;
  knowledgeMastery : gmap string JS.number
}.

Definition MOCK_USER_PROFILE : Profile := {|
  p_id := "user_001";
  openid := "mock_openid_123456";
  p_nickname := "软考学习者";
  avatarUrl := "https://img.icons8.com/fluency/96/user-male-circle.png";
  p_level := 3;
  experience := 1250;
  p_totalQuestions := 156;
  p_correctAnswers := 98;
  currentStreak := 5;
  p_longestStreak := 12;
  p_studyDays := 15;
  p_targetExam := "软件设计师";
  knowledgeMastery :=
    {[ "UML建模" := 0.75%float; "数据库设计" := 0.68%float;
       "网络协议" := 0.82%float; "操作系统" := 0.71%float;
       "软件测试" := 0.59%float; "设计模式" := 0.64%float ]}
|}.

(** [MOCK_USER_PROFILE] after its mastery table was replaced by [m]. *)
Definition profileWithMastery (m : gmap string JS.number) : Profile :=
  {| p_id := p_id MOCK_USER_PROFILE;
     openid := openid MOCK_USER_PROFILE;
     p_nickname := p_nickname MOCK_USER_PROFILE;
     avatarUrl := avatarUrl MOCK_USER_PROFILE;
     p_level := p_level MOCK_USER_PROFILE;
     experience := experience MOCK_USER_PROFILE;
     p_totalQuestions := p_totalQuestions MOCK_USER_PROFILE;
     p_correctAnswers := p_correctAnswers MOCK_USER_PROFILE;
     currentStreak := currentStreak MOCK_USER_PROFILE;
     p_longestStreak := p_longestStreak MOCK_USER_PROFILE;
     p_studyDays := p_studyDays MOCK_USER_PROFILE;
     p_targetExam := p_targetExam MOCK_USER_PROFILE;
     knowledgeMastery := m |}.

(** What a method of the service could read when it runs: the module's
    profile and the state of the store. *)
Record Env := mkEnv {
  env_profile : Profile;
  env_store : AppState
}.

(** The outcomes of the random choices of one call:
    [sortShuffle l] is the array left by
    [[...l].sort(() => 0.5 - Math.random())], whose order is up to the
    engine's sorting algorithm and the comparator's coin flips, and
    [draw n] is the [n]-th result of [Math.random()] after the sort. *)
Record Random := mkRandom {
  sortShuffle : list Question -> list Question;
  draw : nat -> JS.number
}.

Record Recommendation := mkRecommendation {
  question_id : string;
  rec_question : Question;
  score : JS.number;
  reason : option string;
  confidence : JS.number;
  recommendation_type : option string
}.

(** [arr.slice(0, count)] for an integer [count]: a negative [count]
    counts from the end. *)
Definition slice0 {A : Type} (arr : list A) (count : Z) : list A :=
  if count <? 0
  then take (Z.to_nat (Z.max (Z.of_nat (length arr) + count) 0)) arr
  else take (Z.to_nat count) arr.

Definition float_of_nat (n : nat) : JS.number :=
  PrimFloat.of_uint63 (Uint63.of_Z (Z.of_nat n)).

(** The largest [j <= bound] with [j <= x], which is [Math.floor(x)] for
    [0 <= x < bound + 1]. *)
Fixpoint floor_upto (bound : nat) (x : JS.number) : nat :=
  match bound with
  | O => O
  | S b => if (float_of_nat bound <=? x)%float then bound else floor_upto b x
  end.

(** [arr[Math.floor(r * arr.length)]]; [None] is [undefined]. *)
Definition pick (arr : list string) (r : JS.number) : option string :=
  let x := (r * float_of_nat (length arr))%float in
  if (0 <=? x)%float then arr !! floor_upto (length arr) x else None.

Definition reasons : list string :=
  [ "基于你的学习历史，此题目有助于知识点巩固";
    "相似水平用户经常在此类题目上犯错";
    "该题目涉及重要考点，建议掌握";
    "根据知识图谱分析，此题与你的薄弱点相关";
    "历年考试频率较高，建议重点练习" ].

Definition types : list string :=
  ["collaborative"; "content_based"; "knowledge_graph"; "user_preference"].

Definition generateRandomReason (r : JS.number) : option string :=
  pick reasons r.

Definition getRandomRecommendationType (r : JS.number) : option string :=
  pick types r.

(** The object built for the [i]-th selected question; it consumes four
    results of [Math.random()], in the order of the object literal. *)
Definition decorate (rnd : Random) (i : nat) (q : Question) : Recommendation :=
  {| question_id := id q;
     rec_question := q;
     score := (0.7 + draw rnd (4 * i) * 0.3)%float;
     reason := generateRandomReason (draw rnd (4 * i + 1));
     confidence := (0.6 + draw rnd (4 * i + 2) * 0.4)%float;
     recommendation_type := getRandomRecommendationType (draw rnd (4 * i + 3))
  |}.

(** The body of [getRecommendedQuestions] over a catalog.  The awaited
    [delay(500)] only postpones the result. *)
Definition recommendFrom (catalog : list Question) (env : Env)
    (rnd : Random) (count : option Z) : list Recommendation :=
  let count := default 5 count in
  let shuffled := sortShuffle rnd catalog in
  imap (decorate rnd) (slice0 shuffled count).

(** [getRecommendedQuestions(count = 5)]. *)
Definition getRecommendedQuestions (env : Env) (rnd : Random)
    (count : option Z) : list Recommendation :=
  recommendFrom MOCK_QUESTIONS env rnd count.

(** [updateUserStats(questionId, isCorrect, responseTime)]: the update of
    the module's profile (the awaited delay and the log line apart). *)
Definition updateUserStats (questionId0 : string) (ok : bool)
    (responseTime0 : Z) (p : Profile) : Profile :=
  let newStreak := if ok then currentStreak p + 1 else 0 in
  {| p_id := p_id p;
     openid := openid p;
     p_nickname := p_nickname p;
     avatarUrl := avatarUrl p;
     p_level := p_level p;
     experience := experience p + (if ok then 10 else 3);
     p_totalQuestions := p_totalQuestions p + 1;
     p_correctAnswers :=
       if ok then p_correctAnswers p + 1 else p_correctAnswers p;
     currentStreak := newStreak;
     p_longestStreak :=
       if ok then Z.max (p_longestStreak p) newStreak else p_longestStreak p;
     p_studyDays := p_studyDays p;
     p_targetExam := p_targetExam p;
     knowledgeMastery := knowledgeMastery p |}.

(** The [filters] argument of [searchQuestions]; an absent field is
    [None]. *)
Record Filters := mkFilters {
  f_difficulty : option (list Z);
  f_subjects : option (list string);
  f_knowledgePoints : option (list string);
  f_limit : option Z
}.

(** [sel && sel.length > 0]. *)
Definition nonEmpty {A : Type} (sel : option (list A)) : bool :=
  match sel with
  | Some (_ :: _) => true
  | _ => false
  end.

(** [filters.limit || 20]. *)
Definition effectiveLimit (f : Filters) : Z :=
  match f_limit f with
  | Some n => if n =? 0 then 20 else n
  | None => 20
  end.

(** The body of [searchQuestions] over a catalog. *)
Definition searchIn (catalog : list Question) (f : Filters) : list Question :=
  let filtered := catalog in
  let filtered :=
    if nonEmpty (f_difficulty f)
    then filter (fun q => difficulty q ∈ default [] (f_difficulty f)) filtered
    else filtered in
  let filtered :=
    if nonEmpty (f_subjects f)
    then filter (fun q => subject q ∈ default [] (f_subjects f)) filtered
    else filtered in
  let filtered :=
    if nonEmpty (f_knowledgePoints f)
    then filter (fun q =>
                   Exists (fun kp => kp ∈ default [] (f_knowledgePoints f))
                     (knowledgePoints q)) filtered
    else filtered in
  slice0 filtered (effectiveLimit f).

(** [searchQuestions(filters)]. *)
Definition searchQuestions (f : Filters) : list Question :=
  searchIn MOCK_QUESTIONS f.

(** [catalog.find(q => q.id === questionId) || null]. *)
Definition detailIn (catalog : list Question) (questionId0 : string)
    : option Question :=
  List.find (fun q => String.eqb (id q) questionId0) catalog.

(** [getQuestionDetail(questionId)]. *)
Definition getQuestionDetail (questionId0 : string) : option Question :=
  detailIn MOCK_QUESTIONS questionId0.

End MockData.

(** ** Sample events *)

Module Sample.
Import MockData.

Definition at_ (n : string) : string := "2024-05-01T08:00:" +:+ n +:+ ".000Z".

(** An incorrect and a correct answer to a catalog question. *)
Definition wrong (q : Question) (n : string) : Submission :=
  {| sub_question := q; sub_answer := "X"; sub_responseTime := 1500;
     sub_now := at_ n |}.

Definition right (q : Question) (n : string) : Submission :=
  {| sub_question := q; sub_answer := correctAnswer q;
     sub_responseTime := 1500; sub_now := at_ n |}.

(** A question of the same shape as the catalog's, on constructors, with
    the English term among its tags. *)
Definition q_constructor : Question := {|
  id := "q_101";
  content := "在C++中，创建对象时自动调用的成员函数是？";
  options := ["A. 析构函数"; "B. 构造函数"; "C. 友元函数"; "D. 虚函数"];
  correctAnswer := "B";
  explanation := "构造函数在对象创建时自动调用，用于初始化对象的数据成员。";
  difficulty := 1;
  subject := "面向对象编程";
  category := "类与对象";
  knowledgePoints := ["constructor"; "对象初始化"];
  year := 2024;
  usage_count := 0;
  correct_rate := 0.5%float
|}.

End Sample.

(** ** Review queue as the specification words it

    The ledger is appended in time order, so the latest event of a question
    is its last record in [answerHistory]. *)

Definition latestRecord (history : list AnswerRecord) (qid : string)
    : option AnswerRecord :=
  last (filter (fun r => questionId r = qid) history).

Definition latestIsIncorrect (history : list AnswerRecord) (qid : string) : bool :=
  match latestRecord history qid with
  | Some r => negb (isCorrect r)
  | None => false
  end.

(** ** The mastery matrix *)

(** The update rule as the specification words it: the old score, or the
    neutral prior [0.5] for a knowledge point never seen, moved by [+0.10]
    or [-0.05] and clamped to [0, 1]. *)
Definition masteryRule (old : option JS.number) (correct : bool) : JS.number :=
  (JS.Math_max 0 (JS.Math_min 1
     (default 0.5 old + (if correct then 0.1 else -0.05))))%float.

Definition scoresInUnit (m : gmap string JS.number) : Prop :=
  map_Forall (fun _ v => JS.in_unit v = true) m.

(** A tag that names no member of [Object.prototype]. *)
Definition plainTag (point : string) : Prop := JS.inherited point = false.

(** The events whose questions carry plain tags only. *)
Definition plainTags (evs : list Submission) : Prop :=
  Forall (fun ev => Forall plainTag (knowledgePoints (sub_question ev))) evs.

(** What the matrix of the store holds in every run: a score in [0, 1], or
    [NaN] under the name of an inherited method, and nothing under
    [__proto__]. *)
Definition scoresInUnitOrNaN (m : gmap string JS.number) : Prop :=
  map_Forall (fun k v =>
    JS.in_unit v = true \/ (is_nan v = true /\ JS.isMethodName k = true)) m
  /\ m !! "__proto__" = None.

(** ** Session counters and replay *)

(** The counters of section 4.5 of the specification. *)
Record SessionCounters := mkSessionCounters {
  answered : Z;
  correct : Z;
  sc_streak : Z;
  sc_longestStreak : Z
}.

Definition freshCounters : SessionCounters :=
  {| answered := 0; correct := 0; sc_streak := 0; sc_longestStreak := 0 |}.

(** [recordInSession(event)] as the specification words it. *)
Definition recordInSession (c : SessionCounters) (event : AnswerRecord)
    : SessionCounters :=
  let newStreak := if isCorrect event then sc_streak c + 1 else 0 in
  {| answered := answered c + 1;
     correct := correct c + (if isCorrect event then 1 else 0);
     sc_streak := newStreak;
     sc_longestStreak := Z.max (sc_longestStreak c) newStreak |}.

(** [update(user, question, isCorrect)] of section 4.2 as the specification
    words it: every knowledge point tagged on the question gets the update
    rule applied to its score, a point never seen starting from [0.5]. *)
Definition modelUpdatePoint (correct : bool) (m : gmap string JS.number)
    (point : string) : gmap string JS.number :=
  <[point := masteryRule (m !! point) correct]> m.

Definition modelUpdate (correct : bool) (points : list string)
    (m : gmap string JS.number) : gmap string JS.number :=
  fold_left (modelUpdatePoint correct) points m.

(** The mastery update of one ledger entry in a replay: the
    specification's [update], fed from the record. *)
Definition replayMasteryStep (m : gmap string JS.number) (event : AnswerRecord)
    : gmap string JS.number :=
  modelUpdate (isCorrect event) (knowledgePoints (question event)) m.

(** Replaying a ledger into a fresh mastery model and fresh counters. *)
Definition replayMastery (ledger : list AnswerRecord) : gmap string JS.number :=
  fold_left replayMasteryStep ledger ∅.

Definition replayCounters (ledger : list AnswerRecord) : SessionCounters :=
  fold_left recordInSession ledger freshCounters.

(** [snapshot()]: the counters as the store holds them. *)
Definition snapshot (st : AppState) : SessionCounters :=
  {| answered := sessionQuestions st;
     correct := sessionCorrect st;
     sc_streak := streak st;
     sc_longestStreak := longestStreak (userProfile st) |}.

(** The record that [submitAnswer] builds for an event. *)
Definition recordOf (ev : Submission) : AnswerRecord :=
  let q := sub_question ev in
  {| questionId := id q; userAnswer := sub_answer ev;
     isCorrect := String.eqb (sub_answer ev) (correctAnswer q);
     responseTime := sub_responseTime ev; answeredAt := sub_now ev;
     question := q |}.

(** The streak observed after each event of a run. *)
Fixpoint streaksFrom (st : AppState) (evs : list Submission) : list Z :=
  match evs with
  | [] => []
  | ev :: rest => streak (record st ev) :: streaksFrom (record st ev) rest
  end.

(** The counters of the store are a projection of its ledger. *)
Definition projectsLedger (st : AppState) : Prop :=
  snapshot st = replayCounters (answerHistory st)
  /\ totalQuestions (userProfile st) = answered (replayCounters (answerHistory st))
  /\ correctAnswers (userProfile st) = correct (replayCounters (answerHistory st))
  /\ up_streak (userProfile st) = sc_streak (replayCounters (answerHistory st)).

(** ** The recommendation service *)

(** The weight of section 4.3 of the specification: base [1.0] times
    [1.5] minus the average mastery of the question's tags (an unseen tag
    reads [0.5]), floored at [0.1]. *)
Definition averageMastery (m : gmap string JS.number) (q : Question) : JS.number :=
  (fold_left (fun acc k => acc + default 0.5 (m !! k)) (knowledgePoints q) 0
   / MockData.float_of_nat (length (knowledgePoints q)))%float.

Definition selectionWeight (m : gmap string JS.number) (q : Question) : JS.number :=
  (JS.Math_max 0.1 (1.0 * (1.5 - averageMastery m q)))%float.

(** ** The remaining operations of the store *)

(** [arr[i]] for an integer [i]: [undefined] outside the array. *)
Definition at_index {A : Type} (arr : list A) (i : Z) : option A :=
  if i <? 0 then None else arr !! Z.to_nat i.

(** [setQuestionQueue(questions)]; [questions[0] || null] is the head. *)
Definition setQuestionQueue (questions : list Question) (st : AppState) : AppState :=
  {| currentQuestion := at_index questions 0;
     questionQueue := questions;
     currentIndex := 0;
     isLoading := isLoading st;
     userProfile := userProfile st;
     answerHistory := answerHistory st;
     streak := streak st;
     sessionQuestions := sessionQuestions st;
     sessionCorrect := sessionCorrect st;
     showResult := showResult st;
     lastAnswer := lastAnswer st |}.

(** [nextQuestion()]: moves to the next question of the queue, or raises
    [isLoading] when the queue is used up. *)
Definition nextQuestion (st : AppState) : AppState :=
  let nextIndex := currentIndex st + 1 in
  if nextIndex <? Z.of_nat (length (questionQueue st)) then
    {| currentQuestion := at_index (questionQueue st) nextIndex;
       questionQueue := questionQueue st;
       currentIndex := nextIndex;
       isLoading := isLoading st;
       userProfile := userProfile st;
       answerHistory := answerHistory st;
       streak := streak st;
       sessionQuestions := sessionQuestions st;
       sessionCorrect := sessionCorrect st;
       showResult := false;
       lastAnswer := None |}
  else
    {| currentQuestion := currentQuestion st;
       questionQueue := questionQueue st;
       currentIndex := currentIndex st;
       isLoading := true;
       userProfile := userProfile st;
       answerHistory := answerHistory st;
       streak := streak st;
       sessionQuestions := sessionQuestions st;
       sessionCorrect := sessionCorrect st;
       showResult := false;
       lastAnswer := None |}.

(** [resetSession()]. *)
Definition resetSession (st : AppState) : AppState :=
  {| currentQuestion := currentQuestion st;
     questionQueue := questionQueue st;
     currentIndex := 0;
     isLoading := isLoading st;
     userProfile := userProfile st;
     answerHistory := answerHistory st;
     streak := streak st;
     sessionQuestions := 0;
     sessionCorrect := 0;
     showResult := false;
     lastAnswer := None |}.

(** [setLoading(loading)]. *)
Definition setLoading (loading : bool) (st : AppState) : AppState :=
  {| currentQuestion := currentQuestion st;
     questionQueue := questionQueue st;
     currentIndex := currentIndex st;
     isLoading := loading;
     userProfile := userProfile st;
     answerHistory := answerHistory st;
     streak := streak st;
     sessionQuestions := sessionQuestions st;
     sessionCorrect := sessionCorrect st;
     showResult := showResult st;
     lastAnswer := lastAnswer st |}.

(** [Math.round(x)]: the integer nearest to [x], ties towards [+Infinity];
    [NaN], the infinities and the zeros are returned as they are, and a
    result of zero keeps the sign of [x]. *)
Definition Math_round (x : JS.number) : JS.number :=
  match Prim2SF x with
  | S754_finite s m e =>
      if 0 <=? e then x
      else
        let num := (if s then - Z.pos m else Z.pos m) * 2 + 2 ^ (- e) in
        let n := num / 2 ^ (1 - e) in
        if n =? 0 then (if s then neg_zero else zero)
        else
          let a := PrimFloat.of_uint63 (Uint63.of_Z (Z.abs n)) in
          if n <? 0 then (- a)%float else a
  | _ => x
  end.

(** The number that holds the length of an array. *)
Definition number_of_length (n : nat) : JS.number :=
  PrimFloat.of_uint63 (Uint63.of_Z (Z.of_nat n)).

(** [arr.slice(-n)] for a positive [n]: the last [n] elements. *)
Definition slice_last {A : Type} (n : nat) (arr : list A) : list A :=
  drop (length arr - n) arr.

(** The object returned by [getWrongQuestionStats()]. *)
Record WrongStats := mkWrongStats {
  totalWrong : nat;
  totalAnswered : nat;
  accuracy : JS.number;
  recentWrong : list AnswerRecord
}.

(** [getWrongQuestionStats()]. *)
Definition getWrongQuestionStats (st : AppState) : WrongStats :=
  let wrongAnswers :=
    filter (fun record => isCorrect record = false) (answerHistory st) in
  let totalQuestions := length (answerHistory st) in
  let wrongCount := length wrongAnswers in
  let accuracy :=
    if (0 <? totalQuestions)%nat
    then ((number_of_length totalQuestions - number_of_length wrongCount)
          / number_of_length totalQuestions)%float
    else 0%float in
  {| totalWrong := wrongCount;
     totalAnswered := totalQuestions;
     accuracy := Math_round (accuracy * 100)%float;
     recentWrong := slice_last 10 wrongAnswers |}.

(** ** Runs of the store *)

(** The calls a page can make on the store. *)
Inductive Action :=
| SetCurrentQuestion (q : option Question)
| SetQuestionQueue (questions : list Question)
| NextQuestion
| SubmitAnswer (answer : string) (rt : Z) (now : string)
| ResetSession
| SetLoading (loading : bool)
| ClearWrongAnswers
| MarkQuestionAsMastered (qid : string).

Definition step (st : AppState) (a : Action) : AppState :=
  match a with
  | SetCurrentQuestion q => setCurrentQuestion q st
  | SetQuestionQueue questions => setQuestionQueue questions st
  | NextQuestion => nextQuestion st
  | SubmitAnswer answer rt now => submitAnswer answer rt now st
  | ResetSession => resetSession st
  | SetLoading loading => setLoading loading st
  | ClearWrongAnswers => clearWrongAnswers st
  | MarkQuestionAsMastered qid => markQuestionAsMastered qid st
  end.

Definition run (acts : list Action) (st : AppState) : AppState :=
  fold_left step acts st.

(** The records of a ledger that are correct answers. *)
Definition correctRecords (history : list AnswerRecord) : list AnswerRecord :=
  filter (fun record => isCorrect record = true) history.

(** What every run of the store keeps true. *)
Record storeInvariant (st : AppState) : Prop := mkStoreInvariant {
  inv_streak_nonneg : 0 <= streak st;
  inv_streak_profile : up_streak (userProfile st) = streak st;
  inv_streak_longest : streak st <= longestStreak (userProfile st);
  inv_longest_correct :
    longestStreak (userProfile st) <= correctAnswers (userProfile st);
  inv_correct_total :
    correctAnswers (userProfile st) <= totalQuestions (userProfile st);
  inv_session_nonneg : 0 <= sessionCorrect st;
  inv_session_correct : sessionCorrect st <= sessionQuestions st;
  inv_session_total : sessionQuestions st <= totalQuestions (userProfile st);
  inv_session_profile : sessionCorrect st <= correctAnswers (userProfile st);
  inv_correct_ledger :
    correctAnswers (userProfile st)
    = Z.of_nat (length (correctRecords (answerHistory st)));
  inv_ledger_total :
    Z.of_nat (length (answerHistory st)) <= totalQuestions (userProfile st);
  inv_ledger_ids :
    Forall (fun record => questionId record = id (question record))
      (answerHistory st);
  inv_scores : scoresInUnitOrNaN (masteryMatrix (userProfile st))
}.

(** The queue cursor points at the current question. *)
Definition cursorInQueue (st : AppState) : Prop :=
  currentQuestion st = at_index (questionQueue st) (currentIndex st)
  /\ 0 <= currentIndex st
  /\ (questionQueue st <> [] ->
      currentIndex st < Z.of_nat (length (questionQueue st))).

(** The actions that move the cursor with the queue. *)
Definition keepsCursor (a : Action) : bool :=
  match a with
  | SetCurrentQuestion _ | ResetSession => false
  | _ => true
  end.

(** The first occurrence of each question id, skipping the ids in [seen]. *)
Fixpoint firstById (seen : list string) (l : list Question) : list Question :=
  match l with
  | [] => []
  | q :: t =>
      if bool_decide (id q ∈ seen) then firstById seen t
      else q :: firstById (id q :: seen) t
  end.

(** ** The token store of the authentication service

    [AuthService] keeps three entries in the device storage: the access
    token, the refresh token and the time at which the access token
    expires, in milliseconds.  A missing entry reads as a falsy value.
    Storage calls are taken to succeed. *)

Module Auth.

Record Storage := mkStorage {
  auth_token : option string;
  refresh_token : option string;
  token_expire_time : option Z
}.

(** [LoginResponse['token']]. *)
Record Token := mkToken {
  access_token : string;
  tk_refresh_token : string;
  expires_in : Z
}.

(** A string read from the storage is truthy when present and not empty. *)
Definition truthyString (v : option string) : bool :=
  match v with
  | Some s => negb (String.eqb s "")
  | None => false
  end.

(** [saveToken(tokenData)] at the time [now] of [Date.now()]. *)
Definition saveToken (tokenData : Token) (now : Z) (s : Storage) : Storage :=
  {| auth_token := Some (access_token tokenData);
     refresh_token := Some (tk_refresh_token tokenData);
     token_expire_time := Some (now + expires_in tokenData * 1000) |}.

(** [clearTokens()]. *)
Definition clearTokens (s : Storage) : Storage :=
  {| auth_token := None; refresh_token := None; token_expire_time := None |}.

(** [isLoggedIn()]. *)
Definition isLoggedIn (s : Storage) : bool :=
  truthyString (auth_token s).

(** [isTokenExpiringSoon()] at the time [now]: a missing (or zero) expiry
    counts as expiring, otherwise the token is refreshed five minutes
    ahead. *)
Definition isTokenExpiringSoon (now : Z) (s : Storage) : bool :=
  match token_expire_time s with
  | None => true
  | Some expireTime =>
      if expireTime =? 0 then true
      else
        let fiveMinutes := 5 * 60 * 1000 in
        now >? expireTime - fiveMinutes
  end.

(** The effect on the storage of [wxLogin()] and [guestLogin()]: [response]
    is the token of a successful answer of the backend, [None] any
    failure, which leaves the storage as it is. *)
Definition login (response : option Token) (now : Z) (s : Storage) : Storage :=
  match response with
  | Some tokenData => saveToken tokenData now s
  | None => s
  end.

(** [refreshToken()]: without a refresh token, or when the backend does not
    answer with a new access token ([response = None]), every token is
    cleared and the call fails; otherwise the access token is replaced.
    The result is the new storage and the returned access token. *)
Definition refreshToken (response : option string) (s : Storage)
    : Storage * option string :=
  if truthyString (refresh_token s) then
    match response with
    | Some access =>
        ({| auth_token := Some access;
            refresh_token := refresh_token s;
            token_expire_time := token_expire_time s |}, Some access)
    | None => (clearTokens s, None)
    end
  else (clearTokens s, None).

(** [autoRefreshToken()]: a failed refresh is logged and swallowed. *)
Definition autoRefreshToken (now : Z) (response : option string) (s : Storage)
    : Storage :=
  if isTokenExpiringSoon now s then fst (refreshToken response s) else s.

(** [logout()]: the tokens are cleared whether or not the backend call
    succeeds. *)
Definition logout (s : Storage) : Storage := clearTokens s.

End Auth.

(** ** The mock service beside the store *)

(** The counters of the service's profile and of the store hold the same
    values. *)
Definition countersAgree (p : MockData.Profile) (st : AppState) : Prop :=
  MockData.p_totalQuestions p = totalQuestions (userProfile st)
  /\ MockData.p_correctAnswers p = correctAnswers (userProfile st)
  /\ MockData.currentStreak p = streak st
  /\ MockData.p_longestStreak p = longestStreak (userProfile st).

(** The question page reports each answer to the service with
    [updateUserStats(currentQuestion.id, isCorrect, responseTime)]. *)
Definition reportAll (evs : list Submission) (p : MockData.Profile)
    : MockData.Profile :=
  fold_left
    (fun p ev =>
       MockData.updateUserStats (id (sub_question ev)) (isCorrect (recordOf ev))
         (sub_responseTime ev) p)
    evs p.

(** A question passes every filter that is present and not empty. *)
Definition matchesFilters (f : MockData.Filters) (q : Question) : Prop :=
  (MockData.nonEmpty (MockData.f_difficulty f) = true ->
   difficulty q ∈ default [] (MockData.f_difficulty f))
  /\ (MockData.nonEmpty (MockData.f_subjects f) = true ->
      subject q ∈ default [] (MockData.f_subjects f))
  /\ (MockData.nonEmpty (MockData.f_knowledgePoints f) = true ->
      Exists (fun kp => kp ∈ default [] (MockData.f_knowledgePoints f))
        (knowledgePoints q)).

(** ** Runs of the authentication service *)

(** The calls that touch the token store, each with what the clock and the
    backend answered. *)
Inductive AuthAction :=
| Login (response : option Auth.Token) (now : Z)
| Refresh (response : option string)
| AutoRefresh (now : Z) (response : option string)
| Logout.

Definition authStep (s : Auth.Storage) (a : AuthAction) : Auth.Storage :=
  match a with
  | Login response now => Auth.login response now s
  | Refresh response => fst (Auth.refreshToken response s)
  | AutoRefresh now response => Auth.autoRefreshToken now response s
  | Logout => Auth.logout s
  end.

Definition authRun (acts : list AuthAction) (s : Auth.Storage) : Auth.Storage :=
  fold_left authStep acts s.

Definition isLogin (a : AuthAction) : bool :=
  match a with
  | Login _ _ => true
  | _ => false
  end.

(** ** The question store of the practice page *)

Module QuestionStore.

(** One entry of [answerRecords]. *)
Record AnswerEntry := mkAnswerEntry {
  e_questionId : string;
  e_userAnswer : string;
  e_isCorrect : bool;
  e_responseTime : Z;
  e_timestamp : Z
}.

(** The state held by [useQuestionStore]. *)
Record State := mkState {
  questions : list Question;
  currentIndex : Z;
  userAnswers : gmap string string;
  showAnswers : gmap string bool;
  answerRecords : list AnswerEntry;
  totalQuestions : Z;
  correctCount : Z;
  currentStreak : Z;
  loading : bool;
  error : option string
}.

Definition initial : State :=
  {| questions := []; currentIndex := 0; userAnswers := ∅; showAnswers := ∅;
     answerRecords := []; totalQuestions := 0; correctCount := 0;
     currentStreak := 0; loading := false; error := None |}.

(** [setQuestions(questions)]: the answers given so far are forgotten and
    the counters restart; [answerRecords] is not touched. *)
Definition setQuestions (qs : list Question) (st : State) : State :=
  {| questions := qs; currentIndex := 0; userAnswers := ∅; showAnswers := ∅;
     answerRecords := answerRecords st;
     totalQuestions := Z.of_nat (length qs);
     correctCount := 0; currentStreak := 0;
     loading := loading st; error := error st |}.

(** [setCurrentIndex(index)]. *)
Definition setCurrentIndex (index : Z) (st : State) : State :=
  if (0 <=? index) && (index <? Z.of_nat (length (questions st))) then
    {| questions := questions st; currentIndex := index;
       userAnswers := userAnswers st; showAnswers := showAnswers st;
       answerRecords := answerRecords st;
       totalQuestions := totalQuestions st;
       correctCount := correctCount st; currentStreak := currentStreak st;
       loading := loading st; error := error st |}
  else st.

(** [addUserAnswer(questionId, answer, responseTime)] at the time [now];
    an id that no question of the list has changes nothing. *)
Definition addUserAnswer (qid answer : string) (rt now : Z) (st : State) : State :=
  match List.find (fun q => String.eqb (id q) qid) (questions st) with
  | None => st
  | Some question0 =>
      let ok := String.eqb answer (correctAnswer question0) in
      let answerRecord :=
        {| e_questionId := qid; e_userAnswer := answer; e_isCorrect := ok;
           e_responseTime := rt; e_timestamp := now |} in
      {| questions := questions st; currentIndex := currentIndex st;
         userAnswers := <[qid := answer]> (userAnswers st);
         showAnswers := showAnswers st;
         answerRecords := answerRecords st ++ [answerRecord];
         totalQuestions := totalQuestions st;
         correctCount := if ok then correctCount st + 1 else correctCount st;
         currentStreak := if ok then currentStreak st + 1 else 0;
         loading := loading st; error := error st |}
  end.

(** [showAnswer(questionId)]. *)
Definition showAnswer (qid : string) (st : State) : State :=
  {| questions := questions st; currentIndex := currentIndex st;
     userAnswers := userAnswers st;
     showAnswers := <[qid := true]> (showAnswers st);
     answerRecords := answerRecords st;
     totalQuestions := totalQuestions st;
     correctCount := correctCount st; currentStreak := currentStreak st;
     loading := loading st; error := error st |}.

Definition withIndex (index : Z) (st : State) : State :=
  {| questions := questions st; currentIndex := index;
     userAnswers := userAnswers st; showAnswers := showAnswers st;
     answerRecords := answerRecords st;
     totalQuestions := totalQuestions st;
     correctCount := correctCount st; currentStreak := currentStreak st;
     loading := loading st; error := error st |}.

(** [nextQuestion()]. *)
Definition nextQuestion (st : State) : State :=
  if currentIndex st <? Z.of_nat (length (questions st)) - 1
  then withIndex (currentIndex st + 1) st else st.

(** [previousQuestion()]. *)
Definition previousQuestion (st : State) : State :=
  if currentIndex st >? 0 then withIndex (currentIndex st - 1) st else st.

(** [resetSession()]. *)
Definition resetSession (st : State) : State :=
  {| questions := questions st; currentIndex := 0;
     userAnswers := ∅; showAnswers := ∅; answerRecords := [];
     totalQuestions := totalQuestions st;
     correctCount := 0; currentStreak := 0;
     loading := loading st; error := None |}.

(** [setLoading(loading)] and [setError(error)]. *)
Definition setLoading (b : bool) (st : State) : State :=
  {| questions := questions st; currentIndex := currentIndex st;
     userAnswers := userAnswers st; showAnswers := showAnswers st;
     answerRecords := answerRecords st;
     totalQuestions := totalQuestions st;
     correctCount := correctCount st; currentStreak := currentStreak st;
     loading := b; error := error st |}.

Definition setError (e : option string) (st : State) : State :=
  {| questions := questions st; currentIndex := currentIndex st;
     userAnswers := userAnswers st; showAnswers := showAnswers st;
     answerRecords := answerRecords st;
     totalQuestions := totalQuestions st;
     correctCount := correctCount st; currentStreak := currentStreak st;
     loading := loading st; error := e |}.

(** [getCurrentQuestion()]: [questions[currentIndex] || null]. *)
Definition getCurrentQuestion (st : State) : option Question :=
  at_index (questions st) (currentIndex st).

(** The calls a page can make on the store. *)
Inductive Action :=
| SetQuestions (qs : list Question)
| SetCurrentIndex (index : Z)
| AddUserAnswer (qid answer : string) (rt now : Z)
| ShowAnswer (qid : string)
| NextQuestion
| PreviousQuestion
| ResetSession
| SetLoading (b : bool)
| SetError (e : option string).

Definition step (st : State) (a : Action) : State :=
  match a with
  | SetQuestions qs => setQuestions qs st
  | SetCurrentIndex index => setCurrentIndex index st
  | AddUserAnswer qid answer rt now => addUserAnswer qid answer rt now st
  | ShowAnswer qid => showAnswer qid st
  | NextQuestion => nextQuestion st
  | PreviousQuestion => previousQuestion st
  | ResetSession => resetSession st
  | SetLoading b => setLoading b st
  | SetError e => setError e st
  end.

Definition run (acts : list Action) (st : State) : State :=
  fold_left step acts st.

(** What every run of the question store keeps true. *)
Record invariant (st : State) : Prop := mkInvariant {
  inv_index_nonneg : 0 <= currentIndex st;
  inv_index_bound :
    currentIndex st < Z.max 1 (Z.of_nat (length (questions st)));
  inv_total : totalQuestions st = Z.of_nat (length (questions st));
  inv_streak_nonneg : 0 <= currentStreak st;
  inv_streak_count : currentStreak st <= correctCount st;
  inv_count_records :
    correctCount st
    <= Z.of_nat (length (filter (fun r => e_isCorrect r = true)
                           (answerRecords st)))
}.

End QuestionStore.

(** ** The practice page

    The handlers of the question page, as they act on the question store,
    on the profile of the mock service and on the totals of the signed-in
    user.  Toasts, the text of the AI analysis and the page's own loading
    flag and timer are display state and are left out.  A handler is a
    closure of the render that created it: [selectAnswer] reads
    [userAnswers] and [user] as that render captured them, and reaches the
    store of the moment only through [getCurrentQuestion()] and the store's
    actions.  [loadMoreQuestions] and [nextQuestionHandler] are modelled for
    a page that was rendered on the current state. *)

Module QuestionPage.

(** The two totals of the user object that the page updates. *)
Record UserTotals := mkUserTotals {
  u_totalQuestions : option Z;
  u_correctAnswers : option Z
}.

Record World := mkWorld {
  store : QuestionStore.State;
  profile : MockData.Profile;
  user : option UserTotals
}.

(** What a render captures for [selectAnswer]: the values the selectors
    [state => state.userAnswers] and [state => state.user] returned. *)
Record Render := mkRender {
  r_userAnswers : gmap string string;
  r_user : option UserTotals
}.

(** The render of the page on the state [w]. *)
Definition render (w : World) : Render :=
  {| r_userAnswers := QuestionStore.userAnswers (store w);
     r_user := user w |}.

(** [n || 0] for a total that may be missing. *)
Definition orZero (n : option Z) : Z := default 0 n.

(** [userAnswers[id]] as a condition: an answer held under the id is
    truthy when it is not empty; without one the read gives the member
    inherited from [Object.prototype], which is truthy, or [undefined]. *)
Definition answered (userAnswers0 : gmap string string) (qid : string) : bool :=
  match userAnswers0 !! qid with
  | Some a => negb (String.eqb a "")
  | None => JS.inherited qid
  end.

(** [initQuestions()] and the reload of the completion dialog. *)
Definition initQuestions (env : MockData.Env) (rnd : MockData.Random)
    (w : World) : World :=
  let recommendations := MockData.getRecommendedQuestions env rnd (Some 10) in
  {| store := QuestionStore.setQuestions
                (map MockData.rec_question recommendations) (store w);
     profile := profile w; user := user w |}.

(** [selectAnswer(answer)] as created by the render [r] and called on the
    state [w]; [rt] is [Date.now() - startTime] and [now] the clock reading
    inside the store.  [updateUser] merges the new totals into the user of
    the store and does nothing when there is none. *)
Definition selectAnswer (r : Render) (answer : string) (rt now : Z)
    (w : World) : World :=
  match QuestionStore.getCurrentQuestion (store w) with
  | None => w
  | Some currentQuestion0 =>
      if answered (r_userAnswers r) (id currentQuestion0) then w
      else
        let ok := String.eqb answer (correctAnswer currentQuestion0) in
        {| store :=
             QuestionStore.showAnswer (id currentQuestion0)
               (QuestionStore.addUserAnswer (id currentQuestion0) answer rt now
                  (store w));
           profile :=
             MockData.updateUserStats (id currentQuestion0) ok rt (profile w);
           user :=
             match r_user r with
             | Some currentUser =>
                 match user w with
                 | Some _ =>
                     Some {| u_totalQuestions :=
                               Some (orZero (u_totalQuestions currentUser) + 1);
                             u_correctAnswers :=
                               Some (orZero (u_correctAnswers currentUser)
                                     + (if ok then 1 else 0)) |}
                 | None => None
                 end
             | None => user w
             end |}
  end.

(** [loadMoreQuestions()]: five more recommendations are appended to the
    list, the list is set again and the store is asked for the next
    question. *)
Definition loadMoreQuestions (env : MockData.Env) (rnd : MockData.Random)
    (w : World) : World :=
  let recommendations := MockData.getRecommendedQuestions env rnd (Some 5) in
  let newQuestions := map MockData.rec_question recommendations in
  let allQuestions := QuestionStore.questions (store w) ++ newQuestions in
  {| store := QuestionStore.nextQuestion
                (QuestionStore.setQuestions allQuestions (store w));
     profile := profile w; user := user w |}.

(** [nextQuestionHandler()]. *)
Definition nextQuestionHandler (env : MockData.Env) (rnd : MockData.Random)
    (w : World) : World :=
  if QuestionStore.currentIndex (store w)
     <? Z.of_nat (length (QuestionStore.questions (store w))) - 1
  then {| store := QuestionStore.nextQuestion (store w);
          profile := profile w; user := user w |}
  else loadMoreQuestions env rnd w.

End QuestionPage.

(** ** The wrong-answers page

    The page keeps its own copy of the wrong-question book, an index into
    it and a flag; its handlers are modelled on that state and on the
    store.  Reading a field of [wrongQuestions[currentIndex]] when the
    index is outside the list raises a [TypeError], here [None]. *)

Module WrongAnswersPage.

Record Page := mkPage {
  pageStore : AppState;
  wrongQuestions : list Question;
  pageIndex : Z;
  showExplanation : bool
}.

(** The first render: [useState] defaults, then the effect that copies
    [getWrongQuestions()]. *)
Definition mount (st : AppState) : Page :=
  {| pageStore := st; wrongQuestions := getWrongQuestions st;
     pageIndex := 0; showExplanation := false |}.

(** The callback [(_, index) => index !== currentIndex]. *)
Definition notAt (current : Z) (q : Question) (index : nat)
    (self : list Question) : bool :=
  negb (Z.of_nat index =? current).

(** [answer === currentQuestion.correctAnswer]; [None] is [undefined]. *)
Definition isAnswer (answer : option string) (q : Question) : bool :=
  match answer with
  | Some a => String.eqb a (correctAnswer q)
  | None => false
  end.

(** [handleAnswer(answer)]. *)
Definition handleAnswer (answer : option string) (p : Page) : option Page :=
  match at_index (wrongQuestions p) (pageIndex p) with
  | None => None
  | Some currentQuestion0 =>
      if isAnswer answer currentQuestion0 then
        let updatedWrong :=
          filter_indexed (notAt (pageIndex p)) (wrongQuestions p) in
        let n := Z.of_nat (length updatedWrong) in
        Some {| pageStore := pageStore p;
                wrongQuestions := updatedWrong;
                pageIndex :=
                  if (n <=? pageIndex p) && (0 <? n) then n - 1
                  else pageIndex p;
                showExplanation := showExplanation p |}
      else
        Some {| pageStore := pageStore p;
                wrongQuestions := wrongQuestions p;
                pageIndex := pageIndex p;
                showExplanation := true |}
  end.

(** [nextQuestion()] of the page. *)
Definition pageNext (p : Page) : Page :=
  if pageIndex p <? Z.of_nat (length (wrongQuestions p)) - 1 then
    {| pageStore := pageStore p; wrongQuestions := wrongQuestions p;
       pageIndex := pageIndex p + 1; showExplanation := false |}
  else p.

(** [prevQuestion()]. *)
Definition pagePrev (p : Page) : Page :=
  if pageIndex p >? 0 then
    {| pageStore := pageStore p; wrongQuestions := wrongQuestions p;
       pageIndex := pageIndex p - 1; showExplanation := false |}
  else p.

(** The button [setShowExplanation(!showExplanation)]. *)
Definition toggleExplanation (p : Page) : Page :=
  {| pageStore := pageStore p; wrongQuestions := wrongQuestions p;
     pageIndex := pageIndex p; showExplanation := negb (showExplanation p) |}.

(** [handleClearAll()]. *)
Definition handleClearAll (p : Page) : Page :=
  {| pageStore := clearWrongAnswers (pageStore p);
     wrongQuestions := [];
     pageIndex := 0;
     showExplanation := showExplanation p |}.

(** [option.key] for an entry of [options]: the entries are strings such
    as ["A. ..."], which have no [key], so the value is [undefined]. *)
Definition optionKey (option0 : string) : option string := None.

(** What the user can tap.  With an empty list the page renders the empty
    state, which offers none of these. *)
Inductive Event :=
| TapOption (option0 : string)
| Next
| Prev
| ToggleExplanation
| ClearAll.

Definition handle (p : Page) (e : Event) : option Page :=
  match wrongQuestions p with
  | [] => Some p
  | _ :: _ =>
      match e with
      | TapOption option0 => handleAnswer (optionKey option0) p
      | Next => Some (pageNext p)
      | Prev => Some (pagePrev p)
      | ToggleExplanation => Some (toggleExplanation p)
      | ClearAll => Some (handleClearAll p)
      end
  end.

(** A sequence of taps; it stops at the first [TypeError]. *)
Fixpoint handleAll (es : list Event) (p : Page) : option Page :=
  match es with
  | [] => Some p
  | e :: rest =>
      match handle p e with
      | Some p' => handleAll rest p'
      | None => None
      end
  end.

(** The index points into the list whenever the list is not empty. *)
Definition wellIndexed (p : Page) : Prop :=
  0 <= pageIndex p
  /\ pageIndex p < Z.max 1 (Z.of_nat (length (wrongQuestions p))).

Definition isClearAll (e : Event) : bool :=
  match e with
  | ClearAll => true
  | _ => false
  end.

End WrongAnswersPage.

(** * Proofs *)

(** ** Facts about binary64 comparisons and sums

    The primitive operations are specified, through [Prim2SF], by the
    operations of [SpecFloat]; the lemmas below are what the clamp
    [Math.max(0, Math.min(1, _))] needs. *)

Section FloatFacts.

#[local] Open Scope float_scope.

Lemma SFcompare_antisym (x y : spec_float) :
  SFcompare y x = option_map CompOpp (SFcompare x y).
Proof.
  destruct x as [sx|sx| |sx mx ex], y as [sy|sy| |sy my ey]; simpl;
    try reflexivity;
    try (destruct sx; reflexivity); try (destruct sy; reflexivity);
    try (destruct sx, sy; reflexivity).
  destruct sx, sy; simpl; try reflexivity;
    rewrite (Z.compare_antisym ex ey);
    destruct (ex ?= ey)%Z; simpl; try reflexivity;
    rewrite (Pos.compare_cont_antisym mx my Eq); simpl;
    try rewrite CompOpp_involutive; reflexivity.
Qed.

Lemma SFcompare_refl (x : spec_float) :
  x <> S754_nan -> SFcompare x x = Some Eq.
Proof.
  destruct x as [s|s| |s m e]; simpl; try congruence; intros _.
  - destruct s; reflexivity.
  - rewrite Z.compare_refl, Pos.compare_cont_refl. destruct s; reflexivity.
Qed.

Lemma SFcompare_None (x y : spec_float) :
  SFcompare x y = None -> x = S754_nan \/ y = S754_nan.
Proof.
  destruct x as [sx|sx| |sx mx ex], y as [sy|sy| |sy my ey]; simpl;
    intros H; try discriminate H; auto.
Qed.

Lemma is_nan_Prim2SF (x : float) :
  is_nan x = true <-> Prim2SF x = S754_nan.
Proof.
  unfold is_nan. rewrite FloatAxioms.eqb_spec. unfold SFeqb. split.
  - intros H. destruct (SFcompare (Prim2SF x) (Prim2SF x)) as [c|] eqn:E.
    + destruct (Prim2SF x); try reflexivity;
        rewrite SFcompare_refl in E by discriminate;
        injection E as <-; discriminate H.
    + destruct (SFcompare_None _ _ E); assumption.
  - intros ->. reflexivity.
Qed.

Lemma not_nan_Prim2SF (x : float) :
  is_nan x = false <-> Prim2SF x <> S754_nan.
Proof.
  rewrite <- is_nan_Prim2SF. destruct (is_nan x); split; congruence.
Qed.

Lemma leb_refl (x : float) : is_nan x = false -> (x <=? x) = true.
Proof.
  intros H%not_nan_Prim2SF. rewrite FloatAxioms.leb_spec. unfold SFleb.
  rewrite SFcompare_refl by assumption. reflexivity.
Qed.

Lemma ltb_leb (x y : float) : (x <? y) = true -> (x <=? y) = true.
Proof.
  rewrite FloatAxioms.ltb_spec, FloatAxioms.leb_spec. unfold SFltb, SFleb.
  destruct (SFcompare (Prim2SF x) (Prim2SF y)) as [[]|]; congruence.
Qed.

Lemma not_ltb_leb (x y : float) :
  is_nan x = false -> is_nan y = false ->
  (x <? y) = false -> (y <=? x) = true.
Proof.
  intros Hx%not_nan_Prim2SF Hy%not_nan_Prim2SF.
  rewrite FloatAxioms.ltb_spec, FloatAxioms.leb_spec. unfold SFltb, SFleb.
  rewrite (SFcompare_antisym (Prim2SF x) (Prim2SF y)).
  destruct (SFcompare (Prim2SF x) (Prim2SF y)) as [[]|] eqn:E; simpl;
    try congruence.
  destruct (SFcompare_None _ _ E); contradiction.
Qed.

(** Shifting a non-negative mantissa to the right keeps it non-negative,
    so rounding a non-negative mantissa never yields [NaN]. *)

Lemma shr_1_nonneg (mrs : shr_record) :
  (0 <= shr_m mrs)%Z -> (0 <= shr_m (shr_1 mrs))%Z.
Proof.
  destruct mrs as [m r s]; simpl.
  destruct m as [|[p|p|]|[p|p|]]; simpl; lia.
Qed.

Lemma iter_pos_shr_1_nonneg (p : positive) (mrs : shr_record) :
  (0 <= shr_m mrs)%Z -> (0 <= shr_m (SpecFloat.iter_pos shr_1 p mrs))%Z.
Proof.
  revert mrs. induction p as [p IH|p IH|]; intros mrs H; simpl.
  - apply IH, IH, shr_1_nonneg, H.
  - apply IH, IH, H.
  - apply shr_1_nonneg, H.
Qed.

Lemma shr_fexp_nonneg (p e' m e : Z) (l : location) :
  (0 <= m)%Z -> (0 <= shr_m (fst (shr_fexp p e' m e l)))%Z.
Proof.
  intros H. unfold shr_fexp, shr.
  assert (H0 : (0 <= shr_m (shr_record_of_loc m l))%Z)
    by (destruct l as [|[]]; simpl; exact H).
  destruct (fexp p e' (Zdigits2 m + e) - e)%Z; simpl; auto.
  apply iter_pos_shr_1_nonneg, H0.
Qed.

Lemma round_nearest_even_nonneg (m : Z) (l : location) :
  (0 <= m)%Z -> (0 <= round_nearest_even m l)%Z.
Proof.
  intros H. destruct l as [|[]]; simpl; try lia.
  destruct (Z.even m); lia.
Qed.

Lemma binary_round_aux_not_nan (p e' : Z) (sx : bool) (m e : Z) (l : location) :
  (0 <= m)%Z -> binary_round_aux p e' sx m e l <> S754_nan.
Proof.
  intros H. unfold binary_round_aux.
  pose proof (shr_fexp_nonneg p e' m e l H) as H1.
  destruct (shr_fexp p e' m e l) as [mrs1 e1]; simpl in H1.
  pose proof (shr_fexp_nonneg p e'
    (round_nearest_even (shr_m mrs1) (loc_of_shr_record mrs1)) e1 loc_Exact
    (round_nearest_even_nonneg _ _ H1)) as H2.
  destruct (shr_fexp p e' _ e1 loc_Exact) as [mrs2 e2]; simpl in H2.
  destruct (shr_m mrs2) as [|q|q]; try discriminate; try lia.
  destruct (e2 <=? e' - p)%Z; discriminate.
Qed.

Lemma binary_normalize_not_nan (p e' m e : Z) (sz : bool) :
  binary_normalize p e' m e sz <> S754_nan.
Proof.
  unfold binary_normalize, binary_round.
  destruct m as [|q|q]; try discriminate;
    destruct (shl_align q e _) as [mz ez];
    apply binary_round_aux_not_nan; lia.
Qed.

(** A sum is [NaN] only if a summand is, or for opposite infinities. *)
Lemma SFadd_finite_not_nan (x : spec_float) (s : bool) (m : positive) (e : Z) :
  x <> S754_nan -> SF64add x (S754_finite s m e) <> S754_nan.
Proof.
  intros Hx. unfold SF64add, SFadd.
  destruct x as [sx|sx| |sx mx ex]; try discriminate; try contradiction.
  apply binary_normalize_not_nan.
Qed.

Lemma add_finite_not_nan (x c : float) (s : bool) (m : positive) (e : Z) :
  Prim2SF c = S754_finite s m e ->
  is_nan x = false -> is_nan (x + c) = false.
Proof.
  intros Hc Hx%not_nan_Prim2SF. apply not_nan_Prim2SF.
  rewrite FloatAxioms.add_spec, Hc. apply SFadd_finite_not_nan, Hx.
Qed.

End FloatFacts.

(** ** The clamp [Math.max(0, Math.min(1, x))] *)

Section Clamp.

#[local] Open Scope float_scope.
Import JS.

Lemma Math_min_not_nan (a b : number) :
  is_nan a = false -> is_nan b = false -> is_nan (Math_min a b) = false.
Proof.
  intros Ha Hb. unfold Math_min. rewrite Ha, Hb. simpl.
  destruct (a <? b); [assumption|].
  destruct (b <? a); [assumption|].
  destruct (get_sign a); assumption.
Qed.

Lemma Math_max_not_nan (a b : number) :
  is_nan a = false -> is_nan b = false -> is_nan (Math_max a b) = false.
Proof.
  intros Ha Hb. unfold Math_max. rewrite Ha, Hb. simpl.
  destruct (a <? b); [assumption|].
  destruct (b <? a); [assumption|].
  destruct (get_sign a); assumption.
Qed.

Lemma Math_min_le_l (a b : number) :
  is_nan a = false -> is_nan b = false -> (Math_min a b <=? a) = true.
Proof.
  intros Ha Hb. unfold Math_min. rewrite Ha, Hb. simpl.
  destruct (a <? b) eqn:Hab; [apply leb_refl, Ha|].
  destruct (b <? a) eqn:Hba; [apply ltb_leb, Hba|].
  destruct (get_sign a); [apply leb_refl, Ha|].
  apply not_ltb_leb; assumption.
Qed.

Lemma Math_max_ge_l (a b : number) :
  is_nan a = false -> is_nan b = false -> (a <=? Math_max a b) = true.
Proof.
  intros Ha Hb. unfold Math_max. rewrite Ha, Hb. simpl.
  destruct (a <? b) eqn:Hab; [apply ltb_leb, Hab|].
  destruct (b <? a) eqn:Hba; [apply leb_refl, Ha|].
  destruct (get_sign a); [|apply leb_refl, Ha].
  apply not_ltb_leb; assumption.
Qed.

Lemma Math_max_le (a b c : number) :
  is_nan a = false -> is_nan b = false ->
  (a <=? c) = true -> (b <=? c) = true -> (Math_max a b <=? c) = true.
Proof.
  intros Ha Hb Hac Hbc. unfold Math_max. rewrite Ha, Hb. simpl.
  destruct (a <? b); [assumption|].
  destruct (b <? a); [assumption|].
  destruct (get_sign a); assumption.
Qed.

(** Whatever non-[NaN] number is clamped, the result lies in [0, 1]. *)
Lemma clamp_in_unit (x : number) :
  is_nan x = false -> in_unit (Math_max 0 (Math_min 1 x)) = true.
Proof.
  intros Hx. unfold in_unit.
  assert (H1 : is_nan 1 = false) by reflexivity.
  assert (H0 : is_nan 0 = false) by reflexivity.
  pose proof (Math_min_not_nan 1 x H1 Hx) as Hm.
  rewrite (Math_max_ge_l 0 _ H0 Hm). simpl.
  apply Math_max_le; try assumption; [reflexivity|].
  apply Math_min_le_l; assumption.
Qed.

Lemma truthy_not_nan (x : number) : truthy x = true -> is_nan x = false.
Proof.
  unfold truthy. destruct (is_nan x); simpl; congruence.
Qed.

(** [v || 0.5] is never [NaN]: a [NaN] read is falsy and replaced. *)
Lemma or_default_not_nan (v : option number) :
  is_nan (or_default v 0.5) = false.
Proof.
  unfold or_default. destruct v as [x|]; [|reflexivity].
  destruct (truthy x) eqn:E; [apply truthy_not_nan, E|reflexivity].
Qed.

End Clamp.

(** ** Deduplication by first occurrence *)

Section WrongQuestions.

Lemma findIndex_first {A : Type} (p : A -> bool) (pre : list A) (x : A)
    (t : list A) :
  findIndex p (pre ++ x :: t) = Some (length pre)
  <-> p x = true /\ Forall (fun y => p y = false) pre.
Proof.
  induction pre as [|a pre IH]; simpl.
  - destruct (p x); split.
    + intros _. split; [reflexivity|constructor].
    + reflexivity.
    + destruct (findIndex p t); discriminate.
    + intros [? _]; discriminate.
  - destruct (p a) eqn:Ea; split.
    + discriminate.
    + intros [_ H]. inversion H; congruence.
    + intros H. apply fmap_Some in H as (n & E & Hn).
      injection Hn as Hn. rewrite <- Hn in E. apply IH in E as [? ?].
      split; [assumption|]. constructor; assumption.
    + intros [Hx H]. inversion H as [|? ? _ Hpre]; subst.
      destruct IH as [_ IH]. rewrite IH by (split; assumption).
      reflexivity.
Qed.

Lemma sameId_refl (q : Question) : sameId q q = true.
Proof. unfold sameId. apply String.eqb_refl. Qed.

Lemma sameId_false (q y : Question) : sameId q y = false <-> id y <> id q.
Proof. unfold sameId. apply String.eqb_neq. Qed.

Lemma isFirstOfId_spec (pre : list Question) (x : Question) (t : list Question) :
  isFirstOfId x (length pre) (pre ++ x :: t) = true <-> id x ∉ map id pre.
Proof.
  unfold isFirstOfId. rewrite bool_decide_eq_true, findIndex_first.
  rewrite list_elem_of_fmap, Forall_forall. split.
  - intros [_ H] (y & Hy & Hin). apply (H y) in Hin.
    apply sameId_false in Hin. congruence.
  - intros H. split; [apply sameId_refl|].
    intros y Hy. apply sameId_false. intros E. apply H. exists y. auto.
Qed.

Lemma filter_from_sub (pre l : list Question) (q : Question) :
  q ∈ filter_from isFirstOfId (pre ++ l) (length pre) l -> q ∈ l.
Proof.
  revert pre. induction l as [|x t IH]; intros pre; simpl.
  - intros H; exact H.
  - replace (pre ++ x :: t) with ((pre ++ [x]) ++ t)
      by (rewrite <- app_assoc; reflexivity).
    replace (S (length pre)) with (length (pre ++ [x]))
      by (rewrite length_app; simpl; lia).
    destruct (isFirstOfId x _ _).
    + intros [->|H]%elem_of_cons; [left|right; eapply IH, H].
    + intros H. right. eapply IH, H.
Qed.

Lemma filter_from_fresh (pre l : list Question) :
  let w := filter_from isFirstOfId (pre ++ l) (length pre) l in
  NoDup (map id w) /\ (forall i, i ∈ map id w -> i ∉ map id pre).
Proof.
  revert pre. induction l as [|x t IH]; intros pre; simpl.
  - split; [constructor|]. intros i H. inversion H.
  - destruct (isFirstOfId x (length pre) (pre ++ x :: t)) eqn:E.
    + apply isFirstOfId_spec in E.
      replace (pre ++ x :: t) with ((pre ++ [x]) ++ t)
        by (rewrite <- app_assoc; reflexivity).
      replace (S (length pre)) with (length (pre ++ [x]))
        by (rewrite length_app; simpl; lia).
      destruct (IH (pre ++ [x])) as [Hnd Hfresh]. simpl. split.
      * constructor; [|exact Hnd]. intros Hin. apply Hfresh in Hin.
        apply Hin. rewrite map_app. apply elem_of_app. right. simpl. left.
      * intros i [->|Hin]%elem_of_cons; [exact E|].
        apply Hfresh in Hin. intros Hi. apply Hin.
        rewrite map_app. apply elem_of_app. left. exact Hi.
    + replace (pre ++ x :: t) with ((pre ++ [x]) ++ t)
        by (rewrite <- app_assoc; reflexivity).
      replace (S (length pre)) with (length (pre ++ [x]))
        by (rewrite length_app; simpl; lia).
      destruct (IH (pre ++ [x])) as [Hnd Hfresh]. split; [exact Hnd|].
      intros i Hin Hi. apply (Hfresh i Hin).
      rewrite map_app. apply elem_of_app. left. exact Hi.
Qed.

Lemma filter_from_covers (pre l : list Question) (q : Question) :
  q ∈ l -> id q ∉ map id pre ->
  id q ∈ map id (filter_from isFirstOfId (pre ++ l) (length pre) l).
Proof.
  revert pre. induction l as [|x t IH]; intros pre Hq Hpre; simpl.
  - inversion Hq.
  - destruct (decide (id q = id x)) as [Eid|Nid].
    + assert (E : isFirstOfId x (length pre) (pre ++ x :: t) = true)
        by (apply isFirstOfId_spec; rewrite <- Eid; exact Hpre).
      rewrite E. simpl. rewrite Eid. left.
    + apply elem_of_cons in Hq as [->|Hq]; [congruence|].
      assert (Hpre' : id q ∉ map id (pre ++ [x])).
      { rewrite map_app. intros [H|H]%elem_of_app; [exact (Hpre H)|].
        simpl in H. apply elem_of_cons in H as [H|H]; [congruence|inversion H]. }
      pose proof (IH (pre ++ [x]) Hq Hpre') as H.
      replace ((pre ++ [x]) ++ t) with (pre ++ x :: t) in H
        by (rewrite <- app_assoc; reflexivity).
      replace (length (pre ++ [x])) with (S (length pre)) in H
        by (rewrite length_app; simpl; lia).
      destruct (isFirstOfId x (length pre) (pre ++ x :: t)); simpl;
        [right|]; exact H.
Qed.

End WrongQuestions.

(** ** The wrong-question book *)

Section WrongBook.

Variable history : list AnswerRecord.

Let wrongs : list Question :=
  map question (filter (fun record => isCorrect record = false) history).

Lemma wrongBook_distinct : NoDup (map id (getWrongQuestionsOf history)).
Proof. exact (proj1 (filter_from_fresh [] wrongs)). Qed.

Lemma wrongBook_sound (q : Question) :
  q ∈ getWrongQuestionsOf history ->
  exists r, r ∈ history /\ isCorrect r = false /\ question r = q.
Proof.
  intros Hq. apply (filter_from_sub [] wrongs) in Hq.
  apply list_elem_of_fmap in Hq as (r & -> & Hr).
  apply list_elem_of_filter in Hr as [Hw Hr]. exists r. auto.
Qed.

Lemma wrongBook_covers (r : AnswerRecord) :
  r ∈ history -> isCorrect r = false ->
  id (question r) ∈ map id (getWrongQuestionsOf history).
Proof.
  intros Hr Hw. apply (filter_from_covers [] wrongs).
  - apply list_elem_of_fmap. exists r. split; [reflexivity|].
    apply list_elem_of_filter. auto.
  - simpl. intros H. inversion H.
Qed.

End WrongBook.

(** ** Theorems on the wrong-question book *)

(** C1 (as the specification states it, refuted): after the events
    [wrong(Q1), wrong(Q2), correct(Q1)] the latest event of Q1 is correct,
    yet [getWrongQuestions] returns [Q1; Q2], not [Q2] alone. *)
Lemma getWrongQuestions_keeps_corrected_question :
  let st := recordAll [Sample.wrong MockData.q_001 "01";
                       Sample.wrong MockData.q_002 "02";
                       Sample.right MockData.q_001 "03"] initialState in
  latestIsIncorrect (answerHistory st) "q_001" = false
  /\ latestIsIncorrect (answerHistory st) "q_002" = true
  /\ getWrongQuestions st = [MockData.q_001; MockData.q_002]
  /\ getWrongQuestions st <> [MockData.q_002].
Proof.
  vm_compute. repeat split; discriminate.
Qed.

(** C1 (amended): [getWrongQuestions] returns, once each, the questions that
    have at least one incorrect record in the answer history, whatever was
    answered later: the ids of the result are pairwise distinct, every
    returned question comes from an incorrect record, and every incorrect
    record has its question id in the result. *)
Theorem getWrongQuestions_ever_missed (st : AppState) :
  NoDup (map id (getWrongQuestions st))
  /\ (forall q, q ∈ getWrongQuestions st ->
        exists r, r ∈ answerHistory st /\ isCorrect r = false /\ question r = q)
  /\ (forall r, r ∈ answerHistory st -> isCorrect r = false ->
        id (question r) ∈ map id (getWrongQuestions st)).
Proof.
  unfold getWrongQuestions.
  pose proof (wrongBook_distinct (answerHistory st)).
  pose proof (wrongBook_sound (answerHistory st)).
  pose proof (wrongBook_covers (answerHistory st)).
  auto.
Qed.

(** ** Theorems on recording *)

(** C2 (as the specification states it, refuted): submitting the same answer
    to the same question twice appends two records. *)
Lemma duplicate_submit_appends_twice :
  let st0 := setCurrentQuestion (Some MockData.q_001) initialState in
  let once := submitAnswer "A" 1500 (Sample.at_ "01") st0 in
  let twice := submitAnswer "A" 1500 (Sample.at_ "01") once in
  length (answerHistory st0) = 0%nat
  /\ length (answerHistory once) = 1%nat
  /\ length (answerHistory twice) = 2%nat.
Proof.
  vm_compute. repeat split.
Qed.

(** C2 (amended): whenever a question is current, [submitAnswer] appends
    exactly one record to the answer history, also when the history already
    holds a record of that question; submitting the same answer twice
    therefore grows the history by two. *)
Theorem submitAnswer_appends_one (st : AppState) (q : Question)
    (answer : string) (rt : Z) (now : string) :
  currentQuestion st = Some q ->
  let newAnswerRecord :=
    {| questionId := id q; userAnswer := answer;
       isCorrect := String.eqb answer (correctAnswer q);
       responseTime := rt; answeredAt := now; question := q |} in
  answerHistory (submitAnswer answer rt now st)
    = answerHistory st ++ [newAnswerRecord]
  /\ length (answerHistory (submitAnswer answer rt now st))
    = S (length (answerHistory st))
  /\ length (answerHistory
       (submitAnswer answer rt now (submitAnswer answer rt now st)))
    = S (S (length (answerHistory st))).
Proof.
  intros Hq. unfold submitAnswer. rewrite Hq. simpl.
  rewrite !length_app. simpl. repeat split; lia.
Qed.

Lemma submitAnswer_appends_one_witness :
  length (answerHistory
    (submitAnswer "A" 1500 (Sample.at_ "01")
       (setCurrentQuestion (Some MockData.q_001) initialState))) = 1%nat.
Proof.
  exact (proj1 (proj2
    (submitAnswer_appends_one
       (setCurrentQuestion (Some MockData.q_001) initialState)
       MockData.q_001 "A" 1500 (Sample.at_ "01") eq_refl))).
Defined.

(** C9: [clearWrongAnswers] is idempotent, and when the wrong-question book
    is empty it leaves the whole state, answer history included, as it was. *)
Theorem clearWrongAnswers_idempotent (st : AppState) :
  clearWrongAnswers (clearWrongAnswers st) = clearWrongAnswers st
  /\ (getWrongQuestions st = [] -> clearWrongAnswers st = st).
Proof.
  split.
  - unfold clearWrongAnswers, with_answerHistory. simpl. f_equal.
    apply list_filter_filter_l. auto.
  - intros Hempty.
    assert (Hall : Forall (fun r => isCorrect r = true) (answerHistory st)).
    { apply Forall_forall. intros r Hr.
      destruct (isCorrect r) eqn:E; [reflexivity|].
      pose proof (wrongBook_covers (answerHistory st) r Hr E) as H.
      unfold getWrongQuestions in Hempty. rewrite Hempty in H. inversion H. }
    assert (Hsame : filter (fun r => isCorrect r = true) (answerHistory st)
                    = answerHistory st).
    { clear Hempty. induction Hall as [|r l Hr _ IH]; [reflexivity|].
      rewrite filter_cons_True by exact Hr. f_equal. exact IH. }
    unfold clearWrongAnswers, with_answerHistory. rewrite Hsame.
    destruct st; reflexivity.
Qed.

Lemma clearWrongAnswers_idempotent_witness :
  let st := recordAll [Sample.right MockData.q_001 "01"] initialState in
  clearWrongAnswers st = st.
Proof.
  exact (proj2 (clearWrongAnswers_idempotent
    (recordAll [Sample.right MockData.q_001 "01"] initialState)) eq_refl).
Defined.

Section Mastery.

Implicit Types (m : gmap string JS.number) (k point : string)
  (points : list string) (correct : bool).

Lemma isMethodName_not_proto point :
  JS.isMethodName point = true -> String.eqb point "__proto__" = false.
Proof.
  intros H. destruct (String.eqb point "__proto__") eqn:E; [|reflexivity].
  apply String.eqb_eq in E. subst point. vm_compute in H. discriminate H.
Qed.

(** The read of an own score, or of a tag that names no inherited member,
    is a number or [undefined]. *)
Lemma or_get_number m point :
  JS.inherited point = false \/ is_Some (m !! point) ->
  JS.or_ (JS.get m point) 0.5%float
  = JS.VNumber (JS.or_default (m !! point) 0.5%float).
Proof.
  intros H. unfold JS.or_, JS.get, JS.or_default.
  destruct (m !! point) as [x|] eqn:E.
  - simpl. destruct (JS.truthy x); reflexivity.
  - destruct H as [H|[x H]]; [|discriminate H].
    unfold JS.inherited in H. apply orb_false_elim in H as [H1 H2].
    rewrite H1, H2. reflexivity.
Qed.

Lemma set_lookup_same m point (x : JS.number) :
  JS.inherited point = false \/ is_Some (m !! point) ->
  JS.set m point x !! point = Some x.
Proof.
  intros H. unfold JS.set. destruct (m !! point) as [y|] eqn:E.
  - apply lookup_insert_eq.
  - destruct H as [H|[y H]]; [|discriminate H].
    unfold JS.inherited in H. apply orb_false_elim in H as [_ H2].
    rewrite H2. apply lookup_insert_eq.
Qed.

Lemma set_lookup_other m point k (x : JS.number) :
  k <> point -> JS.set m point x !! k = m !! k.
Proof.
  intros H. unfold JS.set.
  destruct (m !! point); [|destruct (String.eqb point "__proto__")];
    try reflexivity; apply lookup_insert_ne; congruence.
Qed.

Lemma updatePoint_lookup_same correct m point :
  JS.inherited point = false \/ is_Some (m !! point) ->
  updatePoint correct m point !! point
  = Some (masteryRule (Some (JS.or_default (m !! point) 0.5%float)) correct).
Proof.
  intros H. unfold updatePoint. rewrite or_get_number by exact H.
  rewrite set_lookup_same by exact H. reflexivity.
Qed.

Lemma updatePoint_lookup_other correct m point k :
  k <> point -> updatePoint correct m point !! k = m !! k.
Proof. intros H. unfold updatePoint. apply set_lookup_other, H. Qed.

(** A tag that the matrix does not hold and that names an inherited method
    reads as that method, and [NaN] is stored under it. *)
Lemma updatePoint_method correct m point :
  m !! point = None -> JS.isMethodName point = true ->
  updatePoint correct m point = <[point := nan]> m.
Proof.
  intros Hn Hm. unfold updatePoint, JS.get, JS.set.
  rewrite Hn, Hm, (isMethodName_not_proto point Hm).
  destruct correct; reflexivity.
Qed.

(** The tag [__proto__], when the matrix does not hold it, changes
    nothing. *)
Lemma updatePoint_proto correct m :
  m !! "__proto__" = None -> updatePoint correct m "__proto__" = m.
Proof. intros H. unfold updatePoint, JS.set. rewrite H. reflexivity. Qed.

(** Where the stored score is truthy, or absent under a tag that names no
    inherited member, the code follows the rule. *)
Lemma updatePoint_follows_rule correct m point :
  match m !! point with
  | Some v => JS.truthy v = true
  | None => JS.inherited point = false
  end ->
  updatePoint correct m point !! point = Some (masteryRule (m !! point) correct).
Proof.
  intros H. rewrite updatePoint_lookup_same.
  - unfold JS.or_default.
    destruct (m !! point) as [v|]; [rewrite H|]; reflexivity.
  - destruct (m !! point) as [v|]; [right; eauto|left; exact H].
Qed.

Lemma updateMastery_lookup_other correct points m k :
  k ∉ points -> updateMastery correct points m !! k = m !! k.
Proof.
  unfold updateMastery. revert m.
  induction points as [|p points IH]; intros m Hk; simpl; [reflexivity|].
  apply not_elem_of_cons in Hk as [Hne Hk].
  rewrite IH by exact Hk. apply updatePoint_lookup_other, Hne.
Qed.

Lemma adjustment_finite correct :
  exists s mant e,
    Prim2SF (if correct then 0.1 else -0.05)%float = S754_finite s mant e.
Proof. destruct correct; do 3 eexists; reflexivity. Qed.

(** The score written for an own or plain tag lies in [0, 1], whatever was
    stored. *)
Lemma rule_in_unit correct (v : option JS.number) :
  JS.in_unit (masteryRule (Some (JS.or_default v 0.5%float)) correct) = true.
Proof.
  unfold masteryRule. simpl. apply clamp_in_unit.
  destruct (adjustment_finite correct) as (s & mant & e & Hadj).
  eapply add_finite_not_nan; [exact Hadj|]. apply or_default_not_nan.
Qed.

Lemma updatePoint_in_unit correct m point :
  JS.inherited point = false \/ is_Some (m !! point) ->
  scoresInUnit m -> scoresInUnit (updatePoint correct m point).
Proof.
  intros Hp H k v Hk. destruct (decide (k = point)) as [->|Hne].
  - rewrite updatePoint_lookup_same in Hk by exact Hp.
    injection Hk as <-. apply rule_in_unit.
  - rewrite updatePoint_lookup_other in Hk by exact Hne. exact (H k v Hk).
Qed.

Lemma updateMastery_in_unit correct points m :
  Forall plainTag points ->
  scoresInUnit m -> scoresInUnit (updateMastery correct points m).
Proof.
  unfold updateMastery. intros Hp. revert m.
  induction Hp as [|p points Hplain _ IH]; intros m H; simpl; [exact H|].
  apply IH, updatePoint_in_unit; [left; exact Hplain|exact H].
Qed.

Lemma submitAnswer_in_unit (answer : string) (rt : Z) (now : string)
    (st : AppState) :
  (forall q, currentQuestion st = Some q -> Forall plainTag (knowledgePoints q)) ->
  scoresInUnit (masteryMatrix (userProfile st)) ->
  scoresInUnit (masteryMatrix (userProfile (submitAnswer answer rt now st))).
Proof.
  intros Hp H. unfold submitAnswer.
  destruct (currentQuestion st) as [q|]; simpl; [|exact H].
  apply updateMastery_in_unit; [apply Hp; reflexivity|exact H].
Qed.

(** Over questions with plain tags the scores stay in [0, 1]. *)
Lemma recordAll_in_unit (evs : list Submission) (st : AppState) :
  plainTags evs ->
  scoresInUnit (masteryMatrix (userProfile st)) ->
  scoresInUnit (masteryMatrix (userProfile (recordAll evs st))).
Proof.
  unfold recordAll. intros Hp. revert st.
  induction Hp as [|ev evs Hev _ IH]; intros st H; simpl; [exact H|].
  apply IH. unfold record. apply submitAnswer_in_unit; [|exact H].
  intros q [= <-]. exact Hev.
Qed.

(** Whatever the tag, a score in [0, 1] or a [NaN] under a method name is
    all the update can leave. *)
Lemma updatePoint_in_unit_or_NaN correct m point :
  scoresInUnitOrNaN m -> scoresInUnitOrNaN (updatePoint correct m point).
Proof.
  intros [H Hproto].
  assert (Hown : JS.inherited point = false \/ is_Some (m !! point) ->
                 scoresInUnitOrNaN (updatePoint correct m point)).
  { intros Hp. split.
    - intros k v Hk. destruct (decide (k = point)) as [->|Hne].
      + rewrite updatePoint_lookup_same in Hk by exact Hp.
        injection Hk as <-. left. apply rule_in_unit.
      + rewrite updatePoint_lookup_other in Hk by exact Hne. exact (H k v Hk).
    - rewrite updatePoint_lookup_other; [exact Hproto|].
      intros <-. destruct Hp as [Hp|[x Hp]]; [discriminate Hp|congruence]. }
  destruct (m !! point) as [x|] eqn:E; [apply Hown; right; eauto|].
  destruct (JS.isMethodName point) eqn:Em.
  - rewrite updatePoint_method by assumption. split.
    + apply map_Forall_insert_2; [right; split; [reflexivity|exact Em]|exact H].
    + rewrite lookup_insert_ne; [exact Hproto|].
      intros ->. discriminate Em.
  - destruct (String.eqb point "__proto__") eqn:Ep.
    + apply String.eqb_eq in Ep. subst point.
      rewrite updatePoint_proto by exact E. split; assumption.
    + apply Hown. left. unfold JS.inherited. rewrite Em, Ep. reflexivity.
Qed.

Lemma updateMastery_in_unit_or_NaN correct points m :
  scoresInUnitOrNaN m -> scoresInUnitOrNaN (updateMastery correct points m).
Proof.
  unfold updateMastery. revert m.
  induction points as [|p points IH]; intros m H; simpl; [exact H|].
  apply IH, updatePoint_in_unit_or_NaN, H.
Qed.

Lemma submitAnswer_in_unit_or_NaN (answer : string) (rt : Z) (now : string)
    (st : AppState) :
  scoresInUnitOrNaN (masteryMatrix (userProfile st)) ->
  scoresInUnitOrNaN
    (masteryMatrix (userProfile (submitAnswer answer rt now st))).
Proof.
  intros H. unfold submitAnswer.
  destruct (currentQuestion st) as [q|]; simpl; [|exact H].
  apply updateMastery_in_unit_or_NaN, H.
Qed.

End Mastery.

(** C5 (the code departs from the bound): the matrix is an object literal,
    so a tag that it does not hold yet but that names a method of
    [Object.prototype] reads as that method, which is truthy; its sum with
    the adjustment is a string, [Math.min] turns the string into [NaN] and
    [NaN] is what the clamp returns and the store keeps.  From the initial
    store, whose matrix is empty and so within [0, 1], one answer to a
    question tagged ["constructor"] leaves [NaN] under that tag, outside
    [0, 1]; the question's other tag gets [0.6], and a further answer, which
    reads the stored [NaN] as falsy, brings the tag to [0.6] as well. *)
Theorem submitAnswer_inherited_tag_stores_NaN :
  let st := record initialState (Sample.right Sample.q_constructor "01") in
  let score (s : AppState) := masteryMatrix (userProfile s) !! "constructor" in
  scoresInUnit (masteryMatrix (userProfile initialState))
  /\ score initialState = None
  /\ score st = Some nan
  /\ JS.in_unit nan = false
  /\ ~ scoresInUnit (masteryMatrix (userProfile st))
  /\ masteryMatrix (userProfile st) !! "对象初始化" = Some 0.6%float
  /\ score (record st (Sample.right Sample.q_constructor "02"))
     = Some 0.6%float.
Proof.
  cbv zeta.
  assert (E : masteryMatrix (userProfile
                (record initialState (Sample.right Sample.q_constructor "01")))
              !! "constructor" = Some nan) by (vm_compute; reflexivity).
  split; [apply map_Forall_empty|].
  split; [reflexivity|].
  split; [exact E|].
  split; [reflexivity|].
  split; [intros H; specialize (H _ _ E); discriminate H|].
  split; vm_compute; reflexivity.
Qed.

(** C10: [submitAnswer] leaves the score of every knowledge point that is
    not a tag of the answered question exactly as it was. *)
Theorem submitAnswer_mastery_frame (st : AppState) (answer : string) (rt : Z)
    (now k : string) :
  (forall q, currentQuestion st = Some q -> k ∉ knowledgePoints q) ->
  masteryMatrix (userProfile (submitAnswer answer rt now st)) !! k
  = masteryMatrix (userProfile st) !! k.
Proof.
  intros H. unfold submitAnswer.
  destruct (currentQuestion st) as [q|]; simpl; [|reflexivity].
  apply updateMastery_lookup_other, H. reflexivity.
Qed.

Lemma submitAnswer_mastery_frame_witness :
  let st := setCurrentQuestion (Some MockData.q_001)
              (recordAll [Sample.wrong MockData.q_002 "01"] initialState) in
  masteryMatrix (userProfile
    (submitAnswer "C" 1500 (Sample.at_ "02") st)) !! "数据完整性"
  = masteryMatrix (userProfile st) !! "数据完整性".
Proof.
  apply (submitAnswer_mastery_frame
    (setCurrentQuestion (Some MockData.q_001)
       (recordAll [Sample.wrong MockData.q_002 "01"] initialState))).
  intros q Hq. injection Hq as <-. apply (bool_decide_unpack _). vm_compute.
  exact I.
Defined.

(** C3 (the code departs from the rule): a stored score of [0] is falsy, so
    [newMasteryMatrix[point] || 0.5] restarts from the prior.  Eleven
    incorrect answers to a question bring its tags to [0]; a further correct
    answer then yields [0.6] where the rule gives [0.1], and a further
    incorrect answer yields [0.45] where the rule gives [0]. *)
Theorem submitAnswer_zero_score_restarts_from_prior :
  let misses := map (Sample.wrong MockData.q_001)
    ["01"; "02"; "03"; "04"; "05"; "06"; "07"; "08"; "09"; "10"; "11"] in
  let st := recordAll misses initialState in
  let score (s : AppState) := masteryMatrix (userProfile s) !! "UML类图" in
  score st = Some 0%float
  /\ score (record st (Sample.right MockData.q_001 "12")) = Some 0.6%float
  /\ masteryRule (score st) true = 0.1%float
  /\ score (record st (Sample.wrong MockData.q_001 "12")) = Some 0.45%float
  /\ masteryRule (score st) false = 0%float.
Proof.
  vm_compute. repeat split.
Qed.

Section Replay.

(** ** Lemmas on recording and replay *)

Lemma record_history (st : AppState) (ev : Submission) :
  answerHistory (record st ev) = answerHistory st ++ [recordOf ev].
Proof. reflexivity. Qed.

Lemma recordAll_snoc (evs : list Submission) (ev : Submission) (st : AppState) :
  recordAll (evs ++ [ev]) st = record (recordAll evs st) ev.
Proof. unfold recordAll. rewrite fold_left_app. reflexivity. Qed.

Lemma recordAll_history (evs : list Submission) (st : AppState) :
  answerHistory (recordAll evs st) = answerHistory st ++ map recordOf evs.
Proof.
  induction evs as [|ev evs IH] using rev_ind; simpl.
  - rewrite app_nil_r. reflexivity.
  - rewrite recordAll_snoc, record_history, IH, map_app, app_assoc.
    reflexivity.
Qed.

Lemma projectsLedger_initial : projectsLedger initialState.
Proof. repeat split. Qed.

Lemma projectsLedger_record (st : AppState) (ev : Submission) :
  projectsLedger st -> projectsLedger (record st ev).
Proof.
  intros (Hc & Ht & Hk & Hs). unfold projectsLedger.
  rewrite record_history. unfold replayCounters.
  rewrite !fold_left_app. simpl.
  fold (replayCounters (answerHistory st)).
  rewrite <- Hc. unfold recordInSession, snapshot.
  simpl. rewrite Ht, Hk. rewrite <- Hc. simpl. repeat split.
Qed.

Lemma projectsLedger_recordAll (evs : list Submission) :
  projectsLedger (recordAll evs initialState).
Proof.
  induction evs as [|ev evs IH] using rev_ind.
  - exact projectsLedger_initial.
  - rewrite recordAll_snoc. apply projectsLedger_record, IH.
Qed.

Lemma record_streak (st : AppState) (ev : Submission) :
  streak (record st ev)
  = (if isCorrect (recordOf ev) then streak st + 1 else 0).
Proof. reflexivity. Qed.

Lemma record_longestStreak (st : AppState) (ev : Submission) :
  longestStreak (userProfile (record st ev))
  = Z.max (longestStreak (userProfile st)) (streak (record st ev)).
Proof. reflexivity. Qed.

Lemma recordAll_longestStreak (evs : list Submission) (st : AppState) :
  longestStreak (userProfile (recordAll evs st))
  = fold_left Z.max (streaksFrom st evs) (longestStreak (userProfile st)).
Proof.
  unfold recordAll. revert st.
  induction evs as [|ev evs IH]; intros st; simpl; [reflexivity|].
  rewrite IH, record_longestStreak. reflexivity.
Qed.

End Replay.

(** C4 (the code departs from the replay): the counters of the store do
    equal a replay of the ledger, for every sequence of events recorded from
    the initial store; the mastery scores do not.  While the eleven
    incorrect answers to one question bring its tags down to [0], the store
    and a replay into the specification's mastery model agree; at the twelfth
    event, a correct answer, the replay moves the score from [0] to [0.1],
    but the store reads its [0] as falsy, restarts from [0.5] and holds
    [0.6]. *)
Theorem replay_departs_after_zero_score :
  (forall evs : list Submission,
      let st := recordAll evs initialState in
      answerHistory st = map recordOf evs
      /\ snapshot st = replayCounters (map recordOf evs)
      /\ totalQuestions (userProfile st)
         = answered (replayCounters (map recordOf evs))
      /\ correctAnswers (userProfile st)
         = correct (replayCounters (map recordOf evs))
      /\ up_streak (userProfile st)
         = sc_streak (replayCounters (map recordOf evs)))
  /\ (let misses := map (Sample.wrong MockData.q_001)
         ["01"; "02"; "03"; "04"; "05"; "06"; "07"; "08"; "09"; "10"; "11"] in
      let evs := misses ++ [Sample.right MockData.q_001 "12"] in
      let stored (l : list Submission) :=
        masteryMatrix (userProfile (recordAll l initialState)) !! "UML类图" in
      let replayed (l : list Submission) :=
        replayMastery (map recordOf l) !! "UML类图" in
      stored (take 1 misses) = Some 0.45%float
      /\ replayed (take 1 misses) = Some 0.45%float
      /\ stored misses = Some 0%float
      /\ replayed misses = Some 0%float
      /\ stored evs = Some 0.6%float
      /\ replayed evs = Some 0.1%float
      /\ masteryMatrix (userProfile (recordAll evs initialState))
         <> replayMastery (map recordOf evs)).
Proof.
  split.
  - intros evs. simpl. pose proof (projectsLedger_recordAll evs) as H.
    unfold projectsLedger in H. rewrite recordAll_history in *.
    exact (conj eq_refl H).
  - cbv zeta.
    assert (E1 : masteryMatrix (userProfile (recordAll
                   (map (Sample.wrong MockData.q_001)
                      ["01"; "02"; "03"; "04"; "05"; "06"; "07"; "08"; "09";
                       "10"; "11"] ++ [Sample.right MockData.q_001 "12"])
                   initialState)) !! "UML类图" = Some 0.6%float)
      by (vm_compute; reflexivity).
    assert (E2 : replayMastery (map recordOf
                   (map (Sample.wrong MockData.q_001)
                      ["01"; "02"; "03"; "04"; "05"; "06"; "07"; "08"; "09";
                       "10"; "11"] ++ [Sample.right MockData.q_001 "12"]))
                 !! "UML类图" = Some 0.1%float)
      by (vm_compute; reflexivity).
    do 4 (split; [vm_compute; reflexivity|]).
    split; [exact E1|]. split; [exact E2|].
    intros H. rewrite H, E2 in E1. discriminate E1.
Qed.

(** C6: recording an incorrect answer sets the streak to [0], recording a
    correct one adds [1]; [longestStreak] becomes the maximum of its old
    value and the new streak, so it never decreases, and over a run it is
    the maximum of the streaks seen; the events
    [correct, correct, incorrect, correct] leave [longestStreak = 2] and
    [streak = 1]. *)
Theorem streak_and_longestStreak :
  (forall st ev,
      streak (record st ev)
      = (if String.eqb (sub_answer ev) (correctAnswer (sub_question ev))
         then streak st + 1 else 0)
      /\ up_streak (userProfile (record st ev)) = streak (record st ev)
      /\ longestStreak (userProfile (record st ev))
         = Z.max (longestStreak (userProfile st)) (streak (record st ev))
      /\ longestStreak (userProfile st)
         <= longestStreak (userProfile (record st ev)))
  /\ (forall st evs,
      longestStreak (userProfile (recordAll evs st))
      = fold_left Z.max (streaksFrom st evs) (longestStreak (userProfile st)))
  /\ (let st := recordAll [Sample.right MockData.q_001 "01";
                           Sample.right MockData.q_002 "02";
                           Sample.wrong MockData.q_003 "03";
                           Sample.right MockData.q_004 "04"] initialState in
      longestStreak (userProfile st) = 2 /\ streak st = 1).
Proof.
  split; [|split].
  - intros st ev. rewrite record_longestStreak.
    repeat split; apply Z.le_max_l.
  - intros st evs. apply recordAll_longestStreak.
  - vm_compute. split; reflexivity.
Qed.

Section Recommend.

Import MockData.

Lemma fmap_imap_pointwise {A B C : Type} (g : B -> C) (h : A -> C)
    (f : nat -> A -> B) (l : list A) :
  (forall i x, g (f i x) = h x) -> g <$> imap f l = h <$> l.
Proof.
  revert f. induction l as [|x l IH]; intros f H; simpl; [reflexivity|].
  rewrite H. f_equal. apply IH. intros i y. apply H.
Qed.

Lemma recommendFrom_questions (catalog : list Question) (env : Env)
    (rnd : Random) (count : option Z) :
  map rec_question (recommendFrom catalog env rnd count)
  = slice0 (sortShuffle rnd catalog) (default 5 count).
Proof.
  unfold recommendFrom.
  rewrite (fmap_imap_pointwise rec_question (fun q => q)) by reflexivity.
  apply list_fmap_id.
Qed.

Lemma recommendFrom_ids (catalog : list Question) (env : Env)
    (rnd : Random) (count : option Z) :
  map question_id (recommendFrom catalog env rnd count)
  = map id (slice0 (sortShuffle rnd catalog) (default 5 count)).
Proof.
  unfold recommendFrom. apply fmap_imap_pointwise. reflexivity.
Qed.

Lemma slice0_sublist {A : Type} (arr : list A) (count : Z) :
  slice0 arr count `sublist_of` arr.
Proof. unfold slice0. destruct (count <? 0); apply sublist_take. Qed.

Lemma slice0_all {A : Type} (arr : list A) (count : Z) :
  Z.of_nat (length arr) <= count -> slice0 arr count = arr.
Proof.
  intros H. unfold slice0.
  destruct (count <? 0) eqn:E; [apply Z.ltb_lt in E; lia|].
  apply take_ge. lia.
Qed.

Lemma MOCK_QUESTIONS_distinct : NoDup (map id MOCK_QUESTIONS).
Proof. apply (bool_decide_unpack _). vm_compute. exact I. Qed.

(** With fewer questions in the catalog than requested, every question of
    the catalog is returned, in the shuffled order. *)
Lemma recommendFrom_all (catalog : list Question) (env : Env) (rnd : Random)
    (count : Z) :
  sortShuffle rnd catalog ≡ₚ catalog ->
  Z.of_nat (length catalog) < count ->
  map rec_question (recommendFrom catalog env rnd (Some count))
    = sortShuffle rnd catalog
  /\ length (recommendFrom catalog env rnd (Some count)) = length catalog.
Proof.
  intros Hperm Hlt.
  assert (Hlen : length (sortShuffle rnd catalog) = length catalog)
    by (rewrite Hperm; reflexivity).
  assert (E : map rec_question (recommendFrom catalog env rnd (Some count))
              = sortShuffle rnd catalog).
  { rewrite recommendFrom_questions. simpl. apply slice0_all. lia. }
  split; [exact E|].
  rewrite <- Hlen, <- E, length_map. reflexivity.
Qed.

End Recommend.

(** C7 (as the specification states it, refuted): the selection reads no
    mastery score.  Take a profile in which the tags of [q_001] are at [0]
    and those of [q_005] at [1], and the profile with the two swapped: the
    specification's weights are [1.5] against [0.5] and then [0.5] against
    [1.5], yet for every outcome of the random choices and every count the
    two profiles get the same recommendations; for one such outcome and
    count [1] both get [q_005], the question the first profile masters. *)
Lemma recommendation_ignores_mastery :
  let low : gmap string JS.number :=
    {[ "UML类图" := 0%float; "关系类型" := 0%float; "面向对象设计" := 0%float;
       "多态性" := 1%float; "继承" := 1%float; "方法重写" := 1%float ]} in
  let swapped : gmap string JS.number :=
    {[ "UML类图" := 1%float; "关系类型" := 1%float; "面向对象设计" := 1%float;
       "多态性" := 0%float; "继承" := 0%float; "方法重写" := 0%float ]} in
  let env m :=
    {| MockData.env_profile := MockData.profileWithMastery m;
       MockData.env_store := initialState |} in
  let rnd0 :=
    {| MockData.sortShuffle := reverse; MockData.draw := fun _ => 0.5%float |} in
  (selectionWeight low MockData.q_001 = 1.5%float
   /\ selectionWeight low MockData.q_005 = 0.5%float
   /\ selectionWeight swapped MockData.q_001 = 0.5%float
   /\ selectionWeight swapped MockData.q_005 = 1.5%float)
  /\ (forall rnd count,
        MockData.getRecommendedQuestions (env low) rnd count
        = MockData.getRecommendedQuestions (env swapped) rnd count)
  /\ map MockData.question_id
       (MockData.getRecommendedQuestions (env low) rnd0 (Some 1)) = ["q_005"]
  /\ map MockData.question_id
       (MockData.getRecommendedQuestions (env swapped) rnd0 (Some 1)) = ["q_005"].
Proof.
  split; [vm_compute; repeat split|].
  split; [reflexivity|]. vm_compute. split; reflexivity.
Qed.

(** C7 (amended): [getRecommendedQuestions] returns the first [count]
    questions of a random rearrangement of the whole catalog, each wrapped
    with random decorations: the questions returned are distinct questions
    of the catalog (sampling without replacement), and the result is the
    same whatever the mastery scores are; no per-question weight is used. *)
Theorem getRecommendedQuestions_unweighted (env env' : MockData.Env)
    (rnd : MockData.Random) (count : option Z) :
  (forall l, MockData.sortShuffle rnd l ≡ₚ l) ->
  let recs := MockData.getRecommendedQuestions env rnd count in
  recs = MockData.getRecommendedQuestions env' rnd count
  /\ map MockData.rec_question recs
     = MockData.slice0 (MockData.sortShuffle rnd MockData.MOCK_QUESTIONS)
         (default 5 count)
  /\ NoDup (map MockData.question_id recs)
  /\ (forall r, r ∈ recs ->
        MockData.rec_question r ∈ MockData.MOCK_QUESTIONS
        /\ MockData.question_id r = id (MockData.rec_question r)).
Proof.
  intros Hperm recs. subst recs. unfold MockData.getRecommendedQuestions.
  split; [reflexivity|]. split; [apply recommendFrom_questions|].
  pose proof (slice0_sublist
    (MockData.sortShuffle rnd MockData.MOCK_QUESTIONS) (default 5 count)) as Hsub.
  split.
  - rewrite recommendFrom_ids.
    refine (sublist_NoDup _ _ _ (fmap_sublist id _ _ Hsub)).
    rewrite (Hperm MockData.MOCK_QUESTIONS). apply MOCK_QUESTIONS_distinct.
  - intros r Hr. split.
    + rewrite <- (Hperm MockData.MOCK_QUESTIONS).
      eapply elem_of_sublist; [|exact Hsub].
      rewrite <- (recommendFrom_questions _ env rnd count).
      apply list_elem_of_fmap. exists r. auto.
    + unfold MockData.recommendFrom in Hr.
      apply list_elem_of_lookup in Hr as [i Hi].
      rewrite list_lookup_imap in Hi.
      apply fmap_Some in Hi as (q & _ & ->). reflexivity.
Qed.

Lemma getRecommendedQuestions_unweighted_witness :
  let rnd0 :=
    {| MockData.sortShuffle := reverse; MockData.draw := fun _ => 0.5%float |} in
  let env0 :=
    {| MockData.env_profile := MockData.MOCK_USER_PROFILE;
       MockData.env_store := initialState |} in
  NoDup (map MockData.question_id
           (MockData.getRecommendedQuestions env0 rnd0 (Some 3))).
Proof.
  exact (proj1 (proj2 (proj2
    (getRecommendedQuestions_unweighted
       {| MockData.env_profile := MockData.MOCK_USER_PROFILE;
          MockData.env_store := initialState |}
       {| MockData.env_profile := MockData.MOCK_USER_PROFILE;
          MockData.env_store := initialState |}
       {| MockData.sortShuffle := reverse;
          MockData.draw := fun _ => 0.5%float |}
       (Some 3) (fun l => reverse_Permutation l))))).
Defined.

(** C8: when more questions are requested than the catalog holds,
    [getRecommendedQuestions] returns every question of the catalog, once
    each, and raises nothing; asking for 10 out of the 5-question catalog
    gives exactly 5 recommendations. *)
Theorem getRecommendedQuestions_returns_all (env : MockData.Env)
    (rnd : MockData.Random) (count : Z) :
  (forall l, MockData.sortShuffle rnd l ≡ₚ l) ->
  Z.of_nat (length MockData.MOCK_QUESTIONS) < count ->
  let recs := MockData.getRecommendedQuestions env rnd (Some count) in
  map MockData.rec_question recs
    = MockData.sortShuffle rnd MockData.MOCK_QUESTIONS
  /\ map MockData.rec_question recs ≡ₚ MockData.MOCK_QUESTIONS
  /\ length recs = 5%nat.
Proof.
  intros Hperm Hlt recs. subst recs. unfold MockData.getRecommendedQuestions.
  destruct (recommendFrom_all MockData.MOCK_QUESTIONS env rnd count
              (Hperm _) Hlt) as [Hq Hlen].
  rewrite Hq, Hlen. split; [reflexivity|]. split; [apply Hperm|reflexivity].
Qed.

Lemma getRecommendedQuestions_returns_all_witness :
  let rnd0 :=
    {| MockData.sortShuffle := reverse; MockData.draw := fun _ => 0.5%float |} in
  let env0 :=
    {| MockData.env_profile := MockData.MOCK_USER_PROFILE;
       MockData.env_store := initialState |} in
  length (MockData.getRecommendedQuestions env0 rnd0 (Some 10)) = 5%nat.
Proof.
  refine (proj2 (proj2
    (getRecommendedQuestions_returns_all
       {| MockData.env_profile := MockData.MOCK_USER_PROFILE;
          MockData.env_store := initialState |}
       {| MockData.sortShuffle := reverse;
          MockData.draw := fun _ => 0.5%float |}
       10 (fun l => reverse_Permutation l) _))).
  vm_compute. reflexivity.
Defined.

(** * Further properties of the store *)

(** ** The wrong-question book as first occurrences *)

Section FirstById.

Lemma filter_from_firstById (pre l : list Question) (seen : list string) :
  (forall i, i ∈ seen <-> i ∈ map id pre) ->
  filter_from isFirstOfId (pre ++ l) (length pre) l = firstById seen l.
Proof.
  revert pre seen. induction l as [|x t IH]; intros pre seen Hseen; simpl;
    [reflexivity|].
  pose proof (isFirstOfId_spec pre x t) as Hspec.
  assert (Hshift : filter_from isFirstOfId (pre ++ x :: t) (S (length pre)) t
                   = filter_from isFirstOfId ((pre ++ [x]) ++ t)
                       (length (pre ++ [x])) t).
  { rewrite <- app_assoc, length_app. simpl.
    replace (length pre + 1)%nat with (S (length pre)) by lia. reflexivity. }
  rewrite Hshift.
  destruct (isFirstOfId x (length pre) (pre ++ x :: t)) eqn:E.
  - rewrite bool_decide_eq_false_2
      by (rewrite Hseen; apply Hspec; reflexivity).
    f_equal. apply IH. intros i. rewrite map_app, elem_of_app, elem_of_cons.
    simpl. rewrite list_elem_of_singleton, Hseen. tauto.
  - assert (Hin : id x ∈ seen).
    { apply Hseen. destruct (decide (id x ∈ map id pre)) as [H|H]; [exact H|].
      apply Hspec in H. congruence. }
    rewrite bool_decide_eq_true_2 by exact Hin.
    apply IH. intros i. rewrite map_app, elem_of_app. simpl.
    rewrite list_elem_of_singleton, <- Hseen. split; [tauto|].
    intros [H| ->]; assumption.
Qed.

Lemma getWrongQuestionsOf_firstById (history : list AnswerRecord) :
  getWrongQuestionsOf history
  = firstById []
      (map question (filter (fun record => isCorrect record = false) history)).
Proof.
  unfold getWrongQuestionsOf, filter_indexed.
  apply (filter_from_firstById []). intros i. simpl. reflexivity.
Qed.

Lemma firstById_sublist (seen : list string) (l : list Question) :
  firstById seen l `sublist_of` l.
Proof.
  revert seen. induction l as [|x t IH]; intros seen; simpl; [constructor|].
  destruct (bool_decide (id x ∈ seen)); [apply sublist_cons|apply sublist_skip];
    apply IH.
Qed.

Lemma firstById_ids (seen : list string) (l : list Question) (i : string) :
  i ∈ map id (firstById seen l) <-> i ∈ map id l /\ i ∉ seen.
Proof.
  revert seen. induction l as [|x t IH]; intros seen; simpl.
  - split; [intros H; inversion H|intros [H _]; inversion H].
  - destruct (bool_decide (id x ∈ seen)) eqn:E.
    + apply bool_decide_eq_true in E. rewrite IH, elem_of_cons.
      split; [tauto|]. intros [[->|H] Hs]; [contradiction|tauto].
    + apply bool_decide_eq_false in E. simpl.
      rewrite !elem_of_cons, IH, elem_of_cons. split.
      * intros [->|[H Hs]]; tauto.
      * intros [[->|H] Hs]; [tauto|].
        destruct (decide (i = id x)); tauto.
Qed.

Lemma firstById_first (seen : list string) (l : list Question) (q : Question) :
  q ∈ firstById seen l ->
  exists pre post,
    l = pre ++ q :: post /\ (id q ∉ map id pre) /\ (id q ∉ seen).
Proof.
  revert seen. induction l as [|x t IH]; intros seen; simpl.
  - intros H; inversion H.
  - destruct (bool_decide (id x ∈ seen)) eqn:E.
    + apply bool_decide_eq_true in E. intros H.
      destruct (IH _ H) as (pre & post & -> & Hpre & Hs).
      exists (x :: pre), post. split; [reflexivity|]. split; [|exact Hs].
      simpl. rewrite elem_of_cons. intros [Heq|Hin]; [|contradiction].
      rewrite Heq in Hs. contradiction.
    + apply bool_decide_eq_false in E. intros [->|H]%elem_of_cons.
      * exists [], t. split; [reflexivity|]. split; [|exact E].
        simpl. intros H. inversion H.
      * destruct (IH _ H) as (pre & post & -> & Hpre & Hs).
        rewrite elem_of_cons in Hs.
        exists (x :: pre), post. split; [reflexivity|]. split; [|tauto].
        simpl. rewrite elem_of_cons. tauto.
Qed.

Lemma firstById_snoc (seen : list string) (l : list Question) (x : Question) :
  firstById seen (l ++ [x])
  = firstById seen l
    ++ (if bool_decide (id x ∈ seen ++ map id l) then [] else [x]).
Proof.
  revert seen. induction l as [|y t IH]; intros seen; simpl.
  - rewrite app_nil_r. destruct (bool_decide (id x ∈ seen)); reflexivity.
  - destruct (bool_decide (id y ∈ seen)) eqn:E.
    + apply bool_decide_eq_true in E. rewrite IH. f_equal.
      apply (f_equal (fun b : bool => if b then [] else [x])).
      apply bool_decide_ext. rewrite !elem_of_app, elem_of_cons.
      split; [tauto|]. intros [H|[->|H]]; tauto.
    + rewrite IH. simpl. f_equal. f_equal.
      apply (f_equal (fun b : bool => if b then [] else [x])).
      apply bool_decide_ext.
      repeat (rewrite elem_of_app || rewrite elem_of_cons). tauto.
Qed.

Lemma firstById_filter (qid : string) (seen seen' : list string)
    (l : list Question) :
  (forall i, i <> qid -> (i ∈ seen <-> i ∈ seen')) ->
  firstById seen (filter (fun q => id q <> qid) l)
  = filter (fun q => id q <> qid) (firstById seen' l).
Proof.
  revert seen seen'. induction l as [|x t IH]; intros seen seen' H; simpl;
    [reflexivity|].
  destruct (decide (id x = qid)) as [Heq|Hne].
  - rewrite filter_cons_False by (intros Hn; exact (Hn Heq)).
    destruct (bool_decide (id x ∈ seen')); [apply IH, H|].
    rewrite filter_cons_False by (intros Hn; exact (Hn Heq)).
    apply IH. intros i Hi. rewrite elem_of_cons, H by exact Hi.
    split; [tauto|]. intros [->|?]; [congruence|assumption].
  - rewrite filter_cons_True by exact Hne. simpl.
    rewrite (bool_decide_ext (id x ∈ seen) (id x ∈ seen')) by (apply H, Hne).
    destruct (bool_decide (id x ∈ seen')); [apply IH, H|].
    rewrite filter_cons_True by exact Hne. f_equal.
    apply IH. intros i Hi. rewrite !elem_of_cons, H by exact Hi. reflexivity.
Qed.

Lemma StronglySorted_fmap_S (idx : list nat) :
  StronglySorted lt idx -> StronglySorted lt (S <$> idx).
Proof.
  induction 1 as [|a idx _ IH Ha]; simpl; constructor; [exact IH|].
  apply Forall_fmap. eapply Forall_impl; [exact Ha|].
  intros b Hb. simpl. lia.
Qed.

(** The entries of [firstById seen l] come, one each and in increasing
    order, from the positions of [l] at which a question id that is not in
    [seen] occurs for the first time. *)
Lemma firstById_positions (seen : list string) (l : list Question) :
  exists idx : list nat,
    StronglySorted lt idx
    /\ (forall i, i ∈ idx <->
          exists q, l !! i = Some q /\ (id q ∉ seen)
                    /\ (id q ∉ map id (take i l)))
    /\ Forall2 (fun q i => l !! i = Some q) (firstById seen l) idx.
Proof.
  revert seen. induction l as [|x t IH]; intros seen.
  - exists []. split; [constructor|]. split; [|constructor].
    intros i. split; [intros H; inversion H|].
    intros (q & Hq & _). rewrite lookup_nil in Hq. discriminate Hq.
  - simpl. destruct (bool_decide (id x ∈ seen)) eqn:E.
    + apply bool_decide_eq_true in E.
      destruct (IH seen) as (idx & Hs & Hm & Hf).
      exists (S <$> idx). split; [apply StronglySorted_fmap_S, Hs|]. split.
      * intros i. rewrite list_elem_of_fmap. split.
        -- intros (j & -> & Hj). apply Hm in Hj as (q & Hq & Hns & Hnt).
           exists q. simpl. split; [exact Hq|]. split; [exact Hns|].
           rewrite elem_of_cons. intros [Heq|Hin]; [|contradiction].
           rewrite Heq in Hns. contradiction.
        -- intros (q & Hq & Hns & Hnt). destruct i as [|j].
           { simpl in Hq. injection Hq as <-. contradiction. }
           exists j. split; [reflexivity|]. apply Hm. exists q.
           simpl in Hq, Hnt. rewrite elem_of_cons in Hnt.
           split; [exact Hq|]. split; [exact Hns|]. tauto.
      * apply Forall2_fmap_r. exact Hf.
    + apply bool_decide_eq_false in E.
      destruct (IH (id x :: seen)) as (idx & Hs & Hm & Hf).
      exists (0%nat :: (S <$> idx)). split; [|split].
      * constructor; [apply StronglySorted_fmap_S, Hs|].
        apply Forall_fmap, Forall_forall. intros j _. simpl. lia.
      * intros i. rewrite elem_of_cons, list_elem_of_fmap. split.
        -- intros [->|(j & -> & Hj)].
           { exists x. simpl. split; [reflexivity|]. split; [exact E|].
             intros H. inversion H. }
           apply Hm in Hj as (q & Hq & Hns & Hnt).
           exists q. simpl. rewrite elem_of_cons in Hns.
           rewrite elem_of_cons. split; [exact Hq|]. tauto.
        -- intros (q & Hq & Hns & Hnt).
           destruct i as [|j]; [left; reflexivity|right].
           exists j. split; [reflexivity|]. apply Hm. exists q.
           simpl in Hq, Hnt. rewrite elem_of_cons in Hnt.
           rewrite elem_of_cons. split; [exact Hq|]. tauto.
      * constructor; [reflexivity|]. apply Forall2_fmap_r. exact Hf.
Qed.

End FirstById.

(** ** The book, recording and purging *)

Section Book.

Implicit Types (st : AppState) (history : list AnswerRecord).

Lemma wrongs_mark (qid : string) history :
  Forall (fun record => questionId record = id (question record)) history ->
  map question
    (filter (fun record => isCorrect record = false)
       (filter (fun record =>
                  ¬ (questionId record = qid ∧ isCorrect record = false))
               history))
  = filter (fun q => id q <> qid)
      (map question (filter (fun record => isCorrect record = false) history)).
Proof.
  induction 1 as [|r l Hr _ IH]; [reflexivity|].
  destruct (isCorrect r) eqn:Ec.
  - rewrite (filter_cons_True _ r) by (intros [_ H]; congruence).
    rewrite !(filter_cons_False _ r) by congruence. exact IH.
  - destruct (decide (questionId r = qid)) as [Heq|Hne].
    + rewrite (filter_cons_False _ r) by (intros H; apply H; auto).
      rewrite (filter_cons_True _ r) by exact Ec. simpl.
      rewrite filter_cons_False by (intros H; apply H; congruence).
      exact IH.
    + rewrite (filter_cons_True _ r) by (intros [H _]; auto).
      rewrite !(filter_cons_True _ r) by exact Ec. simpl.
      rewrite filter_cons_True by congruence. f_equal. exact IH.
Qed.

Lemma filter_correct_of_mark (qid : string) history :
  filter (fun record => isCorrect record = true)
    (filter (fun record =>
               ¬ (questionId record = qid ∧ isCorrect record = false))
            history)
  = filter (fun record => isCorrect record = true) history.
Proof.
  rewrite list_filter_filter. apply list_filter_iff. intros r.
  split; [tauto|]. intros H. split; [exact H|]. intros [_ H']. congruence.
Qed.

Lemma filter_wrong_of_correct history :
  filter (fun record => isCorrect record = false)
    (filter (fun record => isCorrect record = true) history) = [].
Proof.
  rewrite list_filter_filter. induction history as [|r l IH]; [reflexivity|].
  rewrite filter_cons_False by (intros [H1 H2]; congruence). exact IH.
Qed.

Lemma filter_split_length history :
  (length (filter (fun record => isCorrect record = false) history)
   + length (filter (fun record => isCorrect record = true) history))%nat
  = length history.
Proof.
  induction history as [|r l IH]; [reflexivity|].
  destruct (isCorrect r) eqn:E.
  - rewrite filter_cons_False, filter_cons_True by congruence. simpl. lia.
  - rewrite filter_cons_True, filter_cons_False by congruence. simpl. lia.
Qed.

End Book.

(** X1: the wrong-question book is the sequence of first misses, no more
    and no less.  Take the questions of the incorrect records in the order
    of the history; the positions at which a question id occurs for the
    first time, listed in increasing order, are the positions the entries of
    the book are taken from, entry by entry.  So the questions stand in the
    order in which they were first missed, each is the question object of
    its earliest incorrect record, and no missed question is left out. *)
Theorem getWrongQuestions_first_miss_order (st : AppState) :
  let wrongs :=
    map question
      (filter (fun record => isCorrect record = false) (answerHistory st)) in
  exists idx : list nat,
    StronglySorted lt idx
    /\ (forall i, i ∈ idx <->
          exists q, wrongs !! i = Some q /\ (id q ∉ map id (take i wrongs)))
    /\ Forall2 (fun q i => wrongs !! i = Some q) (getWrongQuestions st) idx.
Proof.
  cbv zeta. unfold getWrongQuestions. rewrite getWrongQuestionsOf_firstById.
  destruct (firstById_positions []
              (map question
                 (filter (fun record => isCorrect record = false)
                    (answerHistory st)))) as (idx & Hs & Hm & Hf).
  exists idx. split; [exact Hs|]. split; [|exact Hf].
  intros i. rewrite Hm. split.
  - intros (q & Hq & _ & Hn). eauto.
  - intros (q & Hq & Hn). exists q. split; [exact Hq|]. split; [|exact Hn].
    intros H. inversion H.
Qed.

(** X2: recording a correct answer leaves the wrong-question book as it
    is; recording an incorrect answer to a question already in the book
    leaves it as it is too, and to any other question appends that question
    at the end. *)
Theorem record_wrongBook (st : AppState) (ev : Submission) :
  getWrongQuestions (record st ev)
  = if isCorrect (recordOf ev) then getWrongQuestions st
    else if bool_decide (id (sub_question ev) ∈ map id (getWrongQuestions st))
         then getWrongQuestions st
         else getWrongQuestions st ++ [sub_question ev].
Proof.
  unfold getWrongQuestions. rewrite record_history.
  rewrite !getWrongQuestionsOf_firstById, filter_app.
  destruct (isCorrect (recordOf ev)) eqn:E.
  - rewrite (filter_cons_False _ (recordOf ev)) by congruence.
    rewrite app_nil_r. reflexivity.
  - rewrite (filter_cons_True _ (recordOf ev)) by exact E.
    rewrite map_app. simpl. rewrite firstById_snoc. simpl.
    set (wrongs := map question _).
    rewrite (bool_decide_ext _ (id (sub_question ev) ∈ map id (firstById [] wrongs))).
    + destruct (bool_decide _); [apply app_nil_r|reflexivity].
    + rewrite firstById_ids. split; [|tauto].
      intros H. split; [exact H|]. intros H'. inversion H'.
Qed.

(** X3: after [clearWrongAnswers] the wrong-question book is empty, the
    history holds exactly the correct records in their order and the
    statistics count no wrong answer, while everything else in the store is
    what it was: the profile (totals, streaks, mastery), the streak, both
    session counters, the current question, the queue and its index, the
    loading flag, the result flag and the last answer. *)
Theorem clearWrongAnswers_empties_book (st : AppState) :
  let st' := clearWrongAnswers st in
  getWrongQuestions st' = []
  /\ answerHistory st' = correctRecords (answerHistory st)
  /\ totalWrong (getWrongQuestionStats st') = 0%nat
  /\ totalAnswered (getWrongQuestionStats st')
     = length (correctRecords (answerHistory st))
  /\ userProfile st' = userProfile st
  /\ streak st' = streak st
  /\ sessionQuestions st' = sessionQuestions st
  /\ sessionCorrect st' = sessionCorrect st
  /\ currentQuestion st' = currentQuestion st
  /\ questionQueue st' = questionQueue st
  /\ currentIndex st' = currentIndex st
  /\ isLoading st' = isLoading st
  /\ showResult st' = showResult st
  /\ lastAnswer st' = lastAnswer st.
Proof.
  simpl. unfold getWrongQuestions, getWrongQuestionStats, clearWrongAnswers.
  simpl. rewrite getWrongQuestionsOf_firstById, filter_wrong_of_correct.
  repeat split.
Qed.

(** X4: on a history whose records carry the id of their question, as
    every history built by the store does, [markQuestionAsMastered(id)]
    removes exactly the question with that id from the wrong-question book:
    the other entries stay, in the same order. *)
Theorem markQuestionAsMastered_removes_question (st : AppState) (qid : string) :
  Forall (fun record => questionId record = id (question record))
    (answerHistory st) ->
  getWrongQuestions (markQuestionAsMastered qid st)
  = filter (fun q => id q <> qid) (getWrongQuestions st).
Proof.
  intros H. unfold getWrongQuestions, markQuestionAsMastered. simpl.
  rewrite !getWrongQuestionsOf_firstById, wrongs_mark by exact H.
  apply firstById_filter. reflexivity.
Qed.

Lemma markQuestionAsMastered_removes_question_witness :
  getWrongQuestions
    (markQuestionAsMastered "q_001"
       (recordAll [Sample.wrong MockData.q_001 "01";
                   Sample.wrong MockData.q_002 "02"] initialState))
  = filter (fun q => id q <> "q_001")
      (getWrongQuestions
         (recordAll [Sample.wrong MockData.q_001 "01";
                     Sample.wrong MockData.q_002 "02"] initialState)).
Proof.
  apply (markQuestionAsMastered_removes_question
    (recordAll [Sample.wrong MockData.q_001 "01";
                Sample.wrong MockData.q_002 "02"] initialState) "q_001").
  repeat constructor.
Defined.

(** X5: the two purging operations compose as filters do: marking a
    question twice is marking it once, marks of two questions commute,
    clearing after a mark is clearing, and a mark after clearing changes
    nothing. *)
Theorem purge_operations_compose (st : AppState) (a b : string) :
  markQuestionAsMastered a (markQuestionAsMastered a st)
    = markQuestionAsMastered a st
  /\ markQuestionAsMastered a (markQuestionAsMastered b st)
     = markQuestionAsMastered b (markQuestionAsMastered a st)
  /\ clearWrongAnswers (markQuestionAsMastered a st) = clearWrongAnswers st
  /\ markQuestionAsMastered a (clearWrongAnswers st) = clearWrongAnswers st.
Proof.
  unfold markQuestionAsMastered, clearWrongAnswers, with_answerHistory. simpl.
  repeat split; f_equal.
  - apply list_filter_filter_l. auto.
  - rewrite !list_filter_filter. apply list_filter_iff. intros r. tauto.
  - apply filter_correct_of_mark.
  - rewrite list_filter_filter. apply list_filter_iff. intros r.
    split; [tauto|]. intros H. split; [|exact H]. intros [_ H']. congruence.
Qed.

(** X6: [getWrongQuestionStats] counts every record as answered and the
    incorrect ones as wrong, so wrong and correct records add up to the
    total; [recentWrong] holds the last ten incorrect records (all of them
    when there are fewer), in order; the wrong-question book never has more
    entries than [totalWrong] and is empty exactly when [totalWrong] is 0;
    on an empty history the accuracy is 0. *)
Theorem getWrongQuestionStats_counts (st : AppState) :
  let stats := getWrongQuestionStats st in
  let wrongAnswers :=
    filter (fun record => isCorrect record = false) (answerHistory st) in
  totalAnswered stats = length (answerHistory st)
  /\ (totalWrong stats + length (correctRecords (answerHistory st)))%nat
     = totalAnswered stats
  /\ recentWrong stats `suffix_of` wrongAnswers
  /\ length (recentWrong stats) = Nat.min 10 (totalWrong stats)
  /\ (length (getWrongQuestions st) <= totalWrong stats)%nat
  /\ (totalWrong stats = 0%nat <-> getWrongQuestions st = [])
  /\ (answerHistory st = [] -> accuracy stats = 0%float).
Proof.
  cbv zeta. unfold getWrongQuestionStats, correctRecords.
  cbn [totalAnswered totalWrong recentWrong accuracy].
  set (wrongAnswers := filter _ (answerHistory st)).
  split; [reflexivity|]. split; [apply filter_split_length|].
  split; [apply suffix_drop|].
  split; [unfold slice_last; rewrite length_drop; lia|].
  unfold getWrongQuestions. rewrite getWrongQuestionsOf_firstById.
  fold wrongAnswers.
  split; [|split].
  - rewrite <- (length_map question wrongAnswers).
    apply sublist_length, firstById_sublist.
  - split.
    + intros H. apply length_zero_iff_nil in H. rewrite H. reflexivity.
    + intros H. destruct wrongAnswers as [|r l]; [reflexivity|].
      simpl in H. discriminate H.
  - intros ->. reflexivity.
Qed.

(** ** The queue cursor *)

Section Cursor.

Lemma at_index_head {A : Type} (l : list A) : at_index l 0 = head l.
Proof. destruct l; reflexivity. Qed.

Lemma cursorInQueue_step (st : AppState) (a : Action) :
  keepsCursor a = true -> cursorInQueue st -> cursorInQueue (step st a).
Proof.
  intros Ha (Hq & H0 & Hlt). unfold cursorInQueue.
  destruct a as [q|questions| |answer rt now| |loading| |qid]; simpl;
    try discriminate Ha; auto.
  - split; [reflexivity|]. split; [lia|]. intros Hne.
    destruct questions; [congruence|simpl; lia].
  - unfold nextQuestion.
    destruct (currentIndex st + 1 <? Z.of_nat (length (questionQueue st)))
      eqn:E; simpl; [|auto].
    apply Z.ltb_lt in E. split; [reflexivity|]. split; lia.
  - unfold submitAnswer. destruct (currentQuestion st) as [q|] eqn:E; simpl;
      [|rewrite E; auto].
    auto.
Qed.

Lemma run_snoc (acts : list Action) (a : Action) (st : AppState) :
  run (acts ++ [a]) st = step (run acts st) a.
Proof. unfold run. rewrite fold_left_app. reflexivity. Qed.

Lemma iter_nextQuestion (k : nat) (st : AppState) :
  let n := Z.of_nat (length (questionQueue st)) in
  let st' := Nat.iter k nextQuestion st in
  0 <= currentIndex st ->
  (currentIndex st <= Z.max 0 (n - 1)) ->
  questionQueue st' = questionQueue st
  /\ currentIndex st'
     = Z.min (currentIndex st + Z.of_nat k) (Z.max 0 (n - 1))
  /\ isLoading st'
     = (isLoading st || (Z.max 0 (n - 1) <? currentIndex st + Z.of_nat k))
  /\ (currentQuestion st = at_index (questionQueue st) (currentIndex st) ->
      currentQuestion st' = at_index (questionQueue st) (currentIndex st')).
Proof.
  intros n st' H0 Hle. subst st'. induction k as [|k IH].
  - simpl. rewrite Z.add_0_r. split; [reflexivity|]. split; [lia|].
    split; [|auto].
    replace (Z.max 0 (n - 1) <? currentIndex st) with false
      by (symmetry; apply Z.ltb_ge; lia).
    rewrite orb_false_r. reflexivity.
  - destruct IH as (Hq & Hi & Hl & Hc).
    change (Nat.iter (S k) nextQuestion st)
      with (nextQuestion (Nat.iter k nextQuestion st)).
    set (s := Nat.iter k nextQuestion st) in *.
    unfold nextQuestion. rewrite Hq. fold n.
    destruct (currentIndex s + 1 <? n) eqn:E;
      cbn [questionQueue currentIndex isLoading currentQuestion].
    + apply Z.ltb_lt in E. split; [reflexivity|]. split; [lia|].
      split; [|reflexivity]. rewrite Hl. f_equal.
      transitivity false; [apply Z.ltb_ge; lia|symmetry; apply Z.ltb_ge; lia].
    + apply Z.ltb_ge in E. split; [reflexivity|]. split; [lia|].
      split; [|exact Hc].
      assert (Hb : (Z.max 0 (n - 1) <? currentIndex st + Z.of_nat (S k)) = true)
        by (apply Z.ltb_lt; lia).
      rewrite Hb, orb_true_r. reflexivity.
Qed.

End Cursor.

(** X7: along any run of the store from its initial state that calls
    neither [setCurrentQuestion] nor [resetSession], the current question
    is the question at [currentIndex] in the queue ([null] for an empty
    queue), and [currentIndex] stays inside the queue. *)
Theorem cursor_stays_in_queue (acts : list Action) :
  forallb keepsCursor acts = true ->
  cursorInQueue (run acts initialState).
Proof.
  induction acts as [|a acts IH] using rev_ind; intros H.
  - split; [reflexivity|]. split; [simpl; lia|]. intros Hne. contradiction.
  - rewrite forallb_app in H. apply andb_prop in H as [Hacts Ha].
    simpl in Ha. rewrite andb_true_r in Ha.
    rewrite run_snoc. apply cursorInQueue_step; auto.
Qed.

Lemma cursor_stays_in_queue_witness :
  cursorInQueue
    (run [SetQuestionQueue MockData.MOCK_QUESTIONS;
          SubmitAnswer "C" 1500 (Sample.at_ "01"); NextQuestion;
          SubmitAnswer "A" 1500 (Sample.at_ "02"); NextQuestion;
          ClearWrongAnswers] initialState).
Proof.
  apply (cursor_stays_in_queue
    [SetQuestionQueue MockData.MOCK_QUESTIONS;
     SubmitAnswer "C" 1500 (Sample.at_ "01"); NextQuestion;
     SubmitAnswer "A" 1500 (Sample.at_ "02"); NextQuestion;
     ClearWrongAnswers]).
  reflexivity.
Defined.

(** X8: after [setQuestionQueue(questions)] and [k] calls of
    [nextQuestion], the index is [k] capped at the last position of the
    queue, the current question is the one at that index, and [isLoading]
    has been raised exactly when a call found the queue used up (it is
    never lowered); the queue is never walked past its end. *)
Theorem nextQuestion_stops_at_end (questions : list Question) (st : AppState)
    (k : nat) :
  let last := Z.max 0 (Z.of_nat (length questions) - 1) in
  let st' := Nat.iter k nextQuestion (setQuestionQueue questions st) in
  questionQueue st' = questions
  /\ currentIndex st' = Z.min (Z.of_nat k) last
  /\ currentQuestion st' = at_index questions (currentIndex st')
  /\ isLoading st' = (isLoading st || (last <? Z.of_nat k)).
Proof.
  intros last st'.
  destruct (iter_nextQuestion k (setQuestionQueue questions st))
    as (Hq & Hi & Hl & Hc); simpl; [lia|lia|].
  simpl in Hq, Hi, Hl, Hc. fold st' in Hq, Hi, Hl, Hc. fold last in Hi, Hl.
  split; [exact Hq|]. split; [exact Hi|]. split; [apply Hc; reflexivity|].
  exact Hl.
Qed.

(** ** What every run of the store keeps *)

Section StoreInvariant.

Lemma correctRecords_snoc (history : list AnswerRecord) (r : AnswerRecord) :
  length (correctRecords (history ++ [r]))
  = (length (correctRecords history) + (if isCorrect r then 1 else 0))%nat.
Proof.
  unfold correctRecords. rewrite filter_app, length_app. f_equal.
  destruct (isCorrect r) eqn:E.
  - rewrite filter_cons_True by exact E. reflexivity.
  - rewrite filter_cons_False by congruence. reflexivity.
Qed.

Lemma storeInvariant_initial : storeInvariant initialState.
Proof.
  split; simpl; try lia; try reflexivity.
  - constructor.
  - split; [apply map_Forall_empty|reflexivity].
Qed.

Lemma storeInvariant_submitAnswer (answer : string) (rt : Z) (now : string)
    (st : AppState) :
  storeInvariant st -> storeInvariant (submitAnswer answer rt now st).
Proof.
  intros H.
  pose proof (submitAnswer_in_unit_or_NaN answer rt now st (inv_scores _ H))
    as Hscores.
  destruct H. unfold submitAnswer in *.
  destruct (currentQuestion st) as [q|]; [|split; assumption].
  split; cbn [streak up_streak longestStreak correctAnswers totalQuestions
              sessionCorrect sessionQuestions answerHistory userProfile
              masteryMatrix] in *;
    try exact Hscores.
  all: try (destruct (String.eqb answer (correctAnswer q)); lia).
  - rewrite correctRecords_snoc. simpl.
    destruct (String.eqb answer (correctAnswer q)); lia.
  - rewrite length_app. simpl. lia.
  - apply Forall_app. split; [assumption|]. repeat constructor.
Qed.

Lemma storeInvariant_purge (st : AppState) (history : list AnswerRecord) :
  history `sublist_of` answerHistory st ->
  correctRecords history = correctRecords (answerHistory st) ->
  storeInvariant st -> storeInvariant (with_answerHistory history st).
Proof.
  intros Hsub Hcorrect H.
  pose proof (proj1 (Forall_forall _ _) (inv_ledger_ids _ H)) as Hids.
  destruct H. split; simpl; try assumption.
  - rewrite Hcorrect. assumption.
  - apply sublist_length in Hsub. lia.
  - apply Forall_forall. intros r Hr. apply Hids.
    eapply elem_of_sublist; eassumption.
Qed.

Lemma storeInvariant_step (st : AppState) (a : Action) :
  storeInvariant st -> storeInvariant (step st a).
Proof.
  intros H.
  destruct a as [q|questions| |answer rt now| |loading| |qid]; simpl.
  - destruct H. split; assumption.
  - destruct H. split; assumption.
  - unfold nextQuestion.
    destruct (_ <? _); destruct H; split; assumption.
  - apply storeInvariant_submitAnswer, H.
  - destruct H. split; simpl; try assumption; lia.
  - destruct H. split; assumption.
  - apply storeInvariant_purge; [apply sublist_filter| |exact H].
    unfold correctRecords. apply list_filter_filter_l. auto.
  - apply storeInvariant_purge; [apply sublist_filter| |exact H].
    apply filter_correct_of_mark.
Qed.

Lemma updateMastery_snoc (correct : bool) (points : list string) (p : string)
    (m : gmap string JS.number) :
  updateMastery correct (points ++ [p]) m
  = updatePoint correct (updateMastery correct points m) p.
Proof. unfold updateMastery. rewrite fold_left_app. reflexivity. Qed.

Lemma updatePoint_is_Some (correct : bool) (m : gmap string JS.number)
    (point k : string) :
  is_Some (m !! k) -> is_Some (updatePoint correct m point !! k).
Proof.
  intros H. destruct (decide (k = point)) as [->|Hne].
  - rewrite updatePoint_lookup_same by (right; exact H). eauto.
  - rewrite updatePoint_lookup_other by exact Hne. exact H.
Qed.

Lemma updateMastery_is_Some (correct : bool) (points : list string)
    (m : gmap string JS.number) (k : string) :
  is_Some (m !! k) -> is_Some (updateMastery correct points m !! k).
Proof.
  unfold updateMastery. revert m.
  induction points as [|p points IH]; intros m H; simpl; [exact H|].
  apply IH, updatePoint_is_Some, H.
Qed.

Lemma updateMastery_scores_tags (correct : bool) (points : list string)
    (m : gmap string JS.number) (k : string) :
  k ∈ points ->
  JS.inherited k = false \/ is_Some (m !! k) ->
  exists v, updateMastery correct points m !! k = Some v
            /\ JS.in_unit v = true.
Proof.
  induction points as [|p points IH] using rev_ind; intros Hk Hown.
  - inversion Hk.
  - rewrite updateMastery_snoc. destruct (decide (k = p)) as [->|Hne].
    + rewrite updatePoint_lookup_same.
      * eexists. split; [reflexivity|]. apply rule_in_unit.
      * destruct Hown as [Hown|Hown]; [left; exact Hown|right].
        apply updateMastery_is_Some, Hown.
    + rewrite updatePoint_lookup_other by exact Hne. apply IH; [|exact Hown].
      apply elem_of_app in Hk as [Hk|Hk]; [exact Hk|].
      apply list_elem_of_singleton in Hk. contradiction.
Qed.

End StoreInvariant.

(** X9: every run of the store from its initial state, whatever calls it
    makes among [setCurrentQuestion], [setQuestionQueue], [nextQuestion],
    [submitAnswer], [resetSession], [setLoading], [clearWrongAnswers] and
    [markQuestionAsMastered], keeps
    [0 <= streak <= longestStreak <= correctAnswers <= totalQuestions],
    [0 <= sessionCorrect <= sessionQuestions <= totalQuestions],
    [sessionCorrect <= correctAnswers], the profile's streak equal to the
    store's, [correctAnswers] equal to the number of correct records in the
    history, at most [totalQuestions] records and every record carrying the
    id of its question; every mastery score is in [0, 1], or is [NaN] under
    a tag that names a method of [Object.prototype], and no score is ever
    stored under [__proto__]. *)
Theorem store_invariant (acts : list Action) :
  storeInvariant (run acts initialState).
Proof.
  induction acts as [|a acts IH] using rev_ind.
  - exact storeInvariant_initial.
  - rewrite run_snoc. apply storeInvariant_step, IH.
Qed.

(** X10: whatever the mastery matrix held before (a score out of range or
    [NaN] included), after [submitAnswer] every knowledge point of the
    answered question that the matrix held already, or that names no member
    of [Object.prototype], has a score, and that score lies in [0, 1]. *)
Theorem submitAnswer_scores_tags (st : AppState) (q : Question)
    (answer : string) (rt : Z) (now k : string) :
  currentQuestion st = Some q ->
  k ∈ knowledgePoints q ->
  JS.inherited k = false \/ is_Some (masteryMatrix (userProfile st) !! k) ->
  exists v,
    masteryMatrix (userProfile (submitAnswer answer rt now st)) !! k = Some v
    /\ JS.in_unit v = true.
Proof.
  intros Hq Hk Hown. unfold submitAnswer. rewrite Hq. simpl.
  apply updateMastery_scores_tags; assumption.
Qed.

Lemma submitAnswer_scores_tags_witness :
  exists v,
    masteryMatrix (userProfile
      (submitAnswer "C" 1500 (Sample.at_ "01")
         (setCurrentQuestion (Some MockData.q_001) initialState)))
      !! "关系类型" = Some v
    /\ JS.in_unit v = true.
Proof.
  apply (submitAnswer_scores_tags
    (setCurrentQuestion (Some MockData.q_001) initialState)
    MockData.q_001 "C" 1500 (Sample.at_ "01") "关系类型" eq_refl).
  - apply (bool_decide_unpack _). vm_compute. exact I.
  - left. reflexivity.
Defined.

(** * Further properties of the mock service *)

Section Service.

Import MockData.

Lemma countersAgree_step (p : Profile) (st : AppState) (ev : Submission) :
  countersAgree p st -> 0 <= p_longestStreak p ->
  countersAgree
    (updateUserStats (id (sub_question ev)) (isCorrect (recordOf ev))
       (sub_responseTime ev) p)
    (record st ev)
  /\ 0 <= p_longestStreak
            (updateUserStats (id (sub_question ev)) (isCorrect (recordOf ev))
               (sub_responseTime ev) p).
Proof.
  intros (Ht & Hc & Hs & Hl) H0. unfold countersAgree, record, submitAnswer.
  simpl. rewrite <- Ht, <- Hc, <- Hs, <- Hl.
  destruct (String.eqb (sub_answer ev) (correctAnswer (sub_question ev)));
    repeat split; lia.
Qed.

Lemma reportAll_snoc (evs : list Submission) (ev : Submission) (p : Profile) :
  reportAll (evs ++ [ev]) p
  = updateUserStats (id (sub_question ev)) (isCorrect (recordOf ev))
      (sub_responseTime ev) (reportAll evs p).
Proof. unfold reportAll. rewrite fold_left_app. reflexivity. Qed.

Lemma searchIn_filtered (catalog : list Question) (f : Filters) :
  exists filtered,
    searchIn catalog f = slice0 filtered (effectiveLimit f)
    /\ filtered `sublist_of` catalog
    /\ (forall q, q ∈ filtered <-> q ∈ catalog /\ matchesFilters f q).
Proof.
  unfold searchIn, matchesFilters. eexists. split; [reflexivity|].
  destruct (nonEmpty (f_difficulty f)), (nonEmpty (f_subjects f)),
    (nonEmpty (f_knowledgePoints f)).
  all: split;
    [ repeat (etrans; [apply sublist_filter|]); reflexivity
    | intros q; rewrite ?list_elem_of_filter; intuition congruence ].
Qed.

Lemma detailIn_found (catalog : list Question) (q : Question) :
  NoDup (map id catalog) -> q ∈ catalog -> detailIn catalog (id q) = Some q.
Proof.
  unfold detailIn. induction catalog as [|x t IH]; intros Hnd Hq; simpl.
  - inversion Hq.
  - simpl in Hnd. apply NoDup_cons in Hnd as [Hx Hnd].
    destruct (String.eqb (id x) (id q)) eqn:E.
    + apply String.eqb_eq in E.
      apply elem_of_cons in Hq as [->|Hq]; [reflexivity|].
      exfalso. apply Hx. rewrite E. apply list_elem_of_fmap. exists q. auto.
    + apply elem_of_cons in Hq as [->|Hq];
        [rewrite String.eqb_refl in E; discriminate|].
      apply IH; assumption.
Qed.

Lemma detailIn_sound (catalog : list Question) (qid : string) :
  match detailIn catalog qid with
  | Some q => q ∈ catalog /\ id q = qid
  | None => qid ∉ map id catalog
  end.
Proof.
  unfold detailIn. induction catalog as [|x t IH]; simpl.
  - intros H. inversion H.
  - destruct (String.eqb (id x) qid) eqn:E.
    + apply String.eqb_eq in E. split; [left|exact E].
    + apply String.eqb_neq in E. destruct (find _ t) as [q|].
      * destruct IH. split; [right|]; assumption.
      * rewrite elem_of_cons. intros [H|H]; [congruence|contradiction].
Qed.

Lemma recommended_in_catalog (env : Env) (rnd : Random) (count : option Z)
    (r : Recommendation) :
  sortShuffle rnd MOCK_QUESTIONS ≡ₚ MOCK_QUESTIONS ->
  r ∈ getRecommendedQuestions env rnd count ->
  rec_question r ∈ MOCK_QUESTIONS /\ question_id r = id (rec_question r).
Proof.
  intros Hperm Hr. split.
  - rewrite <- Hperm.
    eapply elem_of_sublist; [|apply slice0_sublist].
    unfold getRecommendedQuestions in Hr.
    rewrite <- (recommendFrom_questions _ env rnd count).
    apply list_elem_of_fmap. exists r. auto.
  - unfold getRecommendedQuestions, recommendFrom in Hr.
    apply list_elem_of_lookup in Hr as [i Hi].
    rewrite list_lookup_imap in Hi.
    apply fmap_Some in Hi as (q & _ & ->). reflexivity.
Qed.

End Service.

(** X11: [updateUserStats] of the mock service keeps the same books as
    [submitAnswer] of the store: when the two agree on the totals and
    streaks, and the longest streak is not negative, they still agree after
    any sequence of answers reported to both; the experience grows by 10
    for each correct and by 3 for each incorrect answer. *)
Theorem updateUserStats_matches_store (evs : list Submission)
    (p : MockData.Profile) (st : AppState) :
  countersAgree p st ->
  0 <= MockData.p_longestStreak p ->
  countersAgree (reportAll evs p) (recordAll evs st)
  /\ MockData.experience (reportAll evs p)
     = MockData.experience p
       + 10 * Z.of_nat (length (correctRecords (map recordOf evs)))
       + 3 * Z.of_nat
               (length (filter (fun r => isCorrect r = false)
                          (map recordOf evs))).
Proof.
  intros Hagree H0.
  cut ((countersAgree (reportAll evs p) (recordAll evs st)
        /\ 0 <= MockData.p_longestStreak (reportAll evs p))
       /\ MockData.experience (reportAll evs p)
          = MockData.experience p
            + 10 * Z.of_nat (length (correctRecords (map recordOf evs)))
            + 3 * Z.of_nat
                    (length (filter (fun r => isCorrect r = false)
                               (map recordOf evs)))); [tauto|].
  induction evs as [|ev evs IH] using rev_ind.
  - simpl. split; [auto|]. unfold correctRecords. simpl. lia.
  - destruct IH as [[IHa IH0] IHe].
    rewrite reportAll_snoc, recordAll_snoc. split.
    + apply countersAgree_step; assumption.
    + rewrite map_app. change (map recordOf [ev]) with [recordOf ev].
      rewrite filter_app, length_app, correctRecords_snoc.
      cbn [MockData.updateUserStats MockData.experience]. rewrite IHe.
      destruct (isCorrect (recordOf ev)) eqn:E.
      * rewrite filter_cons_False by congruence.
        rewrite filter_nil. cbn [length]. lia.
      * rewrite filter_cons_True by exact E.
        rewrite filter_nil. cbn [length]. lia.
Qed.

Lemma updateUserStats_matches_store_witness :
  let p0 :=
    MockData.updateUserStats "q_001" true 1500
      (MockData.updateUserStats "q_002" false 1500
         {| MockData.p_id := "user_001"; MockData.openid := "o";
            MockData.p_nickname := "n"; MockData.avatarUrl := "a";
            MockData.p_level := 1; MockData.experience := 0;
            MockData.p_totalQuestions := 0; MockData.p_correctAnswers := 0;
            MockData.currentStreak := 0; MockData.p_longestStreak := 0;
            MockData.p_studyDays := 1; MockData.p_targetExam := "t";
            MockData.knowledgeMastery := ∅ |}) in
  let st0 :=
    recordAll [Sample.wrong MockData.q_002 "01";
               Sample.right MockData.q_001 "02"] initialState in
  countersAgree (reportAll [Sample.right MockData.q_003 "03"] p0)
    (recordAll [Sample.right MockData.q_003 "03"] st0).
Proof.
  refine (proj1 (updateUserStats_matches_store
    [Sample.right MockData.q_003 "03"] _ _ _ _)).
  - vm_compute. repeat split.
  - vm_compute. discriminate.
Defined.

(** X12: [searchQuestions] returns questions of the catalog in catalog
    order, each passing every filter that is present and not empty (an
    empty filter list filters nothing); with a limit that is not negative
    it returns at most that many; and when the limit in force is at least
    the size of the catalog, which includes a limit of 0 or none at all
    since both mean 20, it returns every question that passes. *)
Theorem searchQuestions_sound_complete (f : MockData.Filters) :
  let found := MockData.searchQuestions f in
  found `sublist_of` MockData.MOCK_QUESTIONS
  /\ (forall q, q ∈ found -> matchesFilters f q)
  /\ (0 <= MockData.effectiveLimit f ->
      Z.of_nat (length found) <= MockData.effectiveLimit f)
  /\ (Z.of_nat (length MockData.MOCK_QUESTIONS) <= MockData.effectiveLimit f ->
      forall q, q ∈ MockData.MOCK_QUESTIONS -> matchesFilters f q -> q ∈ found)
  /\ (MockData.f_limit f = Some 0 \/ MockData.f_limit f = None ->
      MockData.effectiveLimit f = 20).
Proof.
  cbv zeta. unfold MockData.searchQuestions.
  destruct (searchIn_filtered MockData.MOCK_QUESTIONS f)
    as (filtered & -> & Hsub & Hin).
  split; [|split; [|split; [|split]]].
  - etrans; [apply slice0_sublist|exact Hsub].
  - intros q Hq. apply Hin.
    eapply elem_of_sublist; [exact Hq|apply slice0_sublist].
  - intros H0. unfold MockData.slice0.
    destruct (MockData.effectiveLimit f <? 0) eqn:E;
      [apply Z.ltb_lt in E; lia|].
    rewrite length_take. lia.
  - intros Hbig q Hq Hm. rewrite slice0_all; [apply Hin; auto|].
    apply sublist_length in Hsub. lia.
  - unfold MockData.effectiveLimit. intros [->| ->]; reflexivity.
Qed.

(** X13: every recommendation can be looked up again: for each entry
    returned by [getRecommendedQuestions], [getQuestionDetail] of its
    [question_id] gives back the recommended question; and
    [getQuestionDetail] answers [null] exactly for the ids that no catalog
    question has. *)
Theorem getQuestionDetail_of_recommendation (env : MockData.Env)
    (rnd : MockData.Random) (count : option Z) :
  MockData.sortShuffle rnd MockData.MOCK_QUESTIONS ≡ₚ MockData.MOCK_QUESTIONS ->
  (forall r, r ∈ MockData.getRecommendedQuestions env rnd count ->
     MockData.getQuestionDetail (MockData.question_id r)
     = Some (MockData.rec_question r))
  /\ (forall qid, MockData.getQuestionDetail qid = None
                  <-> qid ∉ map id MockData.MOCK_QUESTIONS).
Proof.
  intros Hperm. split.
  - intros r Hr.
    destruct (recommended_in_catalog env rnd count r Hperm Hr) as [Hin ->].
    apply detailIn_found; [apply MOCK_QUESTIONS_distinct|exact Hin].
  - intros qid. unfold MockData.getQuestionDetail.
    pose proof (detailIn_sound MockData.MOCK_QUESTIONS qid) as H.
    destruct (MockData.detailIn MockData.MOCK_QUESTIONS qid) as [q|].
    + destruct H as [Hin Hid]. split; [discriminate|].
      intros Hn. exfalso. apply Hn. apply list_elem_of_fmap. exists q. auto.
    + tauto.
Qed.

Lemma getQuestionDetail_of_recommendation_witness :
  MockData.getQuestionDetail "q_404" = None
  <-> "q_404" ∉ map id MockData.MOCK_QUESTIONS.
Proof.
  exact (proj2 (getQuestionDetail_of_recommendation
    {| MockData.env_profile := MockData.MOCK_USER_PROFILE;
       MockData.env_store := initialState |}
    {| MockData.sortShuffle := reverse; MockData.draw := fun _ => 0.5%float |}
    (Some 3) (reverse_Permutation _)) "q_404").
Defined.

(** * Properties of the token store *)

Section AuthFacts.

Import Auth.

Lemma expiry_without_login (s : Storage) (a : AuthAction) :
  isLogin a = false ->
  token_expire_time (authStep s a) = token_expire_time s
  \/ token_expire_time (authStep s a) = None.
Proof.
  intros Ha. destruct a as [response now|response|now response|]; simpl;
    try discriminate Ha.
  - unfold refreshToken. destruct (truthyString (refresh_token s)); simpl;
      [destruct response|]; simpl; auto.
  - unfold autoRefreshToken, refreshToken.
    destruct (isTokenExpiringSoon now s); [|auto].
    destruct (truthyString (refresh_token s)); simpl;
      [destruct response|]; simpl; auto.
  - auto.
Qed.

Lemma expiring_monotone (now now' : Z) (s s' : Storage) :
  token_expire_time s' = token_expire_time s \/ token_expire_time s' = None ->
  isTokenExpiringSoon now s = true -> now <= now' ->
  isTokenExpiringSoon now' s' = true.
Proof.
  unfold isTokenExpiringSoon. intros [-> | ->]; [|reflexivity].
  destruct (token_expire_time s) as [t|]; [|reflexivity].
  destruct (t =? 0); [reflexivity|]. intros H Hle.
  apply Z.gtb_gt in H. apply Z.gtb_gt. lia.
Qed.

Lemma authRun_snoc (acts : list AuthAction) (a : AuthAction) (s : Storage) :
  authRun (acts ++ [a]) s = authStep (authRun acts s) a.
Proof. unfold authRun. rewrite fold_left_app. reflexivity. Qed.

Lemma expiry_without_logins (acts : list AuthAction) (s : Storage) :
  existsb isLogin acts = false ->
  token_expire_time (authRun acts s) = token_expire_time s
  \/ token_expire_time (authRun acts s) = None.
Proof.
  induction acts as [|a acts IH] using rev_ind; intros H.
  - left. reflexivity.
  - rewrite existsb_app in H. apply orb_false_elim in H as [Hacts Ha].
    simpl in Ha. rewrite orb_false_r in Ha. rewrite authRun_snoc.
    destruct (expiry_without_login (authRun acts s) a Ha) as [E|E];
      [|right; exact E].
    rewrite E. apply IH, Hacts.
Qed.

End AuthFacts.

(** X14: saving a token logs the user in exactly when its access token is
    not the empty string; after [clearTokens] the user is logged out and
    the token counts as expiring; after [saveToken] at time [now] the token
    counts as expiring at a time [later] exactly when [later] is past five
    minutes before [now + expires_in * 1000] (that sum being 0 apart), so a
    token that lives less than 300 seconds is due for refresh from the
    moment it is saved. *)
Theorem token_lifecycle (tokenData : Auth.Token) (now later : Z)
    (s : Auth.Storage) :
  Auth.isLoggedIn (Auth.saveToken tokenData now s)
    = negb (String.eqb (Auth.access_token tokenData) "")
  /\ Auth.isLoggedIn (Auth.clearTokens s) = false
  /\ Auth.isTokenExpiringSoon later (Auth.clearTokens s) = true
  /\ (now + Auth.expires_in tokenData * 1000 <> 0 ->
      Auth.isTokenExpiringSoon later (Auth.saveToken tokenData now s)
      = (later >? now + Auth.expires_in tokenData * 1000 - 300000))
  /\ (Auth.expires_in tokenData < 300 -> now <= later ->
      Auth.isTokenExpiringSoon later (Auth.saveToken tokenData now s) = true).
Proof.
  unfold Auth.isLoggedIn, Auth.isTokenExpiringSoon, Auth.saveToken,
    Auth.clearTokens. simpl.
  split; [reflexivity|]. split; [reflexivity|]. split; [reflexivity|]. split.
  - intros Hne. apply Z.eqb_neq in Hne. rewrite Hne. reflexivity.
  - intros Hshort Hle.
    destruct (now + Auth.expires_in tokenData * 1000 =? 0); [reflexivity|].
    apply Z.gtb_gt. lia.
Qed.

(** X15: only a login writes the expiry time.  Once the token counts as
    expiring, it still does at every later time after any calls of
    [refreshToken], [autoRefreshToken] and [logout], successful or not: a
    refresh replaces the access token and never moves the expiry. *)
Theorem refresh_never_extends_expiry (acts : list AuthAction)
    (s : Auth.Storage) (now later : Z) :
  existsb isLogin acts = false ->
  Auth.isTokenExpiringSoon now s = true ->
  now <= later ->
  Auth.isTokenExpiringSoon later (authRun acts s) = true.
Proof.
  intros Hacts Hsoon Hle.
  eapply expiring_monotone; [|exact Hsoon|exact Hle].
  apply expiry_without_logins, Hacts.
Qed.

Lemma refresh_never_extends_expiry_witness :
  let s0 :=
    Auth.saveToken
      {| Auth.access_token := "a1"; Auth.tk_refresh_token := "r1";
         Auth.expires_in := 3600 |}
      1000000
      {| Auth.auth_token := None; Auth.refresh_token := None;
         Auth.token_expire_time := None |} in
  Auth.isTokenExpiringSoon 5000000
    (authRun [AutoRefresh 4400000 (Some "a2"); Refresh (Some "a3")] s0) = true.
Proof.
  apply (refresh_never_extends_expiry
    [AutoRefresh 4400000 (Some "a2"); Refresh (Some "a3")]
    (Auth.saveToken
      {| Auth.access_token := "a1"; Auth.tk_refresh_token := "r1";
         Auth.expires_in := 3600 |}
      1000000
      {| Auth.auth_token := None; Auth.refresh_token := None;
         Auth.token_expire_time := None |})
    4400000 5000000).
  - reflexivity.
  - reflexivity.
  - lia.
Defined.

(** * Properties of the question store and the practice page *)

Section QuestionStoreFacts.

Import QuestionStore.

Lemma invariant_initial : invariant initial.
Proof. split; simpl; lia. Qed.

Lemma correct_entries_snoc (l : list AnswerEntry) (r : AnswerEntry) :
  length (filter (fun r => e_isCorrect r = true) (l ++ [r]))
  = (length (filter (fun r => e_isCorrect r = true) l)
     + (if e_isCorrect r then 1 else 0))%nat.
Proof.
  rewrite filter_app, length_app. f_equal. destruct (e_isCorrect r) eqn:E.
  - rewrite filter_cons_True by exact E. reflexivity.
  - rewrite filter_cons_False by congruence. reflexivity.
Qed.

Lemma invariant_step (st : State) (a : Action) :
  invariant st -> invariant (step st a).
Proof.
  intros H.
  destruct a as [qs|index|qid answer rt now|qid| | | |b|e]; simpl.
  - destruct H. split; simpl; lia.
  - unfold setCurrentIndex.
    destruct ((0 <=? index) && (index <? Z.of_nat (length (questions st))))
      eqn:E; [|exact H].
    apply andb_prop in E as [E1 E2]. apply Z.leb_le in E1.
    apply Z.ltb_lt in E2. destruct H. split; simpl; lia.
  - unfold addUserAnswer.
    destruct (find _ (questions st)) as [q|]; [|exact H].
    destruct H.
    split; cbn [currentIndex questions totalQuestions currentStreak
                correctCount answerRecords]; try lia.
    all: try (destruct (String.eqb answer (correctAnswer q)); lia).
    rewrite correct_entries_snoc. cbn [e_isCorrect].
    destruct (String.eqb answer (correctAnswer q)); lia.
  - destruct H. split; assumption.
  - unfold nextQuestion.
    destruct (currentIndex st <? Z.of_nat (length (questions st)) - 1) eqn:E;
      [|exact H].
    apply Z.ltb_lt in E. destruct H. split; simpl; lia.
  - unfold previousQuestion.
    destruct (currentIndex st >? 0) eqn:E; [|exact H].
    apply Z.gtb_gt in E. destruct H. split; simpl; lia.
  - destruct H. split; simpl; lia.
  - destruct H. split; assumption.
  - destruct H. split; assumption.
Qed.

Lemma store_run_snoc (acts : list Action) (a : Action) (st : State) :
  run (acts ++ [a]) st = step (run acts st) a.
Proof. unfold run. rewrite fold_left_app. reflexivity. Qed.

Lemma invariant_run (acts : list Action) (st : State) :
  invariant st -> invariant (run acts st).
Proof.
  intros H. induction acts as [|a acts IH] using rev_ind; [exact H|].
  rewrite store_run_snoc. apply invariant_step, IH.
Qed.

Lemma at_index_elem {A : Type} (l : list A) (i : Z) (x : A) :
  at_index l i = Some x -> x ∈ l.
Proof.
  unfold at_index. destruct (i <? 0); [discriminate|].
  apply list_elem_of_lookup_2.
Qed.

Lemma find_by_id_some (l : list Question) (q : Question) :
  q ∈ l -> exists q', List.find (fun x => String.eqb (id x) (id q)) l = Some q'.
Proof.
  induction l as [|x t IH]; intros Hq; [inversion Hq|]. simpl.
  destruct (String.eqb (id x) (id q)) eqn:E; [eauto|].
  apply elem_of_cons in Hq as [->|Hq];
    [rewrite String.eqb_refl in E; discriminate|auto].
Qed.

Lemma at_index_in_range {A : Type} (l : list A) (i : Z) :
  0 <= i < Z.of_nat (length l) -> exists x, at_index l i = Some x.
Proof.
  intros [H0 Hlt]. unfold at_index.
  destruct (i <? 0) eqn:E; [apply Z.ltb_lt in E; lia|].
  apply lookup_lt_is_Some_2. lia.
Qed.

End QuestionStoreFacts.

(** X16: every run of the question store from its initial state, whatever
    calls it makes, keeps [currentIndex] inside the list (at 0 for an
    empty list), [totalQuestions] equal to the length of the list, and
    [0 <= currentStreak <= correctCount], with [correctCount] never above
    the number of correct entries of [answerRecords]; so
    [getCurrentQuestion] is [null] only for an empty list. *)
Theorem questionStore_invariant (acts : list QuestionStore.Action) :
  let st := QuestionStore.run acts QuestionStore.initial in
  QuestionStore.invariant st
  /\ (QuestionStore.getCurrentQuestion st = None
      <-> QuestionStore.questions st = []).
Proof.
  cbv zeta.
  pose proof (invariant_run acts _ invariant_initial) as H.
  split; [exact H|]. destruct H as [H0 Hb _ _ _ _].
  set (st := QuestionStore.run acts QuestionStore.initial) in *.
  unfold QuestionStore.getCurrentQuestion. split.
  - intros Hnone.
    destruct (QuestionStore.questions st) as [|q l] eqn:E; [reflexivity|].
    destruct (at_index_in_range (q :: l) (QuestionStore.currentIndex st))
      as [x Hx]; [simpl in *; lia|congruence].
  - intros ->. unfold at_index.
    destruct (_ <? 0); [reflexivity|apply lookup_nil].
Qed.

Section QuestionPageFacts.

Import QuestionPage.

Lemma more_questions (env : MockData.Env) (rnd : MockData.Random) :
  MockData.sortShuffle rnd MockData.MOCK_QUESTIONS ≡ₚ MockData.MOCK_QUESTIONS ->
  map MockData.rec_question
    (MockData.getRecommendedQuestions env rnd (Some 5))
  = MockData.sortShuffle rnd MockData.MOCK_QUESTIONS.
Proof.
  intros Hperm. unfold MockData.getRecommendedQuestions.
  rewrite recommendFrom_questions. apply slice0_all.
  rewrite Hperm. simpl. lia.
Qed.

(** What one call of [selectAnswer] does when the render that created it
    saw no answer to the current question. *)
Lemma selectAnswer_records (r : Render) (answer : string) (rt now : Z)
    (w : World) (q : Question) :
  QuestionStore.getCurrentQuestion (store w) = Some q ->
  answered (r_userAnswers r) (id q) = false ->
  exists q',
    List.find (fun x => String.eqb (id x) (id q))
      (QuestionStore.questions (store w)) = Some q'
    /\ selectAnswer r answer rt now w
       = {| store :=
              {| QuestionStore.questions := QuestionStore.questions (store w);
                 QuestionStore.currentIndex :=
                   QuestionStore.currentIndex (store w);
                 QuestionStore.userAnswers :=
                   <[id q := answer]> (QuestionStore.userAnswers (store w));
                 QuestionStore.showAnswers :=
                   <[id q := true]> (QuestionStore.showAnswers (store w));
                 QuestionStore.answerRecords :=
                   QuestionStore.answerRecords (store w)
                   ++ [{| QuestionStore.e_questionId := id q;
                          QuestionStore.e_userAnswer := answer;
                          QuestionStore.e_isCorrect :=
                            String.eqb answer (correctAnswer q');
                          QuestionStore.e_responseTime := rt;
                          QuestionStore.e_timestamp := now |}];
                 QuestionStore.totalQuestions :=
                   QuestionStore.totalQuestions (store w);
                 QuestionStore.correctCount :=
                   if String.eqb answer (correctAnswer q')
                   then QuestionStore.correctCount (store w) + 1
                   else QuestionStore.correctCount (store w);
                 QuestionStore.currentStreak :=
                   if String.eqb answer (correctAnswer q')
                   then QuestionStore.currentStreak (store w) + 1 else 0;
                 QuestionStore.loading := QuestionStore.loading (store w);
                 QuestionStore.error := QuestionStore.error (store w) |};
            profile :=
              MockData.updateUserStats (id q)
                (String.eqb answer (correctAnswer q)) rt (profile w);
            user :=
              match r_user r with
              | Some currentUser =>
                  match user w with
                  | Some _ =>
                      Some {| u_totalQuestions :=
                                Some (orZero (u_totalQuestions currentUser) + 1);
                              u_correctAnswers :=
                                Some (orZero (u_correctAnswers currentUser)
                                      + (if String.eqb answer (correctAnswer q)
                                         then 1 else 0)) |}
                  | None => None
                  end
              | None => user w
              end |}.
Proof.
  intros Hq Hna.
  destruct (find_by_id_some (QuestionStore.questions (store w)) q
              (at_index_elem _ _ _ Hq)) as [q' Hfind].
  exists q'. split; [exact Hfind|].
  unfold selectAnswer. rewrite Hq, Hna.
  unfold QuestionStore.addUserAnswer. rewrite Hfind. reflexivity.
Qed.

End QuestionPageFacts.

(** X17: [loadMoreQuestions] appends the whole catalog, reshuffled, to the
    list of questions, but then shows the second question of the combined
    list, not the first new one: [setQuestions] puts the index back to 0
    and [nextQuestion] moves it to 1; the answers given so far, the shown
    explanations, [correctCount] and the streak are forgotten, while
    [answerRecords] keeps every entry. *)
Theorem loadMoreQuestions_restarts (env : MockData.Env)
    (rnd : MockData.Random) (w : QuestionPage.World) :
  MockData.sortShuffle rnd MockData.MOCK_QUESTIONS ≡ₚ MockData.MOCK_QUESTIONS ->
  let st := QuestionPage.store w in
  let st' := QuestionPage.store (QuestionPage.loadMoreQuestions env rnd w) in
  QuestionStore.questions st'
    = QuestionStore.questions st
      ++ MockData.sortShuffle rnd MockData.MOCK_QUESTIONS
  /\ QuestionStore.currentIndex st' = 1
  /\ QuestionStore.userAnswers st' = ∅
  /\ QuestionStore.showAnswers st' = ∅
  /\ QuestionStore.correctCount st' = 0
  /\ QuestionStore.currentStreak st' = 0
  /\ QuestionStore.answerRecords st' = QuestionStore.answerRecords st.
Proof.
  intros Hperm. cbv zeta. unfold QuestionPage.loadMoreQuestions.
  cbn [QuestionPage.store]. rewrite (more_questions env rnd Hperm).
  unfold QuestionStore.nextQuestion.
  cbn [QuestionStore.setQuestions QuestionStore.currentIndex
       QuestionStore.questions].
  assert (Hlen : (0 <? Z.of_nat
            (length (QuestionStore.questions (QuestionPage.store w)
                     ++ MockData.sortShuffle rnd MockData.MOCK_QUESTIONS)) - 1)
          = true).
  { apply Z.ltb_lt. rewrite length_app, Hperm. simpl. lia. }
  rewrite Hlen. simpl. repeat split.
Qed.

Lemma loadMoreQuestions_restarts_witness :
  let rnd0 :=
    {| MockData.sortShuffle := reverse; MockData.draw := fun _ => 0.5%float |} in
  let env0 :=
    {| MockData.env_profile := MockData.MOCK_USER_PROFILE;
       MockData.env_store := initialState |} in
  let w0 :=
    QuestionPage.initQuestions env0 rnd0
      {| QuestionPage.store := QuestionStore.initial;
         QuestionPage.profile := MockData.MOCK_USER_PROFILE;
         QuestionPage.user := None |} in
  QuestionStore.currentIndex
    (QuestionPage.store (QuestionPage.loadMoreQuestions env0 rnd0 w0)) = 1.
Proof.
  exact (proj1 (proj2 (loadMoreQuestions_restarts
    {| MockData.env_profile := MockData.MOCK_USER_PROFILE;
       MockData.env_store := initialState |}
    {| MockData.sortShuffle := reverse; MockData.draw := fun _ => 0.5%float |}
    (QuestionPage.initQuestions
       {| MockData.env_profile := MockData.MOCK_USER_PROFILE;
          MockData.env_store := initialState |}
       {| MockData.sortShuffle := reverse;
          MockData.draw := fun _ => 0.5%float |}
       {| QuestionPage.store := QuestionStore.initial;
          QuestionPage.profile := MockData.MOCK_USER_PROFILE;
          QuestionPage.user := None |})
    (reverse_Permutation _)))).
Defined.

(** X18: the guard of [selectAnswer] against a second answer reads the
    [userAnswers] that the render captured, not the store.  When the page
    shows a question that the render saw unanswered, a tap on an option
    that is not empty records one entry, marks the question answered and
    shown and reports one answer to the service.  Once the page has
    rendered again, a further tap, whatever the option, changes nothing.
    But a second tap that still runs in the first render passes the guard
    again: the store gets a second entry and counts a correct answer twice,
    and the service counts two answers, while the totals of the user, being
    computed from the captured user, count one. *)
Theorem selectAnswer_double_tap (w : QuestionPage.World) (q : Question)
    (a a' : string) (rt1 now1 rt2 now2 : Z) :
  QuestionStore.getCurrentQuestion (QuestionPage.store w) = Some q ->
  QuestionPage.answered
    (QuestionStore.userAnswers (QuestionPage.store w)) (id q) = false ->
  a <> "" ->
  let r := QuestionPage.render w in
  let w1 := QuestionPage.selectAnswer r a rt1 now1 w in
  let w2 := QuestionPage.selectAnswer r a rt2 now2 w1 in
  exists q',
    List.find (fun x => String.eqb (id x) (id q))
      (QuestionStore.questions (QuestionPage.store w)) = Some q'
    /\ let ok := String.eqb a (correctAnswer q') in
       let entry (rt now : Z) :=
         {| QuestionStore.e_questionId := id q;
            QuestionStore.e_userAnswer := a;
            QuestionStore.e_isCorrect := ok;
            QuestionStore.e_responseTime := rt;
            QuestionStore.e_timestamp := now |} in
       QuestionStore.answerRecords (QuestionPage.store w1)
       = QuestionStore.answerRecords (QuestionPage.store w) ++ [entry rt1 now1]
       /\ QuestionStore.userAnswers (QuestionPage.store w1)
          = <[id q := a]> (QuestionStore.userAnswers (QuestionPage.store w))
       /\ QuestionStore.showAnswers (QuestionPage.store w1)
          = <[id q := true]> (QuestionStore.showAnswers (QuestionPage.store w))
       /\ QuestionStore.correctCount (QuestionPage.store w1)
          = QuestionStore.correctCount (QuestionPage.store w)
            + (if ok then 1 else 0)
       /\ QuestionPage.profile w1
          = MockData.updateUserStats (id q) (String.eqb a (correctAnswer q))
              rt1 (QuestionPage.profile w)
       /\ QuestionPage.selectAnswer (QuestionPage.render w1) a' rt2 now2 w1
          = w1
       /\ QuestionStore.answerRecords (QuestionPage.store w2)
          = QuestionStore.answerRecords (QuestionPage.store w)
            ++ [entry rt1 now1; entry rt2 now2]
       /\ QuestionStore.correctCount (QuestionPage.store w2)
          = QuestionStore.correctCount (QuestionPage.store w)
            + (if ok then 2 else 0)
       /\ MockData.p_totalQuestions (QuestionPage.profile w2)
          = MockData.p_totalQuestions (QuestionPage.profile w) + 2
       /\ QuestionPage.user w2 = QuestionPage.user w1.
Proof.
  intros Hq Hna Ha. cbv zeta.
  destruct (selectAnswer_records (QuestionPage.render w) a rt1 now1 w q Hq Hna)
    as (q' & Hfind & H1).
  exists q'. split; [exact Hfind|].
  set (w1 := QuestionPage.selectAnswer (QuestionPage.render w) a rt1 now1 w)
    in *.
  assert (Hq1 : QuestionStore.getCurrentQuestion (QuestionPage.store w1)
                = Some q) by (rewrite H1; exact Hq).
  destruct (selectAnswer_records (QuestionPage.render w) a rt2 now2 w1 q
              Hq1 Hna) as (q2 & Hfind2 & H2).
  assert (Eq2 : q2 = q').
  { rewrite H1 in Hfind2. cbn [QuestionPage.store QuestionStore.questions]
      in Hfind2. congruence. }
  subst q2. rewrite H2.
  split; [rewrite H1; reflexivity|].
  split; [rewrite H1; reflexivity|].
  split; [rewrite H1; reflexivity|].
  split.
  { rewrite H1. cbn [QuestionPage.store QuestionStore.correctCount].
    destruct (String.eqb a (correctAnswer q')); lia. }
  split; [rewrite H1; reflexivity|].
  split.
  { unfold QuestionPage.selectAnswer. rewrite Hq1.
    assert (Hans : QuestionPage.answered
                     (QuestionPage.r_userAnswers (QuestionPage.render w1))
                     (id q) = true).
    { unfold QuestionPage.answered, QuestionPage.render.
      cbn [QuestionPage.r_userAnswers]. rewrite H1.
      cbn [QuestionPage.store QuestionStore.userAnswers].
      rewrite lookup_insert_eq.
      apply negb_true_iff, String.eqb_neq, Ha. }
    rewrite Hans. reflexivity. }
  cbn [QuestionPage.store QuestionPage.profile QuestionPage.user
       QuestionStore.answerRecords QuestionStore.correctCount].
  rewrite H1.
  cbn [QuestionPage.store QuestionPage.profile QuestionPage.user
       QuestionStore.answerRecords QuestionStore.correctCount
       QuestionPage.render QuestionPage.r_user].
  split; [rewrite <- app_assoc; reflexivity|].
  split; [destruct (String.eqb a (correctAnswer q')); lia|].
  split; [simpl; lia|].
  destruct (QuestionPage.user w); reflexivity.
Qed.

Lemma selectAnswer_double_tap_witness :
  let rnd0 :=
    {| MockData.sortShuffle := reverse; MockData.draw := fun _ => 0.5%float |} in
  let env0 :=
    {| MockData.env_profile := MockData.MOCK_USER_PROFILE;
       MockData.env_store := initialState |} in
  let w0 :=
    QuestionPage.initQuestions env0 rnd0
      {| QuestionPage.store := QuestionStore.initial;
         QuestionPage.profile := MockData.MOCK_USER_PROFILE;
         QuestionPage.user := None |} in
  let r0 := QuestionPage.render w0 in
  let w1 := QuestionPage.selectAnswer r0 "B" 800 1000 w0 in
  QuestionPage.selectAnswer (QuestionPage.render w1) "A" 900 2000 w1 = w1
  /\ length (QuestionStore.answerRecords
               (QuestionPage.store
                  (QuestionPage.selectAnswer r0 "B" 900 2000 w1))) = 2%nat.
Proof.
  destruct (selectAnswer_double_tap
    (QuestionPage.initQuestions
       {| MockData.env_profile := MockData.MOCK_USER_PROFILE;
          MockData.env_store := initialState |}
       {| MockData.sortShuffle := reverse;
          MockData.draw := fun _ => 0.5%float |}
       {| QuestionPage.store := QuestionStore.initial;
          QuestionPage.profile := MockData.MOCK_USER_PROFILE;
          QuestionPage.user := None |})
    MockData.q_005 "B" "A" 800 1000 900 2000)
    as (q' & _ & _ & _ & _ & _ & _ & Hre & Hrec & _).
  - reflexivity.
  - reflexivity.
  - discriminate.
  - split; [exact Hre|]. rewrite Hrec. reflexivity.
Defined.

(** * Properties of the wrong-answers page *)

Section WrongAnswersPageFacts.

Import WrongAnswersPage.

Lemma filter_from_notAt (c i : nat) (self l : list Question) :
  filter_from (notAt (Z.of_nat c)) self i l
  = if (i <=? c)%nat then delete (c - i)%nat l else l.
Proof.
  revert i. induction l as [|x t IH]; intros i.
  - simpl. destruct (i <=? c)%nat; reflexivity.
  - cbn [filter_from]. unfold notAt at 1. rewrite IH.
    destruct (Z.of_nat i =? Z.of_nat c) eqn:E; cbn [negb].
    + apply Z.eqb_eq in E. apply Nat2Z.inj in E. subst i.
      assert (H1 : (S c <=? c)%nat = false) by (apply Nat.leb_gt; lia).
      rewrite H1, Nat.leb_refl, Nat.sub_diag. reflexivity.
    + apply Z.eqb_neq in E.
      destruct (i <=? c)%nat eqn:Hle.
      * apply Nat.leb_le in Hle.
        assert (H1 : (S i <=? c)%nat = true) by (apply Nat.leb_le; lia).
        rewrite H1. replace (c - i)%nat with (S (c - S i)) by lia.
        reflexivity.
      * apply Nat.leb_gt in Hle.
        assert (H1 : (S i <=? c)%nat = false) by (apply Nat.leb_gt; lia).
        rewrite H1. reflexivity.
Qed.

Lemma filter_indexed_notAt (c : nat) (l : list Question) :
  filter_indexed (notAt (Z.of_nat c)) l = delete c l.
Proof.
  unfold filter_indexed. rewrite filter_from_notAt. simpl.
  rewrite Nat.sub_0_r. reflexivity.
Qed.

Lemma handleAnswer_total (answer : option string) (p : Page) :
  wellIndexed p -> wrongQuestions p <> [] ->
  exists p',
    handleAnswer answer p = Some p'
    /\ wellIndexed p'
    /\ pageStore p' = pageStore p
    /\ ((wrongQuestions p' = wrongQuestions p
         /\ pageIndex p' = pageIndex p /\ showExplanation p' = true)
        \/ (exists q,
              at_index (wrongQuestions p) (pageIndex p) = Some q
              /\ isAnswer answer q = true
              /\ wrongQuestions p'
                 = delete (Z.to_nat (pageIndex p)) (wrongQuestions p)
              /\ S (length (wrongQuestions p'))
                 = length (wrongQuestions p))).
Proof.
  intros [H0 Hlt] Hne. unfold handleAnswer.
  assert (Hrange : 0 <= pageIndex p < Z.of_nat (length (wrongQuestions p))).
  { destruct (wrongQuestions p); [congruence|simpl in *; lia]. }
  destruct (at_index_in_range _ _ Hrange) as [q Hq]. rewrite Hq.
  destruct (isAnswer answer q) eqn:E.
  - eexists. split; [reflexivity|].
    assert (Hdel : filter_indexed (notAt (pageIndex p)) (wrongQuestions p)
                   = delete (Z.to_nat (pageIndex p)) (wrongQuestions p)).
    { rewrite <- filter_indexed_notAt. rewrite Z2Nat.id by lia. reflexivity. }
    rewrite Hdel.
    assert (Hlen : S (length (delete (Z.to_nat (pageIndex p)) (wrongQuestions p)))
                   = length (wrongQuestions p)).
    { rewrite length_delete; [lia|]. apply lookup_lt_is_Some_2. lia. }
    cbn [wrongQuestions pageIndex pageStore showExplanation].
    split; [|split; [reflexivity|]].
    + unfold wellIndexed. cbn [wrongQuestions pageIndex].
      destruct ((Z.of_nat (length (delete (Z.to_nat (pageIndex p))
                                     (wrongQuestions p))) <=? pageIndex p)
                && (0 <? Z.of_nat (length (delete (Z.to_nat (pageIndex p))
                                             (wrongQuestions p))))) eqn:Eb.
      * apply andb_prop in Eb as [E1 E2]. apply Z.ltb_lt in E2. lia.
      * apply andb_false_iff in Eb as [Eb|Eb];
          [apply Z.leb_gt in Eb|apply Z.ltb_ge in Eb]; lia.
    + right. exists q. auto.
  - eexists. split; [reflexivity|]. simpl.
    split; [split; assumption|]. split; [reflexivity|]. left. auto.
Qed.

Lemma handleAnswer_exact (answer : option string) (p : Page) :
  wellIndexed p -> wrongQuestions p <> [] ->
  exists q p',
    at_index (wrongQuestions p) (pageIndex p) = Some q
    /\ handleAnswer answer p = Some p'
    /\ wellIndexed p'
    /\ pageStore p' = pageStore p
    /\ if isAnswer answer q
       then wrongQuestions p'
            = delete (Z.to_nat (pageIndex p)) (wrongQuestions p)
            /\ S (length (wrongQuestions p')) = length (wrongQuestions p)
            /\ pageIndex p'
               = Z.min (pageIndex p)
                   (Z.max 0 (Z.of_nat (length (wrongQuestions p')) - 1))
            /\ showExplanation p' = showExplanation p
       else wrongQuestions p' = wrongQuestions p
            /\ pageIndex p' = pageIndex p
            /\ showExplanation p' = true.
Proof.
  intros [H0 Hlt] Hne. unfold handleAnswer.
  assert (Hrange : 0 <= pageIndex p < Z.of_nat (length (wrongQuestions p))).
  { destruct (wrongQuestions p); [congruence|simpl in *; lia]. }
  destruct (at_index_in_range _ _ Hrange) as [q Hq]. rewrite Hq.
  exists q. destruct (isAnswer answer q) eqn:E.
  - assert (Hdel : filter_indexed (notAt (pageIndex p)) (wrongQuestions p)
                   = delete (Z.to_nat (pageIndex p)) (wrongQuestions p)).
    { rewrite <- filter_indexed_notAt. rewrite Z2Nat.id by lia. reflexivity. }
    rewrite Hdel.
    assert (Hlen : S (length (delete (Z.to_nat (pageIndex p)) (wrongQuestions p)))
                   = length (wrongQuestions p)).
    { rewrite length_delete; [lia|]. apply lookup_lt_is_Some_2. lia. }
    eexists. split; [reflexivity|]. split; [reflexivity|].
    cbn [wrongQuestions pageIndex pageStore showExplanation].
    assert (Hidx :
      (if (Z.of_nat (length (delete (Z.to_nat (pageIndex p)) (wrongQuestions p)))
           <=? pageIndex p)
          && (0 <? Z.of_nat (length (delete (Z.to_nat (pageIndex p))
                                       (wrongQuestions p))))
       then Z.of_nat (length (delete (Z.to_nat (pageIndex p))
                                (wrongQuestions p))) - 1
       else pageIndex p)
      = Z.min (pageIndex p)
          (Z.max 0 (Z.of_nat (length (delete (Z.to_nat (pageIndex p))
                                        (wrongQuestions p))) - 1))).
    { destruct ((_ <=? _) && (_ <? _)) eqn:Eb.
      - apply andb_prop in Eb as [E1 E2]. apply Z.leb_le in E1.
        apply Z.ltb_lt in E2. lia.
      - apply andb_false_iff in Eb as [Eb|Eb];
          [apply Z.leb_gt in Eb|apply Z.ltb_ge in Eb]; lia. }
    rewrite Hidx. split; [|split; [reflexivity|]].
    + unfold wellIndexed. cbn [wrongQuestions pageIndex]. lia.
    + repeat split. exact Hlen.
  - eexists. split; [reflexivity|]. split; [reflexivity|]. simpl.
    split; [split; assumption|]. repeat split.
Qed.

Lemma wellIndexed_handle (p p' : Page) (e : Event) :
  wellIndexed p -> handle p e = Some p' -> wellIndexed p'.
Proof.
  intros Hw. unfold handle.
  destruct (wrongQuestions p) as [|q l] eqn:El; [congruence|].
  destruct e as [o| | | |].
  - intros H.
    destruct (handleAnswer_total (optionKey o) p Hw) as (p2 & H2 & Hw2 & _);
      [rewrite El; discriminate|congruence].
  - intros [= <-]. unfold pageNext. destruct Hw as [H0 Hlt].
    destruct (pageIndex p <? Z.of_nat (length (wrongQuestions p)) - 1) eqn:E;
      [|split; assumption].
    apply Z.ltb_lt in E. split; simpl; lia.
  - intros [= <-]. unfold pagePrev. destruct Hw as [H0 Hlt].
    destruct (pageIndex p >? 0) eqn:E; [|split; assumption].
    apply Z.gtb_gt in E. split; simpl; lia.
  - intros [= <-]. exact Hw.
  - intros [= <-]. split; simpl; lia.
Qed.

Lemma handle_total (p : Page) (e : Event) :
  wellIndexed p -> exists p', handle p e = Some p'.
Proof.
  intros Hw. unfold handle.
  destruct (wrongQuestions p) as [|q l] eqn:El; [eauto|].
  destruct e as [o| | | |]; eauto.
  destruct (handleAnswer_total (optionKey o) p Hw) as (p2 & H2 & _);
    [rewrite El; discriminate|eauto].
Qed.

Lemma handle_keeps_list (p p' : Page) (e : Event) :
  isClearAll e = false -> handle p e = Some p' ->
  wrongQuestions p' = wrongQuestions p /\ pageStore p' = pageStore p.
Proof.
  intros He. unfold handle.
  destruct (wrongQuestions p) as [|q l] eqn:El; [intros [= <-]; auto|].
  destruct e as [o| | | |]; try discriminate He.
  - unfold handleAnswer, optionKey, isAnswer.
    destruct (at_index (wrongQuestions p) (pageIndex p)); [|discriminate].
    intros [= <-]. simpl. auto.
  - intros [= <-]. unfold pageNext. destruct (_ <? _); simpl; auto.
  - intros [= <-]. unfold pagePrev. destruct (_ >? _); simpl; auto.
  - intros [= <-]. simpl. auto.
Qed.

End WrongAnswersPageFacts.

(** X19: on a page whose index points into a list that is not empty,
    [handleAnswer] never reads outside the list and never touches the
    store.  With the correct key of the question at the index it removes
    exactly that question, so the list gets shorter by one; the index stays
    where it was, unless the last question was removed, when it is pulled
    back to the new last question (or stays 0 for a list that became empty);
    the explanation flag is not changed.  With any other value, [undefined]
    included, list and index stay as they are and the explanation is
    opened. *)
Theorem handleAnswer_keeps_index (answer : option string)
    (p : WrongAnswersPage.Page) :
  WrongAnswersPage.wellIndexed p ->
  WrongAnswersPage.wrongQuestions p <> [] ->
  exists q p',
    at_index (WrongAnswersPage.wrongQuestions p)
      (WrongAnswersPage.pageIndex p) = Some q
    /\ WrongAnswersPage.handleAnswer answer p = Some p'
    /\ WrongAnswersPage.wellIndexed p'
    /\ WrongAnswersPage.pageStore p' = WrongAnswersPage.pageStore p
    /\ if WrongAnswersPage.isAnswer answer q
       then WrongAnswersPage.wrongQuestions p'
            = delete (Z.to_nat (WrongAnswersPage.pageIndex p))
                (WrongAnswersPage.wrongQuestions p)
            /\ S (length (WrongAnswersPage.wrongQuestions p'))
               = length (WrongAnswersPage.wrongQuestions p)
            /\ WrongAnswersPage.pageIndex p'
               = Z.min (WrongAnswersPage.pageIndex p)
                   (Z.max 0
                      (Z.of_nat (length (WrongAnswersPage.wrongQuestions p'))
                       - 1))
            /\ WrongAnswersPage.showExplanation p'
               = WrongAnswersPage.showExplanation p
       else WrongAnswersPage.wrongQuestions p'
            = WrongAnswersPage.wrongQuestions p
            /\ WrongAnswersPage.pageIndex p' = WrongAnswersPage.pageIndex p
            /\ WrongAnswersPage.showExplanation p' = true.
Proof. apply handleAnswer_exact. Qed.

Lemma handleAnswer_keeps_index_witness :
  let p0 :=
    WrongAnswersPage.mount
      (recordAll [Sample.wrong MockData.q_001 "01";
                  Sample.wrong MockData.q_002 "02"] initialState) in
  exists p',
    WrongAnswersPage.handleAnswer (Some "C") p0 = Some p'
    /\ WrongAnswersPage.wrongQuestions p' = [MockData.q_002]
    /\ WrongAnswersPage.pageIndex p' = 0.
Proof.
  destruct (handleAnswer_keeps_index (Some "C")
    (WrongAnswersPage.mount
       (recordAll [Sample.wrong MockData.q_001 "01";
                   Sample.wrong MockData.q_002 "02"] initialState)))
    as (q & p' & Hq & Hp & _ & _ & H).
  - split; vm_compute; [discriminate|reflexivity].
  - vm_compute. discriminate.
  - vm_compute in Hq. injection Hq as <-.
    change (WrongAnswersPage.isAnswer (Some "C") MockData.q_001) with true in H.
    destruct H as (Hl & _ & Hi & _).
    exists p'. split; [exact Hp|]. split; [exact Hl|].
    rewrite Hi, Hl. reflexivity.
Defined.

(** X20: the options of a question are strings, so a tap on an option
    calls [handleAnswer(undefined)], which matches no correct answer:
    whatever the user taps on the wrong-answers page, short of "clear all",
    the list shown stays the book as it was when the page was opened and
    the store is not changed; no sequence of taps reads outside the list,
    and the index always points into it. *)
Theorem review_never_shrinks (st : AppState)
    (es : list WrongAnswersPage.Event) :
  exists p,
    WrongAnswersPage.handleAll es (WrongAnswersPage.mount st) = Some p
    /\ WrongAnswersPage.wellIndexed p
    /\ (existsb WrongAnswersPage.isClearAll es = false ->
        WrongAnswersPage.wrongQuestions p = getWrongQuestions st
        /\ WrongAnswersPage.pageStore p = st).
Proof.
  assert (Hgen : forall es p0,
    WrongAnswersPage.wellIndexed p0 ->
    exists p,
      WrongAnswersPage.handleAll es p0 = Some p
      /\ WrongAnswersPage.wellIndexed p
      /\ (existsb WrongAnswersPage.isClearAll es = false ->
          WrongAnswersPage.wrongQuestions p = WrongAnswersPage.wrongQuestions p0
          /\ WrongAnswersPage.pageStore p = WrongAnswersPage.pageStore p0)).
  { clear. induction es as [|e es IH]; intros p0 Hw; simpl.
    - exists p0. auto.
    - destruct (handle_total p0 e Hw) as [p1 H1]. rewrite H1.
      destruct (IH p1 (wellIndexed_handle _ _ _ Hw H1)) as (p & Hp & Hwp & Hk).
      exists p. split; [exact Hp|]. split; [exact Hwp|].
      intros Hc. apply orb_false_elim in Hc as [He Hes].
      destruct (handle_keeps_list _ _ _ He H1) as [E1 E2].
      rewrite <- E1, <- E2. apply Hk, Hes. }
  apply (Hgen es (WrongAnswersPage.mount st)).
  split; simpl; lia.
Qed.

(** * The mastery update, tag by tag *)

Section MasteryExact.

(** The score that one step writes under a tag depends on the matrix only
    through what it held under that tag. *)
Lemma updatePoint_lookup_congr (correct0 : bool)
    (m m' : gmap string JS.number) (k : string) :
  m' !! k = m !! k ->
  updatePoint correct0 m' k !! k = updatePoint correct0 m k !! k.
Proof.
  intros H. unfold updatePoint, JS.get, JS.set. rewrite H.
  destruct (m !! k) as [x|] eqn:E.
  - rewrite !lookup_insert_eq. reflexivity.
  - destruct (String.eqb k "__proto__"); [congruence|].
    rewrite !lookup_insert_eq. reflexivity.
Qed.

Lemma updateMastery_lookup_tag (correct0 : bool) (points : list string)
    (m : gmap string JS.number) (k : string) :
  NoDup points -> k ∈ points ->
  updateMastery correct0 points m !! k = updatePoint correct0 m k !! k.
Proof.
  induction points as [|p points IH] using rev_ind; intros Hnd Hk.
  - inversion Hk.
  - rewrite updateMastery_snoc. apply NoDup_app in Hnd as (Hnd & Hp & _).
    destruct (decide (k = p)) as [->|Hne].
    + apply updatePoint_lookup_congr, updateMastery_lookup_other.
      intros Hin. apply (Hp p Hin). left.
    + rewrite updatePoint_lookup_other by exact Hne. apply IH; [exact Hnd|].
      apply elem_of_app in Hk as [Hk|Hk]; [exact Hk|].
      apply list_elem_of_singleton in Hk. contradiction.
Qed.

Lemma updatePoint_lookup_cases (correct0 : bool) (m : gmap string JS.number)
    (k : string) :
  updatePoint correct0 m k !! k
  = match m !! k with
    | Some v =>
        Some (masteryRule (Some (if JS.truthy v then v else 0.5%float)) correct0)
    | None =>
        if JS.isMethodName k then Some nan
        else if String.eqb k "__proto__" then None
        else Some (masteryRule None correct0)
    end.
Proof.
  destruct (m !! k) as [v|] eqn:E.
  - rewrite updatePoint_lookup_same by (right; eauto). rewrite E. reflexivity.
  - destruct (JS.isMethodName k) eqn:Em.
    + rewrite updatePoint_method by assumption. apply lookup_insert_eq.
    + destruct (String.eqb k "__proto__") eqn:Ep.
      * apply String.eqb_eq in Ep. subst k.
        rewrite updatePoint_proto by exact E. exact E.
      * rewrite updatePoint_lookup_same, E; [reflexivity|].
        left. unfold JS.inherited. rewrite Em, Ep. reflexivity.
Qed.

End MasteryExact.

(** X21: for a question whose tags are pairwise distinct, [submitAnswer]
    leaves under each tag: the score [clamp(old + (correct ? 0.1 : -0.05),
    0, 1)] when the tag holds a truthy score [old]; that score computed from
    [0.5] when the stored score is falsy (0 or [NaN]), or when the tag holds
    no score and names no member of [Object.prototype]; [NaN] when the tag
    holds no score and names an inherited method; and nothing when the tag
    is [__proto__] and holds no score.  So the code follows the update rule
    of the specification on every tag whose stored score is truthy, and on
    every tag without a score that names no inherited member. *)
Theorem submitAnswer_tag_score (st : AppState) (q : Question)
    (answer : string) (rt : Z) (now k : string) :
  currentQuestion st = Some q ->
  NoDup (knowledgePoints q) ->
  k ∈ knowledgePoints q ->
  let old := masteryMatrix (userProfile st) !! k in
  let ok := String.eqb answer (correctAnswer q) in
  let new := masteryMatrix (userProfile (submitAnswer answer rt now st)) !! k in
  new = match old with
        | Some v =>
            Some (masteryRule (Some (if JS.truthy v then v else 0.5%float)) ok)
        | None =>
            if JS.isMethodName k then Some nan
            else if String.eqb k "__proto__" then None
            else Some (masteryRule None ok)
        end
  /\ (match old with
      | Some v => JS.truthy v = true
      | None => JS.inherited k = false
      end ->
      new = Some (masteryRule old ok)).
Proof.
  intros Hq Hnd Hk. cbv zeta. unfold submitAnswer. rewrite Hq. simpl.
  rewrite updateMastery_lookup_tag by assumption.
  split; [apply updatePoint_lookup_cases|].
  apply updatePoint_follows_rule.
Qed.

Lemma submitAnswer_tag_score_witness :
  masteryMatrix (userProfile
    (submitAnswer "C" 1500 (Sample.at_ "01")
       (setCurrentQuestion (Some MockData.q_001) initialState)))
    !! "关系类型"
  = Some (masteryRule None true).
Proof.
  refine (proj2 (submitAnswer_tag_score
    (setCurrentQuestion (Some MockData.q_001) initialState)
    MockData.q_001 "C" 1500 (Sample.at_ "01") "关系类型" eq_refl _ _) eq_refl).
  - apply (bool_decide_unpack _). vm_compute. exact I.
  - apply (bool_decide_unpack _). vm_compute. exact I.
Defined.

(** * How many recommendations come back *)

(** X22: [getRecommendedQuestions(count)] returns [min(count, 5)]
    recommendations for a count that is not negative, the whole catalog
    when no count is given, and, [slice(0, count)] counting a negative
    count from the end, [max(5 + count, 0)] of them for a negative count;
    it never returns more than the catalog holds. *)
Theorem getRecommendedQuestions_count (env : MockData.Env)
    (rnd : MockData.Random) (count : option Z) :
  MockData.sortShuffle rnd MockData.MOCK_QUESTIONS ≡ₚ MockData.MOCK_QUESTIONS ->
  let c := default 5 count in
  let n := Z.of_nat (length (MockData.getRecommendedQuestions env rnd count)) in
  (0 <= c -> n = Z.min c 5)
  /\ (c < 0 -> n = Z.max (5 + c) 0)
  /\ n <= 5
  /\ (count = None ->
      map MockData.rec_question (MockData.getRecommendedQuestions env rnd count)
      = MockData.sortShuffle rnd MockData.MOCK_QUESTIONS).
Proof.
  intros Hperm. cbv zeta.
  assert (Hlen : length (MockData.sortShuffle rnd MockData.MOCK_QUESTIONS)
                 = 5%nat) by (rewrite Hperm; reflexivity).
  assert (Hn : length (MockData.getRecommendedQuestions env rnd count)
               = length (MockData.slice0
                           (MockData.sortShuffle rnd MockData.MOCK_QUESTIONS)
                           (default 5 count))).
  { unfold MockData.getRecommendedQuestions.
    rewrite <- (recommendFrom_questions _ env rnd count), length_map.
    reflexivity. }
  rewrite Hn. unfold MockData.slice0. rewrite Hlen.
  destruct (default 5 count <? 0) eqn:E;
    [apply Z.ltb_lt in E|apply Z.ltb_ge in E];
    rewrite length_take, Hlen.
  - split; [lia|]. split; [lia|]. split; [lia|]. intros ->. simpl in E. lia.
  - split; [lia|]. split; [lia|]. split; [lia|]. intros ->.
    unfold MockData.getRecommendedQuestions.
    rewrite recommendFrom_questions. apply slice0_all. rewrite Hlen.
    simpl. lia.
Qed.

Lemma getRecommendedQuestions_count_witness :
  let rnd0 :=
    {| MockData.sortShuffle := reverse; MockData.draw := fun _ => 0.5%float |} in
  let env0 :=
    {| MockData.env_profile := MockData.MOCK_USER_PROFILE;
       MockData.env_store := initialState |} in
  Z.of_nat (length (MockData.getRecommendedQuestions env0 rnd0 (Some (-1))))
  = Z.max (5 + -1) 0.
Proof.
  refine (proj1 (proj2 (getRecommendedQuestions_count
    {| MockData.env_profile := MockData.MOCK_USER_PROFILE;
       MockData.env_store := initialState |}
    {| MockData.sortShuffle := reverse; MockData.draw := fun _ => 0.5%float |}
    (Some (-1)) (reverse_Permutation _))) _).
  simpl. lia.
Defined.

(** * The mastery bound over plain tags *)

(** X23: as long as no answered question carries a tag that names a member
    of [Object.prototype], the mastery scores stay in [0, 1]: from any state
    whose scores lie in [0, 1], after each of the updates of any sequence of
    recorded answers (that is, after every prefix of the sequence) all
    scores still lie in [0, 1]. *)
Theorem plain_tags_keep_scores_in_unit (st : AppState) (evs : list Submission)
    (n : nat) :
  plainTags evs ->
  scoresInUnit (masteryMatrix (userProfile st)) ->
  scoresInUnit (masteryMatrix (userProfile (recordAll (take n evs) st))).
Proof.
  intros Hp. apply recordAll_in_unit. apply Forall_take, Hp.
Qed.

Lemma plain_tags_keep_scores_in_unit_witness :
  scoresInUnit (masteryMatrix (userProfile
    (recordAll (take 2 [Sample.wrong MockData.q_001 "01";
                        Sample.right MockData.q_001 "02";
                        Sample.right MockData.q_002 "03"]) initialState))).
Proof.
  apply (plain_tags_keep_scores_in_unit initialState
    [Sample.wrong MockData.q_001 "01"; Sample.right MockData.q_001 "02";
     Sample.right MockData.q_002 "03"] 2).
  - repeat constructor.
  - apply map_Forall_empty.
Defined.
